(** * Resume/JD analysis proxy: text sanitizer, completion client, response
      normalizers and the [analyze] orchestrator.

    A shallow embedding of [utils/sanitizeText.ts], [services/openai.service.ts]
    and [controllers/analyze.controller.ts].  JavaScript strings are sequences
    of UTF-16 code units, JSON data is an untyped value tree, and the
    asynchronous service functions are state-passing computations over a
    world that records every outbound request, every back-off delay and every
    console line. *)

From Stdlib Require Import List NArith ZArith QArith String Ascii Bool Lia.
From Stdlib Require Import DecimalString.
Import ListNotations.

Set Implicit Arguments.
Set Warnings "-register-all,-abstract-large-number".

(* ================================================================= *)
(** ** JavaScript strings *)

Module JsString.
Local Open Scope N_scope.

(** A UTF-16 code unit; [String.prototype.length] counts these. *)
Definition code_unit := N.
Definition jsstring := list code_unit.

(** An ASCII literal as a JavaScript string. *)
Definition js (s : string) : jsstring :=
  map N_of_ascii (list_ascii_of_string s).

Definition in_range (lo hi c : code_unit) : bool :=
  (lo <=? c) && (c <=? hi).

Definition is_digit (c : code_unit) : bool := in_range 48 57 c.
Definition is_upper (c : code_unit) : bool := in_range 65 90 c.
Definition is_lower (c : code_unit) : bool := in_range 97 122 c.
Definition is_alnum (c : code_unit) : bool :=
  is_upper c || is_lower c || is_digit c.

(** [\w] *)
Definition is_word (c : code_unit) : bool := is_alnum c || (c =? 95).

(** [\s], which is also the set stripped by [trim]: WhiteSpace and
    LineTerminator of ECMAScript. *)
Definition is_space (c : code_unit) : bool :=
  in_range 9 13 c || (c =? 32) || (c =? 0xA0) || (c =? 0x1680)
  || in_range 0x2000 0x200A c || (c =? 0x2028) || (c =? 0x2029)
  || (c =? 0x202F) || (c =? 0x205F) || (c =? 0x3000) || (c =? 0xFEFF).

(** [[^\x00-\x7F]] *)
Definition is_non_ascii (c : code_unit) : bool := negb (in_range 0 0x7F c).

(** [[\u0000-\u001F\u007F]] *)
Definition is_control (c : code_unit) : bool :=
  in_range 0 0x1F c || (c =? 0x7F).

Definition one_of (cs : list code_unit) (c : code_unit) : bool :=
  existsb (N.eqb c) cs.

Fixpoint trimStart (s : jsstring) : jsstring :=
  match s with
  | c :: s' => if is_space c then trimStart s' else s
  | [] => []
  end.

Definition trimEnd (s : jsstring) : jsstring := rev (trimStart (rev s)).

(** [s.trim()] *)
Definition trim (s : jsstring) : jsstring := trimEnd (trimStart s).

(** [s.substring(0, n)] and [s.slice(0, n)] for a literal [n >= 0]. *)
Definition substring0 (n : nat) (s : jsstring) : jsstring := firstn n s.
Definition slice0 (n : nat) (s : jsstring) : jsstring := firstn n s.

Definition is_empty (s : jsstring) : bool :=
  match s with [] => true | _ => false end.

End JsString.
Export JsString.

(* ================================================================= *)
(** ** Regular expressions (the fragment [sanitizeText] uses)

    A backtracking matcher with the priorities of ECMAScript: greedy
    quantifiers try the longest repetition first and give characters back
    when the rest of the pattern fails.  No pattern of the sanitizer has the
    [u] or [i] flag, so matching is per code unit and case sensitive. *)

Module Regex.
Local Open Scope N_scope.

Inductive regex : Type :=
| Class (p : code_unit -> bool)                      (* one unit of a class *)
| Seq (r1 r2 : regex)
| Opt (r : regex)                                    (* [(?:r)?], greedy *)
| Rep (p : code_unit -> bool) (min : nat) (max : option nat)
                                                     (* [[p]{min,max}] *)
| WordBoundary.                                      (* [\b] *)

Definition Lit (c : code_unit) : regex := Class (N.eqb c).
Definition Plus (p : code_unit -> bool) : regex := Rep p 1%nat None.
Definition Exactly (n : nat) (p : code_unit -> bool) : regex :=
  Rep p n (Some n).
Definition Maybe (p : code_unit -> bool) : regex := Rep p 0%nat (Some 1%nat).

Fixpoint seq (rs : list regex) : regex :=
  match rs with
  | [] => Rep (fun _ => false) 0%nat (Some 0%nat)
  | [r] => r
  | r :: rs' => Seq r (seq rs')
  end.

Section Matcher.
Variable A : Type.

(** A continuation receives the unit before the current position (if
    any) and the input that is left. *)
Definition cont := option code_unit -> jsstring -> option A.

Definition word_before (prev : option code_unit) : bool :=
  match prev with Some c => is_word c | None => false end.

Definition word_after (s : jsstring) : bool :=
  match s with c :: _ => is_word c | [] => false end.

Fixpoint rep (p : code_unit -> bool) (min : nat) (max : option nat)
         (prev : option code_unit) (s : jsstring) (k : cont) {struct s}
  : option A :=
  let stop := match min with O => k prev s | S _ => None end in
  match max with
  | Some O => stop
  | _ =>
      match s with
      | c :: s' =>
          if p c then
            match rep p (pred min) (option_map pred max) (Some c) s' k with
            | Some r => Some r
            | None => stop
            end
          else stop
      | [] => stop
      end
  end.

Fixpoint run (r : regex) (prev : option code_unit) (s : jsstring)
         (k : cont) {struct r} : option A :=
  match r with
  | Class p =>
      match s with
      | c :: s' => if p c then k (Some c) s' else None
      | [] => None
      end
  | Seq r1 r2 => run r1 prev s (fun prev' s' => run r2 prev' s' k)
  | Opt r1 =>
      match run r1 prev s k with
      | Some x => Some x
      | None => k prev s
      end
  | Rep p min max => rep p min max prev s k
  | WordBoundary =>
      if xorb (word_before prev) (word_after s) then k prev s else None
  end.
End Matcher.

(** The input left after the first-priority match of [r] at the current
    position, when there is one. *)
Definition match_here (r : regex) (prev : option code_unit) (s : jsstring)
  : option jsstring :=
  run r prev s (fun _ rest => Some rest).

(** [s.replace(/r/g, replacement)] for a replacement without [$]
    patterns.  [skip] counts the units of the current match that are still
    to be dropped; an empty match inserts the replacement and moves on by
    one unit. *)
Fixpoint replace_from (r : regex) (replacement : jsstring)
         (prev : option code_unit) (skip : nat) (s : jsstring) : jsstring :=
  match s with
  | [] =>
      match skip, match_here r prev [] with
      | O, Some _ => replacement
      | _, _ => []
      end
  | c :: s' =>
      match skip with
      | S n => replace_from r replacement (Some c) n s'
      | O =>
          match match_here r prev s with
          | Some rest =>
              match (List.length s - List.length rest)%nat with
              | O => replacement ++ c :: replace_from r replacement (Some c) 0%nat s'
              | S n => replacement ++ replace_from r replacement (Some c) n s'
              end
          | None => c :: replace_from r replacement (Some c) 0%nat s'
          end
      end
  end.

Definition replace_all (r : regex) (replacement : jsstring) (s : jsstring)
  : jsstring :=
  replace_from r replacement None 0%nat s.

End Regex.
Import Regex.


(* ================================================================= *)
(** ** Numbers and values *)

(** A JavaScript number: a finite double is kept as the rational it denotes.
    The service only compares numbers and takes minima and maxima, which
    never round; the sign of zero is not observable through them. *)
Inductive number : Type :=
| NaN
| Infinity (negative : bool)
| Finite (q : Q).

Definition num (z : Z) : number := Finite (inject_Z z).

(** [Math.max(a, b)] *)
Definition Math_max (a b : number) : number :=
  match a, b with
  | NaN, _ | _, NaN => NaN
  | Infinity false, _ | _, Infinity false => Infinity false
  | Infinity true, x | x, Infinity true => x
  | Finite p, Finite q => if Qle_bool p q then Finite q else Finite p
  end.

(** [Math.min(a, b)] *)
Definition Math_min (a b : number) : number :=
  match a, b with
  | NaN, _ | _, NaN => NaN
  | Infinity true, _ | _, Infinity true => Infinity true
  | Infinity false, x | x, Infinity false => x
  | Finite p, Finite q => if Qle_bool p q then Finite p else Finite q
  end.

(** The number is a finite value between [lo] and [hi]. *)
Definition within (lo hi : Z) (n : number) : Prop :=
  match n with
  | Finite q => inject_Z lo <= q /\ q <= inject_Z hi
  | _ => False
  end.

(** The number is a mathematical integer. *)
Definition integer_valued (n : number) : Prop :=
  match n with
  | Finite q => exists z : Z, q == inject_Z z
  | _ => False
  end.

(** Any JavaScript value the service handles: what [JSON.parse] and the
    request body deliver, plus [undefined].  An object is its list of own
    properties in insertion order. *)
Inductive value : Type :=
| Undefined
| Null
| Bool (b : bool)
| Num (n : number)
| Str (s : jsstring)
| Arr (items : list value)
| Obj (fields : list (jsstring * value)).

(** ToBoolean *)
Definition truthy (v : value) : bool :=
  match v with
  | Undefined | Null => false
  | Bool b => b
  | Num NaN => false
  | Num (Infinity _) => true
  | Num (Finite q) => negb (Qeq_bool q 0)
  | Str s => negb (is_empty s)
  | Arr _ | Obj _ => true
  end.

(** [a || b] *)
Definition or_else (a b : value) : value := if truthy a then a else b.

Fixpoint jsstring_eqb (a b : jsstring) : bool :=
  match a, b with
  | [], [] => true
  | x :: a', y :: b' => N.eqb x y && jsstring_eqb a' b'
  | _, _ => false
  end.

Fixpoint lookup (k : jsstring) (fields : list (jsstring * value)) : value :=
  match fields with
  | [] => Undefined
  | (k', v) :: rest => if jsstring_eqb k k' then v else lookup k rest
  end.

(** [o.k] on a value that is not [null] or [undefined]; none of the property
    names the service reads exists on the prototypes of strings, numbers,
    booleans or arrays. *)
Definition field (o : value) (k : string) : value :=
  match o with
  | Obj fields => lookup (js k) fields
  | _ => Undefined
  end.

(** [o.k = v] on an object: overwrite in place, or append a new property. *)
Fixpoint assign (k : jsstring) (v : value) (fields : list (jsstring * value))
  : list (jsstring * value) :=
  match fields with
  | [] => [(k, v)]
  | (k', v') :: rest =>
      if jsstring_eqb k k' then (k, v) :: rest else (k', v') :: assign k v rest
  end.

(** [typeof v === "string"] *)
Definition is_string (v : value) : bool :=
  match v with Str _ => true | _ => false end.

(* ================================================================= *)
(** ** utils/sanitizeText.ts *)

Module Sanitizer.
Local Open Scope N_scope.

Definition email_local (c : code_unit) : bool :=
  is_alnum c || one_of [46; 95; 37; 43; 45] c.      (* . _ % + - *)
Definition email_domain (c : code_unit) : bool :=
  is_alnum c || one_of [46; 45] c.                   (* . - *)
Definition email_tld (c : code_unit) : bool :=
  is_upper c || (c =? 124) || is_lower c.            (* A-Z | a-z *)
Definition phone_sep (c : code_unit) : bool :=
  one_of [45; 46] c || is_space c.                   (* - . \s *)
Definition card_sep (c : code_unit) : bool :=
  is_space c || (c =? 45).                           (* \s - *)

(** [/\b[A-Za-z0-9._%+-]+@[A-Za-z0-9.-]+\.[A-Z|a-z]{2,}\b/g] *)
Definition email_re : regex :=
  seq [WordBoundary; Plus email_local; Lit 64; Plus email_domain; Lit 46;
       Rep email_tld 2 None; WordBoundary].

(** [/\b(?:\+?1[-.\s]?)?\(?[0-9]{3}\)?[-.\s]?[0-9]{3}[-.\s]?[0-9]{4}\b/g] *)
Definition phone_re : regex :=
  seq [WordBoundary;
       Opt (seq [Maybe (N.eqb 43); Lit 49; Maybe phone_sep]);
       Maybe (N.eqb 40); Exactly 3 is_digit; Maybe (N.eqb 41);
       Maybe phone_sep; Exactly 3 is_digit; Maybe phone_sep;
       Exactly 4 is_digit; WordBoundary].

(** [/\b[0-9]{4}[\s-]?[0-9]{4}[\s-]?[0-9]{4}[\s-]?[0-9]{4}\b/g] *)
Definition card_re : regex :=
  seq [WordBoundary; Exactly 4 is_digit; Maybe card_sep; Exactly 4 is_digit;
       Maybe card_sep; Exactly 4 is_digit; Maybe card_sep; Exactly 4 is_digit;
       WordBoundary].

(** The body of [sanitizeText] once the argument is a non-empty string. *)
Definition sanitize_string (text : jsstring) : jsstring :=
  let sanitized := text in
  let sanitized := replace_all email_re (js "[email]") sanitized in
  let sanitized := replace_all phone_re (js "[phone]") sanitized in
  let sanitized := replace_all card_re (js "[card]") sanitized in
  let sanitized := trim sanitized in
  let sanitized := replace_all (Plus is_space) (js " ") sanitized in
  let sanitized := replace_all (Plus is_non_ascii) (js " ") sanitized in
  let sanitized := replace_all (Class is_control) [] sanitized in
  slice0 6000 sanitized.

(** [sanitizeText(text)]; the guard [!text || typeof text !== "string"]
    answers the empty string for everything but a non-empty string. *)
Definition sanitizeText (text : value) : jsstring :=
  if negb (truthy text) || negb (is_string text) then []
  else match text with
       | Str s => sanitize_string s
       | _ => []
       end.

(** [validateTextLength(text, minLength, maxLength)]; the defaults are
    [minLength = 10] and [maxLength = 50000].  The bounds are compared with
    a length, so whole numbers stand for them. *)
Definition validateTextLength (text : value) (minLength maxLength : Z) : bool :=
  let sanitized := sanitizeText text in
  ((Z.of_nat (List.length sanitized) >=? minLength)
   && (Z.of_nat (List.length sanitized) <=? maxLength))%Z.

Definition default_minLength : Z := 10.
Definition default_maxLength : Z := 50000.

End Sanitizer.
Export Sanitizer.

(* ================================================================= *)
(** ** Thrown values, computations and the world *)

(** The object literal built by [createRetryableError]. *)
Record RetryableError : Type := {
  name : string;
  message : string;
  isRetryable : bool;
  statusCode : option Z
}.

(** What a [throw] can carry in the service: an instance of [Error] (for an
    [AxiosError], [response_status] is [error.response?.status]), or the
    plain object of [createRetryableError], which is not an [Error]. *)
Inductive exn : Type :=
| Error (msg : string) (response_status : option Z)
| Thrown (e : RetryableError).

(** [new Error(msg)], and the engine's own [TypeError]. *)
Definition new_Error (msg : string) : exn := Error msg None.
Definition TypeError (msg : string) : exn := Error msg None.

(** [error instanceof Error ? error.message : "Unknown error"] *)
Definition message_or_unknown (error : exn) : string :=
  match error with
  | Error msg _ => msg
  | Thrown _ => "Unknown error"
  end.

Inductive completion (A : Type) : Type :=
| Return (a : A)
| Throw (e : exn).
Arguments Return {A} a.
Arguments Throw {A} e.

Definition cbind {A B} (c : completion A) (k : A -> completion B)
  : completion B :=
  match c with
  | Return a => k a
  | Throw e => Throw e
  end.

(** A value as it is serialized into a prompt. *)
Inductive serialized : Type :=
| JSON_stringify (v : value)                (* [JSON.stringify(v)] *)
| JSON_stringify_pretty (v : value).        (* [JSON.stringify(v, null, 2)] *)

(** The user prompts, by template; the instructional text of a template is
    fixed and only the interpolated data is kept. *)
Inductive prompt : Type :=
| JDExtraction (sanitizedJD : jsstring)
| ResumeExtraction (sanitizedResume : jsstring)
| MetadataExtraction (sanitizedHtml : jsstring)
| MatchAnalysis (sanitizedJD : jsstring)
                (structuredJDJson structuredResumeJson : serialized)
| Tailoring (structuredJD structuredResume : serialized).

Inductive content : Type :=
| Text (s : string)
| Prompt (p : prompt).

Record chat_message : Type := { role : string; body : content }.

(** The request of [makeOpenAIRequest]: URL, headers, timeout and body. *)
Record request : Type := {
  url : string;
  authorization : string;
  timeout : Z;
  model : string;
  messages : list chat_message;
  temperature : Q;
  response_format : string;
  max_tokens : option Z
}.

(** [response.data] of a fulfilled call, as far as the service reads it. *)
Record choice : Type := { choice_message : option (option jsstring) }.
Record response_data : Type := { choices : option (list choice) }.

Inductive axios_result : Type :=
| Fulfilled (data : response_data)
| Rejected (msg : string) (status : option Z).

Inductive level : Type := LInfo | LWarn | LError.

Inductive event : Type :=
| Post (req : request)                  (* [axios.post] *)
| Sleep (ms : Z)                        (* [setTimeout(resolve, ms)] *)
| Console (l : level) (line : string).  (* [console.info/warn/error] *)

(** [posts] counts the calls of [axios.post] so far; [trace] lists every
    effect in the order it happened. *)
Record world : Type := { posts : nat; trace : list event }.

Definition initial : world := {| posts := 0; trace := [] |}.

(** What the service takes from its surroundings: the configured credential,
    the outcome of the n-th outbound call, and the engine's [JSON.parse] and
    its ToNumber on strings, arrays and objects. *)
Record runtime : Type := {
  OPENAI_API_KEY : option string;
  axios_post : nat -> request -> axios_result;
  JSON_parse : jsstring -> completion value;
  ToNumber_object : value -> completion number
}.

Definition M (A : Type) : Type := world -> completion A * world.

Definition ret {A} (a : A) : M A := fun w => (Return a, w).
Definition throw {A} (e : exn) : M A := fun w => (Throw e, w).
Definition lift {A} (c : completion A) : M A := fun w => (c, w).

Definition bind {A B} (m : M A) (k : A -> M B) : M B :=
  fun w =>
    match m w with
    | (Return a, w') => k a w'
    | (Throw e, w') => (Throw e, w')
    end.

(** [try { m } catch (error) { handler }] *)
Definition try_catch {A} (m : M A) (handler : exn -> M A) : M A :=
  fun w =>
    match m w with
    | (Return a, w') => (Return a, w')
    | (Throw e, w') => handler e w'
    end.

Definition emit (e : event) : M unit :=
  fun w => (Return tt, {| posts := posts w; trace := trace w ++ [e] |}).

Definition console (l : level) (line : string) : M unit := emit (Console l line).

Definition when (b : bool) (m : M unit) : M unit := if b then m else ret tt.

Declare Scope monad_scope.
Delimit Scope monad_scope with monad.
Notation "x <- m ;; k" := (bind m (fun x => k))
  (at level 61, m at next level, right associativity) : monad_scope.
Notation "m ;; k" := (bind m (fun _ => k))
  (at level 61, right associativity) : monad_scope.
Notation "x <~ c ;; k" := (cbind c (fun x => k))
  (at level 61, c at next level, right associativity) : monad_scope.
Open Scope monad_scope.
Open Scope string_scope.

Definition decimal (z : Z) : string := NilZero.string_of_int (Z.to_int z).

(* ================================================================= *)
(** ** services/openai.service.ts: the completion client *)

Section Service.
Variable rt : runtime.

Definition OPENAI_API_URL : string :=
  "https://api.openai.com/v1/chat/completions".
Definition MAX_RETRIES : Z := 3.
Definition RETRY_DELAY_MS : Z := 1000.

(** [isRetryableStatus(statusCode)] *)
Definition isRetryableStatus (statusCode : option Z) : bool :=
  match statusCode with
  | Some c => ((c =? 429) || (c =? 500) || (c =? 502) || (c =? 503))%Z
  | None => false
  end.

(** [axiosError.response?.status] and [axiosError.message] of whatever was
    caught and cast to [AxiosError]. *)
Definition response_status_of (error : exn) : option Z :=
  match error with
  | Error _ st => st
  | Thrown _ => None
  end.

Definition message_of (error : exn) : string :=
  match error with
  | Error msg _ => msg
  | Thrown e => message e
  end.

(** [createRetryableError(axiosError)] *)
Definition createRetryableError (axiosError : exn) : RetryableError :=
  let statusCode := response_status_of axiosError in
  {| name := "OpenAIError";
     message := if String.eqb (message_of axiosError) ""
                then "OpenAI API request failed"
                else message_of axiosError;
     isRetryable := isRetryableStatus statusCode;
     statusCode := statusCode |}.

(** [handleNonRetryableError(error)]: always throws. *)
Definition handleNonRetryableError {A} (error : RetryableError) : M A :=
  let statusCode := statusCode error in
  match statusCode with
  | Some 401%Z => throw (new_Error "Invalid OpenAI API key")
  | Some 400%Z => throw (new_Error "Invalid request to OpenAI API")
  | _ => throw (Thrown error)
  end.

(** [await axios.post(OPENAI_API_URL, requestBody, {...})]: the call is
    recorded, counted and answered by the runtime; a rejection is thrown. *)
Definition post (req : request) : M response_data :=
  fun w =>
    let w' := {| posts := S (posts w); trace := trace w ++ [Post req] |} in
    match axios_post rt (posts w) req with
    | Fulfilled data => (Return data, w')
    | Rejected msg status => (Throw (Error msg status), w')
    end.

(** [response.data.choices[0]?.message?.content] *)
Definition first_content (data : response_data) : completion (option jsstring) :=
  match choices data with
  | None => Throw (TypeError "Cannot read properties of undefined (reading '0')")
  | Some [] => Return None
  | Some (c :: _) =>
      match choice_message c with
      | None => Return None
      | Some content => Return content
      end
  end.

(** The [requestBody] of [makeOpenAIRequest] with the options of the call;
    [max_tokens] is set when [maxTokens] is truthy. *)
Definition requestBody (apiKey : string) (messages : list chat_message)
           (model : string) (temperature : Q) (maxTokens : option Z)
  : request :=
  {| url := OPENAI_API_URL;
     authorization := "Bearer " ++ apiKey;
     timeout := 60000;
     model := model;
     messages := messages;
     temperature := temperature;
     response_format := "json_object";
     max_tokens := match maxTokens with
                   | Some n => if (n =? 0)%Z then None else Some n
                   | None => None
                   end |}.

(** [makeOpenAIRequest(apiKey, messages, model, temperature, maxTokens)] *)
Definition makeOpenAIRequest (apiKey : string) (messages : list chat_message)
           (model : string) (temperature : Q) (maxTokens : option Z)
  : M jsstring :=
  response <- post (requestBody apiKey messages model temperature maxTokens) ;;
  content <- lift (first_content response) ;;
  match content with
  | None => throw (new_Error "Empty response from OpenAI API")
  | Some text =>
      if is_empty text then throw (new_Error "Empty response from OpenAI API")
      else ret text
  end.

(** The [for] loop of [callOpenAIChat]: [remaining] iterations are left
    before [attempt] reaches [MAX_RETRIES]. *)
Fixpoint callOpenAIChat_loop (remaining : nat) (attempt : Z)
         (lastError : option RetryableError) (apiKey : string)
         (messages : list chat_message) (model : string) (temperature : Q)
         (maxTokens : option Z) : M jsstring :=
  match remaining with
  | O =>
      throw (new_Error
               ("OpenAI API call failed after " ++ decimal MAX_RETRIES
                ++ " attempts: "
                ++ match lastError with
                   | Some e => message e
                   | None => "undefined"
                   end))
  | S remaining' =>
      try_catch
        (makeOpenAIRequest apiKey messages model temperature maxTokens)
        (fun error =>
           let lastError := createRetryableError error in
           (if negb (isRetryable lastError)
            then handleNonRetryableError lastError
            else ret tt) ;;
           when (attempt <? MAX_RETRIES - 1)%Z
                (let delay := (RETRY_DELAY_MS * 2 ^ attempt)%Z in
                 console LInfo
                         ("Retrying OpenAI API call (attempt "
                          ++ decimal (attempt + 1) ++ "/" ++ decimal MAX_RETRIES
                          ++ ") after " ++ decimal delay ++ "ms") ;;
                 emit (Sleep delay)) ;;
           callOpenAIChat_loop remaining' (attempt + 1)%Z (Some lastError)
                               apiKey messages model temperature maxTokens)
  end.

(** [callOpenAIChat(messages, model, temperature, maxTokens)] *)
Definition callOpenAIChat (messages : list chat_message) (model : string)
           (temperature : Q) (maxTokens : option Z) : M jsstring :=
  match OPENAI_API_KEY rt with
  | None => throw (new_Error "OPENAI_API_KEY is not configured")
  | Some apiKey =>
      if String.eqb apiKey ""
      then throw (new_Error "OPENAI_API_KEY is not configured")
      else callOpenAIChat_loop (Z.to_nat MAX_RETRIES) 0 None
                               apiKey messages model temperature maxTokens
  end.

(* ----------------------------------------------------------------- *)
(** *** Reading the parsed response *)

(** [o.k]: a [TypeError] on [null] and [undefined]. *)
Definition get (o : value) (k : string) : completion value :=
  match o with
  | Undefined =>
      Throw (TypeError ("Cannot read properties of undefined (reading '"
                        ++ k ++ "')"))
  | Null =>
      Throw (TypeError ("Cannot read properties of null (reading '"
                        ++ k ++ "')"))
  | _ => Return (field o k)
  end.

(** [c || d] for a computed left operand. *)
Definition or_default (c : completion value) (d : value) : completion value :=
  v <~ c ;; Return (or_else v d).

(** An object literal: the property values are computed in order. *)
Fixpoint object_literal_fields (props : list (string * completion value))
  : completion (list (jsstring * value)) :=
  match props with
  | [] => Return []
  | (k, c) :: rest =>
      v <~ c ;;
      vs <~ object_literal_fields rest ;;
      Return ((js k, v) :: vs)
  end.

Definition object_literal (props : list (string * completion value))
  : completion value :=
  fields <~ object_literal_fields props ;; Return (Obj fields).

(** ToNumber *)
Definition ToNumber (v : value) : completion number :=
  match v with
  | Undefined => Return NaN
  | Null => Return (num 0)
  | Bool b => Return (if b then num 1 else num 0)
  | Num n => Return n
  | Str _ | Arr _ | Obj _ => ToNumber_object rt v
  end.

Definition empty_string : value := Str [].
Definition empty_array : value := Arr [].
Definition empty_object : value := Obj [].

(* ----------------------------------------------------------------- *)
(** *** preProcessJD *)

(** The object returned by [preProcessJD] for the parsed [jdData]. *)
Definition structuredJD_of (jdData : value) : completion value :=
  object_literal
    [("title", or_default (get jdData "title") empty_string);
     ("company", or_default (get jdData "company") empty_string);
     ("location", or_default (get jdData "location") empty_string);
     ("employmentType", or_default (get jdData "employmentType") empty_string);
     ("experienceLevel", or_default (get jdData "experienceLevel") empty_string);
     ("educationRequirements",
       or_default (get jdData "educationRequirements") empty_array);
     ("domain", or_default (get jdData "domain") empty_string);
     ("responsibilities", or_default (get jdData "responsibilities") empty_array);
     ("mustHaveSkills", or_default (get jdData "mustHaveSkills") empty_array);
     ("niceToHaveSkills", or_default (get jdData "niceToHaveSkills") empty_array);
     ("technologies", or_default (get jdData "technologies") empty_array);
     ("summary", or_default (get jdData "summary") empty_string)].

Definition system (text : string) : chat_message :=
  {| role := "system"; body := Text text |}.
Definition user (p : prompt) : chat_message :=
  {| role := "user"; body := Prompt p |}.

Definition jd_messages (sanitizedJD : jsstring) : list chat_message :=
  [system "You are a professional job description parser that outputs structured JSON.";
   user (JDExtraction sanitizedJD)].

(** [preProcessJD(jd)] *)
Definition preProcessJD (jd : jsstring) : M value :=
  let sanitizedJD := sanitizeText (Str (substring0 6000 jd)) in
  try_catch
    (response <- callOpenAIChat (jd_messages sanitizedJD)
                                "gpt-4o-mini" (3 # 10) (Some 1200%Z) ;;
     jdData <- lift (JSON_parse rt (trim response)) ;;
     lift (structuredJD_of jdData))
    (fun error =>
       console LError "Error processing Job Description:" ;;
       throw (new_Error ("Failed to preprocess job description: "
                         ++ message_or_unknown error))).

(* ----------------------------------------------------------------- *)
(** *** preprocessResume *)

(** The fallback structure of [preprocessResume]. *)
Definition resume_fallback (sanitizedResume : jsstring) : value :=
  Obj [(js "name", empty_string);
       (js "email", empty_string);
       (js "phone", empty_string);
       (js "location", empty_string);
       (js "summary", Str (substring0 1000 sanitizedResume));
       (js "skills", empty_array);
       (js "education", empty_array);
       (js "experience", empty_array);
       (js "projects", empty_array);
       (js "certifications", empty_array)].

Definition resume_messages (sanitizedResume : jsstring) : list chat_message :=
  [system "You extract structured JSON from resumes.";
   user (ResumeExtraction sanitizedResume)].

(** [preprocessResume(resumeText)] *)
Definition preprocessResume (resumeText : jsstring) : M value :=
  let sanitizedResume := sanitizeText (Str (substring0 6000 resumeText)) in
  try_catch
    (response <- callOpenAIChat (resume_messages sanitizedResume)
                                "gpt-4o-mini" (2 # 10) (Some 1200%Z) ;;
     try_catch
       (lift (JSON_parse rt (trim response)))
       (fun _ => ret (resume_fallback sanitizedResume)))
    (fun error =>
       console LError "Error preprocessing resume:" ;;
       throw (new_Error ("Failed to preprocess resume: "
                         ++ message_or_unknown error))).

(* ----------------------------------------------------------------- *)
(** *** parseJobMetadata *)

(** [parsed.outer.inner || ""] *)
Definition nested (parsed : value) (outer inner : string) : completion value :=
  or_default (o <~ get parsed outer ;; get o inner) empty_string.

(** The object returned by [parseJobMetadata] for the parsed response. *)
Definition jobMetadata_of (parsed : value) : completion value :=
  object_literal
    [("companyLinkedInUrl", nested parsed "company" "linkedinUrl");
     ("companyLogoUrl", nested parsed "company" "logo");
     ("companyName", nested parsed "company" "name");
     ("jobTitle", nested parsed "job" "title");
     ("location", nested parsed "job" "location");
     ("salary", Return empty_string);
     ("postedDate", nested parsed "job" "posted");
     ("applicationDeadline", Return empty_string);
     ("jobType", nested parsed "job" "employmentType");
     ("remote", Return empty_string);
     ("benefits", Return empty_array);
     ("additionalInfo", Return empty_object)].

(** The all-empty metadata returned on error. *)
Definition empty_jobMetadata : value :=
  Obj [(js "companyLinkedInUrl", empty_string);
       (js "companyLogoUrl", empty_string);
       (js "companyName", empty_string);
       (js "jobTitle", empty_string);
       (js "location", empty_string);
       (js "salary", empty_string);
       (js "postedDate", empty_string);
       (js "applicationDeadline", empty_string);
       (js "jobType", empty_string);
       (js "remote", empty_string);
       (js "benefits", empty_array);
       (js "additionalInfo", empty_object)].

Definition metadata_messages (sanitizedHtml : jsstring) : list chat_message :=
  [system "You are an HTML parser that extracts structured job metadata from HTML content.";
   user (MetadataExtraction sanitizedHtml)].

(** [parseJobMetadata(metadataHtmlString)] *)
Definition parseJobMetadata (metadataHtmlString : jsstring) : M value :=
  let sanitizedHtml := sanitizeText (Str (substring0 6000 metadataHtmlString)) in
  try_catch
    (response <- callOpenAIChat (metadata_messages sanitizedHtml)
                                "gpt-4o-mini" (2 # 10) (Some 1000%Z) ;;
     parsed <- lift (JSON_parse rt (trim response)) ;;
     lift (jobMetadata_of parsed))
    (fun error =>
       console LError "Error parsing job metadata:" ;;
       ret empty_jobMetadata).

(* ----------------------------------------------------------------- *)
(** *** callOpenAI: the match analysis *)

(** [Math.min(100, Math.max(0, result.matchScore || 0))] *)
Definition matchScore_of (result : value) : completion value :=
  v <~ or_default (get result "matchScore") (Num (num 0)) ;;
  n <~ ToNumber v ;;
  Return (Num (Math_min (num 100) (Math_max (num 0) n))).

(** The object returned by [callOpenAI] for the parsed [result]. *)
Definition baseAnalysis_of (result : value) : completion value :=
  object_literal
    [("matchScore", matchScore_of result);
     ("matchedSkills", or_default (get result "matchedSkills") empty_array);
     ("missingSkills", or_default (get result "missingSkills") empty_array);
     ("suggestions", or_default (get result "suggestions") empty_array);
     ("sampleBullets", or_default (get result "sampleBullets") empty_array);
     ("summary", or_default (get result "summary") empty_string)].

Definition match_messages (sanitizedJD : jsstring)
           (structuredJDJson structuredResumeJson : serialized)
  : list chat_message :=
  [system "You are a job resume matching expert that produces accurate, structured JSON analyses.";
   user (MatchAnalysis sanitizedJD structuredJDJson structuredResumeJson)].

(** [callOpenAI(jd, structuredResumeJson, structuredJDJson)] *)
Definition callOpenAI (jd : jsstring)
           (structuredResumeJson structuredJDJson : serialized) : M value :=
  let sanitizedJD := sanitizeText (Str (substring0 3000 jd)) in
  try_catch
    (response <- callOpenAIChat
                   (match_messages sanitizedJD structuredJDJson
                                   structuredResumeJson)
                   "gpt-4o-mini" (5 # 10) (Some 1800%Z) ;;
     result <- lift (JSON_parse rt (trim response)) ;;
     lift (baseAnalysis_of result))
    (fun error =>
       console LError "Error calling OpenAI:" ;;
       throw (new_Error ("Failed to analyze job description and resume: "
                         ++ message_or_unknown error))).

(* ----------------------------------------------------------------- *)
(** *** generateTailoredResume *)

(** The object returned by [generateTailoredResume] for the parsed
    [result]. *)
Definition tailoredResume_of (result : value) : completion value :=
  object_literal
    [("tailoredSummary", or_default (get result "tailoredSummary") empty_string);
     ("tailoredSkills", or_default (get result "tailoredSkills") empty_array);
     ("tailoredExperience",
       or_default (get result "tailoredExperience") empty_array);
     ("tailoredProjects", or_default (get result "tailoredProjects") empty_array);
     ("coverLetterHighlights",
       or_default (get result "coverLetterHighlights") empty_array)].

Definition tailoring_messages (structuredJD structuredResume : value)
  : list chat_message :=
  [system "You are a professional resume writer that produces tailored, authentic resume content in JSON format.";
   user (Tailoring (JSON_stringify_pretty structuredJD)
                   (JSON_stringify_pretty structuredResume))].

(** [generateTailoredResume(structuredJD, structuredResume)] *)
Definition generateTailoredResume (structuredJD structuredResume : value)
  : M value :=
  try_catch
    (response <- callOpenAIChat
                   (tailoring_messages structuredJD structuredResume)
                   "gpt-4o-mini" (7 # 10) (Some 2000%Z) ;;
     result <- lift (JSON_parse rt (trim response)) ;;
     lift (tailoredResume_of result))
    (fun error =>
       console LError "Error generating tailored resume:" ;;
       throw (new_Error ("Failed to generate tailored resume: "
                         ++ message_or_unknown error))).

(* ----------------------------------------------------------------- *)
(** *** analyze *)

(** The placeholder [tailoredResume] of the assembled result. *)
Definition empty_tailoredResume : value :=
  Obj [(js "tailoredSummary", empty_string);
       (js "tailoredSkills", empty_array);
       (js "tailoredExperience", empty_array);
       (js "tailoredProjects", empty_array);
       (js "coverLetterHighlights", empty_array)].

(** The own properties copied by [...o]; [analyze] spreads the object that
    [callOpenAI] returned. *)
Definition spread (o : value) : list (jsstring * value) :=
  match o with
  | Obj fields => fields
  | _ => []
  end.

(** [metadataHtmlString && metadataHtmlString.trim().length > 0]: the
    string to parse when the test holds; a truthy value that is not a string
    has no [trim] to call. *)
Definition metadata_source (metadataHtmlString : value)
  : completion (option jsstring) :=
  if truthy metadataHtmlString then
    match metadataHtmlString with
    | Str s =>
        Return (if (0 <? List.length (trim s))%nat then Some s else None)
    | _ => Throw (TypeError "metadataHtmlString.trim is not a function")
    end
  else Return None.

(** [analysisResult.tailoredResume = tailoredResume] *)
Definition set_tailoredResume (analysisResult tailoredResume : value) : value :=
  match analysisResult with
  | Obj fields => Obj (assign (js "tailoredResume") tailoredResume fields)
  | other => other
  end.

(** The metadata block of [analyze]: [parsedMetadata] stays [undefined]
    unless a source is supplied and [parseJobMetadata] returns. *)
Definition parse_metadata_if_supplied (metadataHtmlString : value) : M value :=
  source <- lift (metadata_source metadataHtmlString) ;;
  match source with
  | Some html =>
      try_catch
        (parsed <- parseJobMetadata html ;;
         console LInfo "Successfully parsed job metadata" ;;
         ret parsed)
        (fun error =>
           console LWarn "Failed to parse job metadata:" ;;
           ret Undefined)
  | None => ret Undefined
  end.

(** The object literal [{...baseAnalysis, structuredJD, tailoredResume,
    jobMetadata}] with the placeholder [tailoredResume]. *)
Definition assemble (baseAnalysis structuredJD parsedMetadata : value) : value :=
  Obj (spread baseAnalysis
       ++ [(js "structuredJD", structuredJD);
           (js "tailoredResume", empty_tailoredResume);
           (js "jobMetadata", parsedMetadata)]).

(** [analyze(jd, structuredResume, metadataHtmlString)] *)
Definition analyze (jd : jsstring) (structuredResume : value)
           (metadataHtmlString : value) : M value :=
  try_catch
    (structuredJD <- preProcessJD jd ;;
     parsedMetadata <- parse_metadata_if_supplied metadataHtmlString ;;
     let structuredResumeJson := JSON_stringify structuredResume in
     let structuredJDJson := JSON_stringify structuredJD in
     baseAnalysis <- callOpenAI jd structuredResumeJson structuredJDJson ;;
     let analysisResult := assemble baseAnalysis structuredJD parsedMetadata in
     try_catch
       (tailoredResume <- generateTailoredResume structuredJD structuredResume ;;
        ret (set_tailoredResume analysisResult tailoredResume))
       (fun error =>
          console LWarn "Failed to generate tailored resume:" ;;
          ret analysisResult))
    (fun error =>
       console LError "Error analyzing JD and resume:" ;;
       throw (new_Error ("Failed to analyze job description and resume: "
                         ++ message_or_unknown error))).

(* ----------------------------------------------------------------- *)
(** ** controllers/analyze.controller.ts: the raw-text entry point *)

(** [res.status(status).json(payload)] *)
Record reply : Type := { status : Z; payload : value }.

Definition bad_request (text : string) : reply :=
  {| status := 400;
     payload := Obj [(js "message", Str (js text));
                     (js "statusCode", Num (num 400))] |}.

(** [analyzeHandler(req, res)] for the body [{jd, resume}]; the reply is
    what the handler sent, a throw goes to the error middleware. *)
Definition analyzeHandler (req_body : value) : M reply :=
  match req_body with
  | Undefined =>
      throw (TypeError "Cannot destructure property 'jd' of 'req.body' as it is undefined.")
  | Null =>
      throw (TypeError "Cannot destructure property 'jd' of 'req.body' as it is null.")
  | _ =>
      let jd := field req_body "jd" in
      let resume := field req_body "resume" in
      if negb (truthy jd) || negb (is_string jd) then
        ret (bad_request "Job description is required")
      else if negb (truthy resume) || negb (is_string resume) then
        ret (bad_request "Resume is required")
      else
        let sanitizedJD := sanitizeText jd in
        let sanitizedResume := sanitizeText resume in
        console LInfo "Analyzing job description and resume..." ;;
        try_catch
          (analysisResult <-
             analyze sanitizedJD (Str sanitizedResume) Undefined ;;
           console LInfo "Successfully analyzed job description and resume" ;;
           ret {| status := 200; payload := analysisResult |})
          (fun error =>
             console LError "Error analyzing JD and resume:" ;;
             throw error)
  end.

End Service.

(* ================================================================= *)
(** ** middlewares/validateRequest.ts and the routes *)

Record ValidationRule : Type := {
  rule_field : string;
  minLength : option Z;
  maxLength : option Z;
  required : bool
}.

(** [rule.minLength || 10] and [rule.maxLength || 50000] *)
Definition bound_or (bound : option Z) (default : Z) : Z :=
  match bound with
  | Some n => if (n =? 0)%Z then default else n
  | None => default
  end.

(** The error, if any, that one rule adds for the request body. *)
Definition check_rule (rule : ValidationRule) (req_body : value)
  : option string :=
  let value := field req_body (rule_field rule) in
  let blank :=
    match value with
    | Str s => (List.length (trim s) =? 0)%nat
    | _ => false
    end in
  if required rule && (negb (truthy value) || negb (is_string value) || blank)
  then Some ("Field '" ++ rule_field rule ++ "' is required")
  else if negb (required rule) && (negb (truthy value) || negb (is_string value))
  then None
  else if truthy value && is_string value then
    let minLength := bound_or (minLength rule) 10 in
    let maxLength := bound_or (maxLength rule) 50000 in
    if negb (validateTextLength value minLength maxLength)
    then Some ("Field '" ++ rule_field rule ++ "' must be between "
               ++ decimal minLength ++ " and " ++ decimal maxLength
               ++ " characters")
    else None
  else None.

(** The [errors] array of [validateRequest(rules)]; the middleware answers
    400 when it is not empty and calls [next()] otherwise. *)
Definition validation_errors (rules : list ValidationRule) (req_body : value)
  : list string :=
  flat_map (fun rule => match check_rule rule req_body with
                        | Some e => [e]
                        | None => []
                        end) rules.

Definition text_rule (name : string) : ValidationRule :=
  {| rule_field := name; minLength := Some 10%Z; maxLength := Some 50000%Z;
     required := true |}.

(** The rules of [POST /preprocess/jd], [/preprocess/resume], [/analyze]. *)
Definition jd_route_rules : list ValidationRule := [text_rule "jd"].
Definition resume_route_rules : list ValidationRule := [text_rule "resumeText"].
Definition analyze_route_rules : list ValidationRule :=
  [text_rule "jd"; text_rule "resume"].

(* ================================================================= *)
(** ** Observing a run *)

Definition outcome {A} (r : completion A * world) : completion A := fst r.
Definition final {A} (r : completion A * world) : world := snd r.

(** The world after more console lines. *)
Definition logged (lines : list (level * string)) (w : world) : world :=
  {| posts := posts w;
     trace := trace w ++ map (fun l => Console (fst l) (snd l)) lines |}.

(** The user prompts of the requests sent, in order. *)
Definition prompts_in (messages : list chat_message) : list prompt :=
  flat_map (fun m => match body m with
                     | Prompt p => [p]
                     | Text _ => []
                     end) messages.

Definition prompts_of (req : request) : list prompt :=
  prompts_in (messages req).

Definition prompts_sent (tr : list event) : list prompt :=
  flat_map (fun e => match e with
                     | Post req => prompts_of req
                     | _ => []
                     end) tr.

Inductive task : Type :=
| JDPreprocessing | ResumePreprocessing | MetadataParsing | Matching
| TailoredResumeGeneration.

Definition task_of (p : prompt) : task :=
  match p with
  | JDExtraction _ => JDPreprocessing
  | ResumeExtraction _ => ResumePreprocessing
  | MetadataExtraction _ => MetadataParsing
  | MatchAnalysis _ _ _ => Matching
  | Tailoring _ _ => TailoredResumeGeneration
  end.

(** The sub-task of each outbound call of a run, in order. *)
Definition tasks_run (tr : list event) : list task :=
  map task_of (prompts_sent tr).

(** The delays of a run, in order. *)
Definition delays (tr : list event) : list Z :=
  flat_map (fun e => match e with Sleep ms => [ms] | _ => [] end) tr.

(** The world after one more outbound call. *)
Definition sent (req : request) (w : world) : world :=
  {| posts := S (posts w); trace := trace w ++ [Post req] |}.

(** What an attempt of [makeOpenAIRequest] comes to, given the outcome of
    its call: the text of the first choice, or the value thrown. *)
Definition attempt_outcome (r : axios_result) : completion jsstring :=
  match r with
  | Rejected msg status => Throw (Error msg status)
  | Fulfilled data =>
      match first_content data with
      | Throw e => Throw e
      | Return None => Throw (new_Error "Empty response from OpenAI API")
      | Return (Some text) =>
          if is_empty text
          then Throw (new_Error "Empty response from OpenAI API")
          else Return text
      end
  end.

(** The world after the back-off that follows failed attempt [attempt]:
    a console line and a delay, unless it was the last attempt. *)
Definition backoff (attempt : Z) (w : world) : world :=
  if (attempt <? MAX_RETRIES - 1)%Z then
    {| posts := posts w;
       trace := trace w
                ++ [Console LInfo
                            ("Retrying OpenAI API call (attempt "
                             ++ decimal (attempt + 1) ++ "/"
                             ++ decimal MAX_RETRIES ++ ") after "
                             ++ decimal (RETRY_DELAY_MS * 2 ^ attempt)
                             ++ "ms");
                    Sleep (RETRY_DELAY_MS * 2 ^ attempt)] |}
  else w.

(** A credential is configured. *)
Definition configured (rt : runtime) : Prop :=
  exists apiKey, OPENAI_API_KEY rt = Some apiKey /\ apiKey <> "".

(** The shape shared by [preProcessJD], [callOpenAI] and
    [generateTailoredResume]: one completion, [JSON.parse] of the trimmed
    text, the normalizer, and a [catch] that logs and rethrows with a
    prefix. *)
Definition structured_call (rt : runtime) (messages : list chat_message)
           (temperature : Q) (maxTokens : Z)
           (normalize : value -> completion value) (label prefix : string)
  : M value :=
  try_catch
    (response <- callOpenAIChat rt messages "gpt-4o-mini" temperature
                                (Some maxTokens) ;;
     parsed <- lift (JSON_parse rt (trim response)) ;;
     lift (normalize parsed))
    (fun error =>
       console LError label ;;
       throw (new_Error (prefix ++ message_or_unknown error))).

(** The call failed with one of the four transient statuses. *)
Definition transient (r : axios_result) : Prop :=
  exists msg code,
    r = Rejected msg (Some code) /\ isRetryableStatus (Some code) = true.

(** The properties of the base analysis that [analyze] spreads. *)
Definition analysis_properties : list string :=
  ["matchScore"; "matchedSkills"; "missingSkills"; "suggestions";
   "sampleBullets"; "summary"].


(** The value is there: neither [undefined] nor [null]. *)
Definition non_null (v : value) : Prop := v <> Undefined /\ v <> Null.

(** The property is missing from the model's JSON, or [null] there. *)
Definition absent (v : value) : Prop := v = Undefined \/ v = Null.


(** A score that is a number, a boolean, [null] or missing: ToNumber does
    not have to go through a string, an array or an object. *)
Definition scalar_or_absent (v : value) : Prop :=
  match v with
  | Str _ | Arr _ | Obj _ => False
  | _ => True
  end.

(** The score, when it is a finite number, is whole. *)
Definition whole_if_finite (v : value) : Prop :=
  match v with
  | Num (Finite q) => integer_valued (Finite q)
  | _ => True
  end.

(* ================================================================= *)
(** ** Scripted runtimes for concrete runs *)

Module Script.

Definition quoted (s : string) : jsstring := ([34%N] ++ js s ++ [34%N])%list.

(** A fulfilled call whose first choice carries [text]. *)
Definition answers (text : jsstring) : axios_result :=
  Fulfilled {| choices := Some [{| choice_message := Some (Some text) |}] |}.

(** A response with the given HTTP status, and a call without response. *)
Definition fails_with (code : Z) : axios_result :=
  Rejected ("Request failed with status code " ++ decimal code) (Some code).
Definition network_error : axios_result := Rejected "Network Error" None.

(** [JSON.parse] on the texts of a table; any other text is taken as
    malformed. *)
Definition parse_table (table : list (jsstring * value)) (text : jsstring)
  : completion value :=
  match find (fun row => jsstring_eqb text (fst row)) table with
  | Some row => Return (snd row)
  | None => Throw (Error "Unexpected token in JSON" None)
  end.

(** The [n]-th call gets the [n]-th outcome; calls beyond the script find
    no network. *)
Definition scripted (outcomes : list axios_result)
           (table : list (jsstring * value)) : runtime :=
  {| OPENAI_API_KEY := Some "sk-test";
     axios_post := fun n _ => nth n outcomes network_error;
     JSON_parse := parse_table table;
     ToNumber_object := fun _ => Return NaN |}.

(** [{"title":"Engineer"}] *)
Definition jd_text : jsstring :=
  (js "{" ++ quoted "title" ++ js ":" ++ quoted "Engineer" ++ js "}")%list.
Definition jd_json : value := Obj [(js "title", Str (js "Engineer"))].

(** [{"matchScore":72}] *)
Definition match_text : jsstring :=
  (js "{" ++ quoted "matchScore" ++ js ":72}")%list.
Definition match_json : value := Obj [(js "matchScore", Num (num 72))].

(** [{"tailoredSummary":"Fit"}] *)
Definition tailored_text : jsstring :=
  (js "{" ++ quoted "tailoredSummary" ++ js ":" ++ quoted "Fit" ++ js "}")%list.
Definition tailored_json : value :=
  Obj [(js "tailoredSummary", Str (js "Fit"))].

Definition table : list (jsstring * value) :=
  [(jd_text, jd_json); (match_text, match_json);
   (tailored_text, tailored_json); (js "{}", Obj [])].

Definition sample_jd : jsstring := js "Senior engineer, Rocq and TypeScript".
Definition sample_resume : jsstring := js "Ten years of proof engineering".
Definition sample_html : jsstring := js "<h1>Engineer</h1>".

(** Every call answers. *)
Definition all_succeed : runtime :=
  scripted [answers jd_text; answers match_text; answers tailored_text] table.

(** Three transient failures in a row. *)
Definition always_busy : runtime :=
  scripted [fails_with 429; fails_with 500; fails_with 503] table.

(** The JD call answers, the metadata call finds no network, the match and
    tailoring calls answer. *)
Definition metadata_down : runtime :=
  scripted [answers jd_text; network_error; answers match_text;
            answers tailored_text] table.

(** The JD and match calls answer, the tailoring call is refused. *)
Definition tailoring_down : runtime :=
  scripted [answers jd_text; answers match_text; fails_with 400] table.

(** The JD call is refused. *)
Definition jd_down : runtime := scripted [fails_with 401] table.

(** The JD call answers, the match call does not. *)
Definition match_down : runtime :=
  scripted [answers jd_text; network_error] table.

(** A transient failure, then a refusal of the credential. *)
Definition busy_then_refused : runtime :=
  scripted [fails_with 429; fails_with 401] table.

(** Two transient failures, then an answer. *)
Definition busy_twice_then_ok : runtime :=
  scripted [fails_with 429; fails_with 429; answers match_text] table.

(** The transport succeeds but the first choice has no text. *)
Definition empty_reply : runtime := scripted [answers []] table.

(** The resume call answers with text that is not JSON, or with [{}]. *)
Definition resume_garbled : runtime := scripted [answers (js "not json")] table.

Definition raw_body : value :=
  Obj [(js "jd", Str sample_jd); (js "resume", Str sample_resume)].

End Script.

(* ================================================================= *)
(** ** utils/simpleHash.ts *)

Module Hash.
Local Open Scope Z_scope.

(** ToInt32: the value wrapped into [-2^31, 2^31). *)
Definition to_int32 (z : Z) : Z := (z + 2 ^ 31) mod 2 ^ 32 - 2 ^ 31.

(** [str.codePointAt(i)], read at the units from index [i] on: a high
    surrogate followed by a low one gives the code point of the pair, any
    other unit gives itself, and there is none past the end. *)
Definition codePointAt_head (units : jsstring) : option Z :=
  match units with
  | [] => None
  | hi :: rest =>
      if in_range 0xD800%N 0xDBFF%N hi then
        match rest with
        | lo :: _ =>
            if in_range 0xDC00%N 0xDFFF%N lo
            then Some ((Z.of_N hi - 0xD800) * 0x400
                       + (Z.of_N lo - 0xDC00) + 0x10000)
            else Some (Z.of_N hi)
        | [] => Some (Z.of_N hi)
        end
      else Some (Z.of_N hi)
  end.

(** [hash = (hash << 5) - hash + char; hash = hash & hash] *)
Definition step (hash char : Z) : Z :=
  let hash := to_int32 (Z.shiftl (to_int32 hash) 5) - hash + char in
  Z.land (to_int32 hash) (to_int32 hash).

(** The [for] loop over the indices of [str]; [units] are the units from
    the current index on. *)
Fixpoint loop (units : jsstring) (hash : Z) : Z :=
  match units with
  | [] => hash
  | _ :: rest =>
      let char := match codePointAt_head units with
                  | Some c => c
                  | None => 0
                  end in
      loop rest (step hash char)
  end.

(** One digit of [toString(36)]: [0-9] then [a-z]. *)
Definition digit36 (d : Z) : code_unit :=
  Z.to_N (if d <? 10 then 48 + d else 87 + d).

Fixpoint toString36_from (fuel : nat) (n : Z) (acc : jsstring) : jsstring :=
  match fuel with
  | O => acc
  | S fuel' =>
      let acc' := digit36 (n mod 36) :: acc in
      if n <? 36 then acc' else toString36_from fuel' (n / 36) acc'
  end.

(** [n.toString(36)] for a whole number [n >= 0]. *)
Definition toString36 (n : Z) : jsstring :=
  toString36_from (S (Z.to_nat (Z.log2 n))) n [].

(** [simpleHash(str)] *)
Definition simpleHash (str : value) : jsstring :=
  if negb (truthy str) || negb (is_string str) then []
  else match str with
       | Str s => let hash := loop s 0 in toString36 (Z.abs hash)
       | _ => []
       end.

(** The code points the loop reads, one per index. *)
Fixpoint codePoints_read (units : jsstring) : list Z :=
  match units with
  | [] => []
  | _ :: rest =>
      match codePointAt_head units with
      | Some c => c
      | None => 0
      end :: codePoints_read rest
  end.

(** Horner's rule in base 31. *)
Definition horner31 (cs : list Z) : Z :=
  fold_left (fun acc c => acc * 31 + c) cs 0.

(** The value of a digit of base 36, and of a numeral ([parseInt(s, 36)] on
    digits). *)
Definition digit_value (c : code_unit) : Z :=
  if is_digit c then Z.of_N c - 48 else Z.of_N c - 87.

Definition parse36 (s : jsstring) : Z :=
  fold_left (fun acc c => acc * 36 + digit_value c) s 0.

Definition is_digit36 (c : code_unit) : bool := is_digit c || is_lower c.

End Hash.

(* ================================================================= *)
(** ** Plain prose, which the sanitizer has nothing to do with *)

(** A printable ASCII unit that is neither a digit nor [@]. *)
Definition prose_unit (c : code_unit) : bool :=
  in_range 32%N 126%N c && negb (is_digit c) && negb (c =? 64)%N.

Fixpoint no_double_space (s : jsstring) : bool :=
  match s with
  | a :: (b :: _) as rest =>
      negb ((a =? 32)%N && (b =? 32)%N) && no_double_space rest
  | _ => true
  end.

Definition first_is_space (s : jsstring) : bool :=
  match s with c :: _ => (c =? 32)%N | [] => false end.

(** Prose of at most 6000 units: printable ASCII without digits and [@],
    words separated by single spaces, no space at either end. *)
Definition plain_prose (s : jsstring) : bool :=
  forallb prose_unit s && no_double_space s
  && negb (first_is_space s) && negb (first_is_space (rev s))
  && (List.length s <=? 6000)%nat.

(** A pattern that cannot match without a unit of class [p]. *)
Fixpoint requires (p : code_unit -> bool) (r : regex) : Prop :=
  match r with
  | Class q => forall c, q c = true -> p c = true
  | Seq r1 r2 => requires p r1 \/ requires p r2
  | Rep q (S _) _ => forall c, q c = true -> p c = true
  | _ => False
  end.

(* ================================================================= *)
(** ** What a computation adds to the world *)

(** Every effect of a run of [m] satisfies [P]. *)
Definition emits {A} (P : event -> Prop) (m : M A) : Prop :=
  forall w, exists evs,
      trace (final (m w)) = (trace w ++ evs)%list /\ Forall P evs.

(** The time a run has waited in all, in milliseconds. *)
Definition total_delay (tr : list event) : Z :=
  fold_right Z.add 0%Z (delays tr).

(** A run of [m] makes at most [n] outbound calls and waits at most [ms]
    milliseconds. *)
Definition within_budget {A} (n : nat) (ms : Z) (m : M A) : Prop :=
  forall w,
    (posts w <= posts (final (m w)) <= posts w + n)%nat
    /\ (total_delay (trace w) <= total_delay (trace (final (m w)))
        <= total_delay (trace w) + ms)%Z.

(** The request is one [makeOpenAIRequest] builds with the configured
    credential, the model the service names and one of its token limits. *)
Definition request_of_service (rt : runtime) (req : request) : Prop :=
  url req = "https://api.openai.com/v1/chat/completions"
  /\ timeout req = 60000%Z
  /\ model req = "gpt-4o-mini"
  /\ response_format req = "json_object"
  /\ (exists apiKey,
         OPENAI_API_KEY rt = Some apiKey /\ apiKey <> ""
         /\ authorization req = "Bearer " ++ apiKey)
  /\ (exists n, max_tokens req = Some n /\ (1000 <= n <= 2000)%Z).

Definition event_of_service (rt : runtime) (e : event) : Prop :=
  match e with
  | Post req => request_of_service rt req
  | Sleep ms => ms = 1000%Z \/ ms = 2000%Z
  | Console _ _ => True
  end.

(** The structured JD in which every property has its default. *)
Definition empty_structuredJD : value :=
  Obj [(js "title", empty_string);
       (js "company", empty_string);
       (js "location", empty_string);
       (js "employmentType", empty_string);
       (js "experienceLevel", empty_string);
       (js "educationRequirements", empty_array);
       (js "domain", empty_string);
       (js "responsibilities", empty_array);
       (js "mustHaveSkills", empty_array);
       (js "niceToHaveSkills", empty_array);
       (js "technologies", empty_array);
       (js "summary", empty_string)].

(** The property names of an object, in order. *)
Definition keys (o : value) : list jsstring := map fst (spread o).

(** The requests of a run, in order. *)
Definition requests (tr : list event) : list request :=
  flat_map (fun e => match e with Post req => [req] | _ => [] end) tr.



(* ================================================================= *)
(** ** controllers/jd.controller.ts, resume.controller.ts and the
       analyze controller for a structured resume *)

Module Controllers.


(** [preprocessResumeHandler(req, res)] *)
Definition preprocessResumeHandler (rt : runtime) (req_body : value)
  : M reply :=
  match req_body with
  | Undefined =>
      throw (TypeError "Cannot destructure property 'resumeText' of 'req.body' as it is undefined.")
  | Null =>
      throw (TypeError "Cannot destructure property 'resumeText' of 'req.body' as it is null.")
  | _ =>
      let resumeText := field req_body "resumeText" in
      if negb (truthy resumeText) || negb (is_string resumeText) then
        ret (bad_request "Resume text is required")
      else
        let sanitizedResume := sanitizeText resumeText in
        console LInfo "Preprocessing resume..." ;;
        try_catch
          (structuredResume <- preprocessResume rt sanitizedResume ;;
           console LInfo "Successfully preprocessed resume" ;;
           ret {| status := 200;
                  payload := Obj [(js "structuredResume",
                                   structuredResume)] |})
          (fun error =>
             console LError "Error preprocessing resume:" ;;
             throw error)
  end.

(** [typeof v === "object" && !Array.isArray(v)] on a truthy [v] *)
Definition is_plain_object (v : value) : bool :=
  match v with Obj _ => true | _ => false end.

(** [jobMetadata?.metadataHtmlString] *)
Definition optional_metadataHtmlString (jobMetadata : value) : value :=
  match jobMetadata with
  | Undefined | Null => Undefined
  | _ => field jobMetadata "metadataHtmlString"
  end.

(** [analyzeHandler(req, res)] for the body
    [{jd, structuredResume, jobMetadata?}]. *)
Definition analyzeHandler (rt : runtime) (req_body : value) : M reply :=
  match req_body with
  | Undefined =>
      throw (TypeError "Cannot destructure property 'jd' of 'req.body' as it is undefined.")
  | Null =>
      throw (TypeError "Cannot destructure property 'jd' of 'req.body' as it is null.")
  | _ =>
      let jd := field req_body "jd" in
      let structuredResume := field req_body "structuredResume" in
      let jobMetadata := field req_body "jobMetadata" in
      if negb (truthy jd) || negb (is_string jd) then
        ret (bad_request "Job description is required")
      else if negb (truthy structuredResume)
              || negb (is_plain_object structuredResume) then
        ret (bad_request "Structured resume is required and must be an object")
      else
        let sanitizedJD := sanitizeText jd in
        let metadataHtmlString := optional_metadataHtmlString jobMetadata in
        console LInfo "Analyzing job description and structured resume..." ;;
        try_catch
          (analysisResult <-
             analyze rt sanitizedJD structuredResume metadataHtmlString ;;
           console LInfo "Successfully analyzed job description and resume" ;;
           ret {| status := 200; payload := analysisResult |})
          (fun error =>
             console LError "Error analyzing JD and resume:" ;;
             throw error)
  end.

End Controllers.

(* ================================================================= *)
(** ** middlewares/errorHandler.ts and a route as the app mounts it *)

Module Http.






End Http.

(* ================================================================= *)
(** ** app.ts: the CORS origin check *)

Module Cors.

(** [s.split(",")] *)
Fixpoint split_comma (s : string) : list string :=
  match s with
  | EmptyString => [EmptyString]
  | String c rest =>
      if Ascii.eqb c ","%char then EmptyString :: split_comma rest
      else match split_comma rest with
           | piece :: pieces => String c piece :: pieces
           | [] => [String c EmptyString]
           end
  end.

(** [process.env.CORS_ORIGINS?.split(",") || ["*"]]; an array is truthy,
    so the default is taken only when the variable is not set. *)
Definition allowedOrigins (CORS_ORIGINS : option string) : list string :=
  match CORS_ORIGINS with
  | Some s => split_comma s
  | None => ["*"]
  end.

Definition includes (l : list string) (s : string) : bool :=
  existsb (String.eqb s) l.

(** The [origin] callback of [corsOptions]: [inl true] is
    [callback(null, true)], [inr msg] is [callback(new Error(msg))]. *)
Definition origin_check (CORS_ORIGINS : option string) (origin : option string)
  : bool + string :=
  let allowed := allowedOrigins CORS_ORIGINS in
  match origin with
  | None => inl true
  | Some o =>
      if String.eqb o "" then inl true
      else if includes allowed "*" then inl true
      else if includes allowed o then inl true
      else if String.prefix "chrome-extension://" o then inl true
      else inr "Not allowed by CORS"
  end.

(** [l.join(",")] *)
Fixpoint join_comma (l : list string) : string :=
  match l with
  | [] => ""
  | [s] => s
  | s :: rest => s ++ "," ++ join_comma rest
  end.

Fixpoint has_comma (s : string) : bool :=
  match s with
  | EmptyString => false
  | String c rest => Ascii.eqb c ","%char || has_comma rest
  end.

End Cors.

(* ================================================================= *)
(** ** More scripted runs *)

Module Cases.
Import Script.

(** The JD call answers with [null], and with a bare number. *)
Definition table' : list (jsstring * value) :=
  (js "null", Null) :: (js "42", Num (num 42)) :: table.

Definition jd_null : runtime := scripted [answers (js "null")] table'.
Definition jd_number : runtime := scripted [answers (js "42")] table'.

(** No credential at all. *)
Definition no_key : runtime :=
  {| OPENAI_API_KEY := None;
     axios_post := fun _ _ => network_error;
     JSON_parse := parse_table table;
     ToNumber_object := fun _ => Return NaN |}.

(** The only call finds no network. *)
Definition offline : runtime := scripted [] table.

(** One transient failure, then an answer. *)
Definition busy_once_then_ok : runtime :=
  scripted [fails_with 503; answers jd_text] table.

(** [{"job":{"title":"Engineer"}}]: metadata without a company. *)
Definition job_only_text : jsstring :=
  (js "{" ++ quoted "job" ++ js ":{" ++ quoted "title" ++ js ":"
   ++ quoted "Engineer" ++ js "}}")%list.
Definition job_only_json : value :=
  Obj [(js "job", Obj [(js "title", Str (js "Engineer"))])].

Definition metadata_without_company : runtime :=
  scripted [answers job_only_text] ((job_only_text, job_only_json) :: table).



Definition structured_body (metadataHtmlString : value) : value :=
  Obj [(js "jd", Str sample_jd);
       (js "structuredResume", Obj [(js "name", Str (js "Ada"))]);
       (js "jobMetadata",
         Obj [(js "metadataHtmlString", metadataHtmlString)])].

End Cases.

(* ================================================================= *)
(** * Properties *)

(* ================================================================= *)
(** ** The sanitizer *)

Section SanitizerFacts.
Local Open Scope nat_scope.

Lemma Forall_firstn (A : Type) (P : A -> Prop) (n : nat) (l : list A) :
  Forall P l -> Forall P (firstn n l).
Proof.
  intros H. rewrite Forall_forall in *. intros x Hx.
  apply H. rewrite <- (firstn_skipn n l). apply in_or_app. now left.
Qed.

(** A repetition that may stop at once always matches. *)
Lemma rep_min0_total (p : code_unit -> bool) (s : jsstring) :
  forall max prev,
    exists rest, rep p 0 max prev s (fun _ r => Some r) = Some rest.
Proof.
  induction s as [|c s' IH]; intros max prev.
  - destruct max as [[|m]|]; simpl; eauto.
  - destruct max as [[|m]|]; simpl; eauto.
    + destruct (p c); eauto.
      destruct (IH (Some m) (Some c)) as [r Hr]. rewrite Hr. eauto.
    + destruct (p c); eauto.
      destruct (IH None (Some c)) as [r Hr]. rewrite Hr. eauto.
Qed.

(** What a repetition leaves is shorter than its input by at least the
    minimum count. *)
Lemma rep_consumes (p : code_unit -> bool) (s : jsstring) :
  forall min max prev rest,
    rep p min max prev s (fun _ r => Some r) = Some rest ->
    List.length rest + min <= List.length s.
Proof.
  induction s as [|c s' IH]; intros min max prev rest H.
  - destruct max as [[|m]|], min; simpl in H; inversion H; subst; simpl; lia.
  - assert (Hstop : match min with
                    | O => Some (c :: s')
                    | S _ => @None jsstring
                    end = Some rest ->
                    List.length rest + min <= List.length (c :: s')).
    { destruct min; intros E; inversion E; subst; simpl; lia. }
    destruct max as [[|m]|]; simpl in H.
    + now apply Hstop.
    + destruct (p c); [|now apply Hstop].
      destruct (rep p (pred min) (Some m) (Some c) s'
                    (fun _ r => Some r)) eqn:E.
      * inversion H; subst. apply IH in E. simpl. lia.
      * now apply Hstop.
    + destruct (p c); [|now apply Hstop].
      destruct (rep p (pred min) None (Some c) s'
                    (fun _ r => Some r)) eqn:E.
      * inversion H; subst. apply IH in E. simpl. lia.
      * now apply Hstop.
Qed.

(** [/[p]+/] at a unit of the class matches, and takes that unit at least;
    at any other unit it does not match. *)
Lemma plus_match_here (p : code_unit -> bool) prev c s :
  if p c
  then exists rest, match_here (Plus p) prev (c :: s) = Some rest
                    /\ List.length rest <= List.length s
  else match_here (Plus p) prev (c :: s) = None.
Proof.
  unfold match_here, Plus. simpl. destruct (p c); [|reflexivity].
  destruct (rep_min0_total p s None (Some c)) as [r Hr].
  rewrite Hr. exists r. split; [reflexivity|].
  apply rep_consumes in Hr. lia.
Qed.

(** After [replace(/[p]+/g, r)] no unit of the class is left, when the
    replacement has none. *)
Lemma replace_plus_clean (p : code_unit -> bool) (r : jsstring) :
  Forall (fun c => p c = false) r ->
  forall s prev skip,
    Forall (fun c => p c = false) (replace_from (Plus p) r prev skip s).
Proof.
  intros Hr s. induction s as [|c s' IH]; intros prev skip.
  - cbn [replace_from]. destruct skip; [|constructor].
    destruct (match_here (Plus p) prev []); [assumption|constructor].
  - destruct skip as [|n]; [|simpl; apply IH].
    cbn [replace_from].
    pose proof (plus_match_here p prev c s') as Hm.
    destruct (p c) eqn:Hpc.
    + destruct Hm as [rest [Hm Hlen]]. rewrite Hm.
      change (List.length (c :: s')) with (S (List.length s')).
      destruct (S (List.length s') - List.length rest) eqn:E; [lia|].
      apply Forall_app. split; [assumption|apply IH].
    + rewrite Hm. constructor; [assumption|apply IH].
Qed.

(** [replace(/[p]/g, "")] keeps exactly the units outside the class. *)
Lemma replace_class_filter (p : code_unit -> bool) (s : jsstring) :
  forall prev,
    replace_from (Class p) [] prev 0 s = filter (fun c => negb (p c)) s.
Proof.
  induction s as [|c s' IH]; intros prev; [reflexivity|].
  cbn [replace_from filter]. unfold match_here. cbn [run].
  destruct (p c); cbn [negb].
  - change (List.length (c :: s')) with (S (List.length s')).
    destruct (S (List.length s') - List.length s') as [|n] eqn:E; [lia|].
    assert (n = 0) by lia. subst n. apply IH.
  - f_equal. apply IH.
Qed.

(** The three closing steps of [sanitize_string] leave printable ASCII, and
    at most 6000 units of it, whatever came before. *)
Lemma closing_steps_clean (s : jsstring) :
  let out :=
    slice0 6000
      (replace_all (Class is_control) []
         (replace_all (Plus is_non_ascii) (js " ") s)) in
  List.length out <= 6000
  /\ Forall (fun c => is_control c = false /\ is_non_ascii c = false) out.
Proof.
  cbv zeta. split.
  - unfold slice0. rewrite length_firstn. apply Nat.le_min_l.
  - unfold slice0. apply Forall_firstn.
    unfold replace_all at 1. rewrite replace_class_filter.
    rewrite Forall_forall. intros c Hc. apply filter_In in Hc.
    destruct Hc as [Hin Hctl]. split.
    + now destruct (is_control c).
    + pose proof (replace_plus_clean is_non_ascii (r := js " ")) as Hclean.
      assert (Hsp : Forall (fun c => is_non_ascii c = false) (js " "))
        by (repeat constructor).
      specialize (Hclean Hsp s None 0).
      rewrite Forall_forall in Hclean. now apply Hclean.
Qed.

(** Outside the control and non-ASCII classes lie the units 0x20..0x7E. *)
Lemma printable_range (c : code_unit) :
  is_control c = false /\ is_non_ascii c = false <-> (0x20 <= c <= 0x7E)%N.
Proof.
  unfold is_control, is_non_ascii, in_range.
  rewrite orb_false_iff, negb_false_iff, !andb_false_iff, andb_true_iff.
  rewrite !N.leb_le, !N.leb_gt, N.eqb_neq. lia.
Qed.

End SanitizerFacts.

Lemma sanitize_string_clean (s : jsstring) :
  (List.length (sanitize_string s) <= 6000)%nat
  /\ Forall (fun c => is_control c = false /\ is_non_ascii c = false)
            (sanitize_string s).
Proof. unfold sanitize_string. apply closing_steps_clean. Qed.

Lemma sanitizeText_non_string (text : value) :
  is_string text = false -> sanitizeText text = [].
Proof.
  intros H. unfold sanitizeText. rewrite H. cbn [negb].
  now rewrite orb_true_r.
Qed.

Lemma sanitizeText_string (s : jsstring) :
  sanitizeText (Str s) = if is_empty s then [] else sanitize_string s.
Proof. unfold sanitizeText. simpl. now destruct (is_empty s). Qed.

Lemma sanitizeText_length (text : value) :
  (List.length (sanitizeText text) <= 6000)%nat.
Proof.
  destruct text;
    try (rewrite sanitizeText_non_string by reflexivity; simpl; lia).
  rewrite sanitizeText_string. destruct (is_empty s); [simpl; lia|].
  apply sanitize_string_clean.
Qed.

(** C9: for every input, a string or not, [sanitizeText] returns a string of
    at most 6000 units, none of them an ASCII control character (0x00-0x1F,
    0x7F) or a non-ASCII unit, which leaves the units 0x20..0x7E; an input
    that is not a string gives the empty string. *)
Theorem C9_sanitize_output_bounded_printable (text : value) :
  (List.length (sanitizeText text) <= 6000)%nat
  /\ Forall (fun c => is_control c = false /\ is_non_ascii c = false)
            (sanitizeText text)
  /\ (forall c, In c (sanitizeText text) -> (0x20 <= c <= 0x7E)%N)
  /\ (is_string text = false -> sanitizeText text = []).
Proof.
  assert (Hclean : Forall (fun c => is_control c = false
                                    /\ is_non_ascii c = false)
                          (sanitizeText text)).
  { destruct text;
      try (rewrite sanitizeText_non_string by reflexivity; constructor).
    rewrite sanitizeText_string. destruct (is_empty s); [constructor|].
    apply sanitize_string_clean. }
  split; [apply sanitizeText_length|].
  split; [exact Hclean|]. split; [|apply sanitizeText_non_string].
  intros c Hc. apply printable_range.
  rewrite Forall_forall in Hclean. now apply Hclean.
Qed.

(** C10: for every string [text], every [minLength] and every
    [maxLength >= 6000] (the routes all use 50000),
    [validateTextLength(text, minLength, maxLength)] is true exactly when
    [sanitizeText(text).length >= minLength]: the upper bound never rejects,
    since the sanitized text has at most 6000 units. *)
Theorem C10_validateTextLength_upper_bound_idle
        (text : jsstring) (minLength maxLength : Z) :
  (6000 <= maxLength)%Z ->
  validateTextLength (Str text) minLength maxLength = true
  <-> (Z.of_nat (List.length (sanitizeText (Str text))) >= minLength)%Z.
Proof.
  intros Hmax. unfold validateTextLength.
  pose proof (sanitizeText_length (Str text)) as Hlen.
  assert (Hz : (Z.of_nat (List.length (sanitizeText (Str text))) <= 6000)%Z).
  { apply Nat2Z.inj_le in Hlen. exact Hlen. }
  rewrite andb_true_iff, Z.geb_le, Z.leb_le. lia.
Qed.

Lemma C10_witness :
  (6000 <= default_maxLength)%Z
  /\ (validateTextLength (Str (js "Rocq engineer wanted")) default_minLength
                         default_maxLength = true
      <-> (Z.of_nat (List.length
                       (sanitizeText (Str (js "Rocq engineer wanted"))))
           >= default_minLength)%Z).
Proof.
  split; [unfold default_maxLength; lia|].
  apply (C10_validateTextLength_upper_bound_idle
           (js "Rocq engineer wanted") default_minLength).
  unfold default_maxLength. lia.
Defined.

(** Every rule of every route asks for at most 50000 units, the default. *)
Lemma route_rules_use_default_maxLength (rule : ValidationRule) :
  In rule (jd_route_rules ++ resume_route_rules ++ analyze_route_rules) ->
  bound_or (maxLength rule) default_maxLength = 50000%Z
  /\ bound_or (minLength rule) default_minLength = 10%Z.
Proof.
  simpl. intros H.
  repeat (destruct H as [H|H]; [subst rule; split; reflexivity|]).
  contradiction.
Qed.

(** A rule of the routes rejects a body only for a missing field or for a
    sanitized text shorter than ten units, never for a long one. *)
Lemma route_rule_rejects_only_short (name : string) (req_body : value)
      (e : string) :
  check_rule (text_rule name) req_body = Some e ->
  e = "Field '" ++ name ++ "' is required"
  \/ exists s, field req_body name = Str s
               /\ (List.length (sanitizeText (Str s)) < 10)%nat.
Proof.
  unfold check_rule. cbn [text_rule required rule_field minLength maxLength].
  cbn [andb negb bound_or Z.eqb].
  destruct (negb (truthy (field req_body name))
            || negb (is_string (field req_body name))
            || match field req_body name with
               | Str s => (List.length (trim s) =? 0)%nat
               | _ => false
               end) eqn:Hreq.
  - intros H. inversion H. now left.
  - destruct (truthy (field req_body name) && is_string (field req_body name))
      eqn:Hstr; [|discriminate].
    destruct (validateTextLength (field req_body name) 10 50000) eqn:Hv;
      [discriminate|]. intros _. right.
    apply andb_true_iff in Hstr. destruct Hstr as [_ Hs].
    destruct (field req_body name) as [| | | |s| |]; try discriminate Hs.
    exists s. split; [reflexivity|].
    destruct (Nat.lt_ge_cases (List.length (sanitizeText (Str s))) 10)
      as [Hlt|Hge]; [exact Hlt|exfalso].
    assert (Hok : validateTextLength (Str s) 10 50000 = true).
    { unfold validateTextLength.
      pose proof (sanitizeText_length (Str s)) as Hlen.
      apply Nat2Z.inj_le in Hlen.
      change (Z.of_nat 6000) with 6000%Z in Hlen.
      rewrite andb_true_iff, Z.geb_le, Z.leb_le. lia. }
    congruence.
Qed.

(** An empty [jd] is stopped by the middleware of [POST /analyze]. *)
Example empty_jd_is_rejected :
  validation_errors analyze_route_rules
                    (Obj [(js "jd", Str []);
                          (js "resume", Str (js "Ten years of proofs"))])
  = ["Field 'jd' is required"].
Proof. vm_compute. reflexivity. Qed.

(** The sanitizer on the example of the specification. *)
Example sanitize_email_and_phone :
  sanitizeText (Str (js "john@x.com call 555-123-4567"))
  = js "[email] call [phone]".
Proof. vm_compute. reflexivity. Qed.

Example sanitize_card_and_spacing :
  sanitizeText (Str (js "  pay 4111 1111 1111 1111   now  "))
  = js "pay [card] now".
Proof. vm_compute. reflexivity. Qed.

(* ================================================================= *)
(** ** The completion client *)

Section ClientFacts.
Variable rt : runtime.
Variables (apiKey : string) (messages : list chat_message) (model : string)
          (temperature : Q) (maxTokens : option Z).

Local Abbreviation req :=
  (requestBody apiKey messages model temperature maxTokens).

Lemma makeOpenAIRequest_run (w : world) :
  makeOpenAIRequest rt apiKey messages model temperature maxTokens w
  = (attempt_outcome (axios_post rt (posts w) req), sent req w).
Proof.
  unfold makeOpenAIRequest, bind, post, lift, attempt_outcome, sent.
  fold req. destruct (axios_post rt (posts w) req) as [data|msg st];
    [|reflexivity].
  destruct (first_content data) as [[text|]|e]; try reflexivity.
  destruct (is_empty text); reflexivity.
Qed.

(** One turn of the loop: success returns, a failure that is not retryable
    throws at once, a retryable one backs off and goes on. *)
Lemma loop_step (remaining : nat) (attempt : Z)
      (lastError : option RetryableError) (w : world) :
  callOpenAIChat_loop rt (S remaining) attempt lastError apiKey messages
                      model temperature maxTokens w
  = match attempt_outcome (axios_post rt (posts w) req) with
    | Return text => (Return text, sent req w)
    | Throw e =>
        if isRetryableStatus (response_status_of e)
        then callOpenAIChat_loop rt remaining (attempt + 1)
                                 (Some (createRetryableError e)) apiKey
                                 messages model temperature maxTokens
                                 (backoff attempt (sent req w))
        else (match response_status_of e with
              | Some 401%Z => Throw (new_Error "Invalid OpenAI API key")
              | Some 400%Z => Throw (new_Error "Invalid request to OpenAI API")
              | _ => Throw (Thrown (createRetryableError e))
              end, sent req w)
    end.
Proof.
  cbn [callOpenAIChat_loop]. unfold try_catch at 1.
  rewrite makeOpenAIRequest_run.
  destruct (attempt_outcome (axios_post rt (posts w) req)) as [text|e];
    [reflexivity|].
  unfold bind at 1.
  change (isRetryable (createRetryableError e))
    with (isRetryableStatus (response_status_of e)).
  destruct (isRetryableStatus (response_status_of e)) eqn:Hretry; cbn [negb].
  - unfold ret at 1. unfold bind at 1. unfold backoff, when.
    destruct (attempt <? MAX_RETRIES - 1)%Z; [|reflexivity].
    unfold console, emit, bind. cbn [posts trace].
    rewrite <- app_assoc. reflexivity.
  - unfold handleNonRetryableError.
    change (statusCode (createRetryableError e)) with (response_status_of e).
    destruct (response_status_of e) as [[|c|c]|]; try reflexivity.
    repeat (destruct c as [c|c|]; try reflexivity).
Qed.

Lemma loop_exhausted (attempt : Z) (e : RetryableError) (w : world) :
  callOpenAIChat_loop rt 0 attempt (Some e) apiKey messages model temperature
                      maxTokens w
  = (Throw (new_Error ("OpenAI API call failed after 3 attempts: "
                       ++ message e)), w).
Proof. reflexivity. Qed.

(** Every turn of the loop makes a call. *)
Lemma loop_posts (remaining : nat) :
  forall attempt lastError w,
    (posts w + Nat.min 1 remaining
     <= posts (final (callOpenAIChat_loop rt remaining attempt lastError
                                          apiKey messages model temperature
                                          maxTokens w)))%nat.
Proof.
  induction remaining as [|r IH]; intros attempt lastError w.
  - simpl. lia.
  - rewrite loop_step.
    destruct (attempt_outcome (axios_post rt (posts w) req)) as [text|e].
    + simpl. lia.
    + destruct (isRetryableStatus (response_status_of e)).
      * specialize (IH (attempt + 1)%Z (Some (createRetryableError e))
                       (backoff attempt (sent req w))).
        assert (posts (backoff attempt (sent req w)) = S (posts w))
          by (unfold backoff; destruct (attempt <? MAX_RETRIES - 1)%Z;
              reflexivity).
        destruct r; simpl in *; lia.
      * simpl. lia.
Qed.

Lemma transient_outcome (r : axios_result) :
  transient r ->
  exists e, attempt_outcome r = Throw e
            /\ isRetryableStatus (response_status_of e) = true.
Proof.
  intros (msg & code & -> & Hcode). exists (Error msg (Some code)).
  split; [reflexivity|exact Hcode].
Qed.

Lemma isRetryableStatus_spec (st : option Z) :
  isRetryableStatus st = true
  <-> (st = Some 429 \/ st = Some 500 \/ st = Some 502 \/ st = Some 503)%Z.
Proof.
  destruct st as [c|]; simpl.
  - rewrite !orb_true_iff, !Z.eqb_eq. split.
    + intros [[[->| ->]| ->]| ->]; auto.
    + intros [H|[H|[H|H]]]; inversion H; auto.
  - split; [discriminate|]. intros [H|[H|[H|H]]]; discriminate.
Qed.

End ClientFacts.

Lemma callOpenAIChat_configured rt apiKey messages model temperature maxTokens :
  OPENAI_API_KEY rt = Some apiKey -> apiKey <> "" ->
  callOpenAIChat rt messages model temperature maxTokens
  = callOpenAIChat_loop rt 3 0 None apiKey messages model temperature
                        maxTokens.
Proof.
  intros Hkey Hne. unfold callOpenAIChat. rewrite Hkey.
  apply String.eqb_neq in Hne. rewrite Hne. reflexivity.
Qed.

(** C2: when all three attempts fail with a retryable status, the client
    makes exactly three calls, waits 1000 ms after the first and 2000 ms
    after the second, does not wait after the third, and throws an error
    whose message names the count, 3, and the message of the last failure. *)
Theorem C2_three_attempts_backoff_then_aggregate_error
        rt apiKey messages model temperature maxTokens w
        msg0 code0 msg1 code1 msg2 code2 :
  OPENAI_API_KEY rt = Some apiKey -> apiKey <> "" ->
  let req := requestBody apiKey messages model temperature maxTokens in
  axios_post rt (posts w) req = Rejected msg0 (Some code0) ->
  isRetryableStatus (Some code0) = true ->
  axios_post rt (posts w + 1) req = Rejected msg1 (Some code1) ->
  isRetryableStatus (Some code1) = true ->
  axios_post rt (posts w + 2) req = Rejected msg2 (Some code2) ->
  isRetryableStatus (Some code2) = true ->
  callOpenAIChat rt messages model temperature maxTokens w
  = (Throw (new_Error
              ("OpenAI API call failed after 3 attempts: "
               ++ (if String.eqb msg2 "" then "OpenAI API request failed"
                   else msg2))),
     {| posts := posts w + 3;
        trace :=
          trace w
          ++ [Post req;
              Console LInfo "Retrying OpenAI API call (attempt 1/3) after 1000ms";
              Sleep 1000;
              Post req;
              Console LInfo "Retrying OpenAI API call (attempt 2/3) after 2000ms";
              Sleep 2000;
              Post req] |}).
Proof.
  intros Hkey Hne req H0 R0 H1 R1 H2 R2.
  rewrite callOpenAIChat_configured with (apiKey := apiKey) by assumption.
  rewrite Nat.add_1_r in H1.
  replace (posts w + 2)%nat with (S (S (posts w))) in H2 by lia.
  rewrite loop_step. fold req. rewrite H0.
  cbn [attempt_outcome response_status_of]. rewrite R0.
  rewrite loop_step. fold req.
  change (posts (backoff 0 (sent req w))) with (S (posts w)). rewrite H1.
  cbn [attempt_outcome response_status_of]. rewrite R1.
  rewrite loop_step. fold req.
  change (posts (backoff (0 + 1) (sent req (backoff 0 (sent req w)))))
    with (S (S (posts w))).
  rewrite H2. cbn [attempt_outcome response_status_of]. rewrite R2.
  rewrite loop_exhausted. unfold backoff, sent. cbn [posts trace].
  change (0 + 1 + 1 <? MAX_RETRIES - 1)%Z with false.
  change (0 + 1 <? MAX_RETRIES - 1)%Z with true.
  change (0 <? MAX_RETRIES - 1)%Z with true.
  cbn [posts trace createRetryableError message message_of].
  rewrite <- !app_assoc. cbn [app].
  replace (S (S (S (posts w)))) with (posts w + 3)%nat by lia.
  reflexivity.
Qed.

Lemma C2_witness :
  callOpenAIChat Script.always_busy [] "gpt-4o-mini" (3 # 10) None initial
  = (Throw (new_Error
              "OpenAI API call failed after 3 attempts: Request failed with status code 503"),
     {| posts := 3;
        trace :=
          let req := requestBody "sk-test" [] "gpt-4o-mini" (3 # 10) None in
          [Post req;
           Console LInfo "Retrying OpenAI API call (attempt 1/3) after 1000ms";
           Sleep 1000;
           Post req;
           Console LInfo "Retrying OpenAI API call (attempt 2/3) after 2000ms";
           Sleep 2000;
           Post req] |}).
Proof.
  apply (@C2_three_attempts_backoff_then_aggregate_error
           Script.always_busy "sk-test" [] "gpt-4o-mini" (3 # 10) None initial
           "Request failed with status code 429" 429%Z
           "Request failed with status code 500" 500%Z
           "Request failed with status code 503" 503%Z);
    try reflexivity.
  discriminate.
Defined.

(** After [k] transient failures the loop is [k] turns further, with [k]
    calls made. *)
Lemma loop_after_transients rt apiKey messages model temperature maxTokens
      (k : nat) :
  let req := requestBody apiKey messages model temperature maxTokens in
  forall remaining attempt lastError w,
    (forall i, (i < k)%nat -> transient (axios_post rt (posts w + i) req)) ->
    exists lastError' w',
      callOpenAIChat_loop rt (k + remaining) attempt lastError apiKey messages
                          model temperature maxTokens w
      = callOpenAIChat_loop rt remaining (attempt + Z.of_nat k) lastError'
                            apiKey messages model temperature maxTokens w'
      /\ posts w' = (posts w + k)%nat.
Proof.
  intros req. induction k as [|k IH]; intros remaining attempt lastError w Htr.
  - exists lastError, w. rewrite Z.add_0_r, Nat.add_0_r. split; reflexivity.
  - cbn [Nat.add]. rewrite loop_step. fold req.
    destruct (transient_outcome (Htr 0%nat (Nat.lt_0_succ k))) as (e & He & Hr).
    rewrite Nat.add_0_r in He. rewrite He, Hr.
    destruct (IH remaining (attempt + 1)%Z (Some (createRetryableError e))
                 (backoff attempt (sent req w))) as (l' & w' & Hrun & Hposts).
    + intros i Hi.
      replace (posts (backoff attempt (sent req w)) + i)%nat
        with (posts w + S i)%nat.
      * apply Htr. lia.
      * unfold backoff. destruct (attempt <? MAX_RETRIES - 1)%Z; simpl; lia.
    + exists l', w'. rewrite Hrun. split.
      * f_equal. lia.
      * rewrite Hposts. unfold backoff.
        destruct (attempt <? MAX_RETRIES - 1)%Z; simpl; lia.
Qed.

(** C1: a failed attempt of [callOpenAIChat] (the [k]-th, after [k]
    transient failures) is retryable exactly when it carries status 429,
    500, 502 or 503; a retryable failure is followed by another attempt
    while the budget of three attempts lasts; any other failure ends the
    call with that attempt: 401 with the invalid-key error, 400 with the
    invalid-request error, any other status or none (network error,
    timeout, empty content) with the converted error itself. *)
Theorem C1_retry_only_on_transient_status
        rt apiKey messages model temperature maxTokens w (k : nat) (e : exn) :
  OPENAI_API_KEY rt = Some apiKey -> apiKey <> "" ->
  let req := requestBody apiKey messages model temperature maxTokens in
  (k < 3)%nat ->
  (forall i, (i < k)%nat -> transient (axios_post rt (posts w + i) req)) ->
  attempt_outcome (axios_post rt (posts w + k) req) = Throw e ->
  let run := callOpenAIChat rt messages model temperature maxTokens w in
  let st := response_status_of e in
  (isRetryable (createRetryableError e) = true
   <-> (st = Some 429 \/ st = Some 500 \/ st = Some 502 \/ st = Some 503)%Z)
  /\ (isRetryable (createRetryableError e) = true -> (k < 2)%nat ->
      (posts w + k + 2 <= posts (final run))%nat)
  /\ (isRetryable (createRetryableError e) = false ->
      posts (final run) = (posts w + k + 1)%nat
      /\ outcome run
         = Throw (match st with
                  | Some 401%Z => new_Error "Invalid OpenAI API key"
                  | Some 400%Z => new_Error "Invalid request to OpenAI API"
                  | _ => Thrown {| name := "OpenAIError";
                                   message := if String.eqb (message_of e) ""
                                              then "OpenAI API request failed"
                                              else message_of e;
                                   isRetryable := false;
                                   statusCode := st |}
                  end)).
Proof.
  intros Hkey Hne req Hk Htr He run st.
  change (isRetryable (createRetryableError e)) with (isRetryableStatus st).
  split; [apply isRetryableStatus_spec|].
  subst run. rewrite callOpenAIChat_configured with (apiKey := apiKey)
    by assumption.
  destruct (@loop_after_transients rt apiKey messages model temperature
              maxTokens k (3 - k) 0%Z None w Htr)
    as (l' & w' & Hrun & Hposts).
  replace (k + (3 - k))%nat with 3%nat in Hrun by lia. rewrite Hrun.
  destruct (3 - k)%nat as [|r] eqn:Hr; [lia|].
  rewrite loop_step. fold req. rewrite Hposts, He. fold st.
  split.
  - intros Hretry Hk2. rewrite Hretry.
    pose proof (@loop_posts rt apiKey messages model temperature maxTokens r
                  (0 + Z.of_nat k + 1)%Z (Some (createRetryableError e))
                  (backoff (0 + Z.of_nat k) (sent req w'))) as Hp.
    fold req in Hp.
    assert (Hb : posts (backoff (0 + Z.of_nat k) (sent req w'))
                 = S (posts w + k)).
    { unfold backoff. destruct (0 + Z.of_nat k <? MAX_RETRIES - 1)%Z;
        simpl; lia. }
    rewrite Hb in Hp. destruct r as [|r]; [lia|].
    change (Nat.min 1 (S r)) with 1%nat in Hp. lia.
  - intros Hfatal. rewrite Hfatal. unfold final, outcome, sent. cbn [fst snd posts].
    split; [lia|].
    assert (Hc : createRetryableError e
                 = {| name := "OpenAIError";
                      message := if String.eqb (message_of e) ""
                                 then "OpenAI API request failed"
                                 else message_of e;
                      isRetryable := false;
                      statusCode := st |}).
    { unfold createRetryableError. fold st. rewrite Hfatal. reflexivity. }
    rewrite Hc. clear Hc Hfatal. clearbody st.
    destruct st as [[|c|c]|]; try reflexivity.
    repeat (destruct c as [c|c|]; try reflexivity).
Qed.

Lemma C1_witness :
  let run := callOpenAIChat Script.busy_then_refused [] "gpt-4o-mini" (3 # 10)
                            None initial in
  posts (final run) = 2%nat
  /\ outcome run = Throw (new_Error "Invalid OpenAI API key").
Proof.
  destruct (@C1_retry_only_on_transient_status
              Script.busy_then_refused "sk-test" [] "gpt-4o-mini" (3 # 10)
              None initial 1
              (Error "Request failed with status code 401" (Some 401%Z)))
    as (_ & _ & H).
  - reflexivity.
  - discriminate.
  - lia.
  - intros i Hi. assert (i = 0)%nat by lia. subst i.
    exists "Request failed with status code 429", 429%Z.
    split; reflexivity.
  - reflexivity.
  - exact (H eq_refl).
Defined.

(** Two 429s and then an answer: the text is returned after delays of 1000
    and 2000 ms. *)
Example retry_twice_then_succeed :
  let run := callOpenAIChat Script.busy_twice_then_ok [] "gpt-4o-mini"
                            (3 # 10) None initial in
  outcome run = Return Script.match_text
  /\ posts (final run) = 3%nat
  /\ delays (trace (final run)) = [1000; 2000]%Z.
Proof. vm_compute. repeat split; reflexivity. Qed.

(** A 401 on the first attempt: one call, no delay. *)
Example refused_at_once :
  let run := callOpenAIChat Script.jd_down [] "gpt-4o-mini" (3 # 10) None
                            initial in
  outcome run = Throw (new_Error "Invalid OpenAI API key")
  /\ posts (final run) = 1%nat
  /\ delays (trace (final run)) = [].
Proof. vm_compute. repeat split; reflexivity. Qed.

(** An empty first choice: one call, and the converted error is thrown. *)
Example empty_content_not_retried :
  let run := callOpenAIChat Script.empty_reply [] "gpt-4o-mini" (3 # 10) None
                            initial in
  outcome run
  = Throw (Thrown {| name := "OpenAIError";
                     message := "Empty response from OpenAI API";
                     isRetryable := false;
                     statusCode := None |})
  /\ posts (final run) = 1%nat.
Proof. vm_compute. split; reflexivity. Qed.

(** Without a credential no call is made. *)
Lemma callOpenAIChat_unconfigured rt messages model temperature maxTokens w :
  OPENAI_API_KEY rt = None \/ OPENAI_API_KEY rt = Some "" ->
  callOpenAIChat rt messages model temperature maxTokens w
  = (Throw (new_Error "OPENAI_API_KEY is not configured"), w).
Proof. unfold callOpenAIChat. intros [-> | ->]; reflexivity. Qed.

(* ================================================================= *)
(** ** The normalizers *)

Section NormalizerFacts.
Variable rt : runtime.

Lemma truthy_non_null (v : value) : truthy v = true -> non_null v.
Proof. destruct v; simpl; intros H; split; congruence. Qed.



Lemma Qle_bool_false (p q : Q) : Qle_bool p q = false -> q <= p.
Proof.
  intros H. destruct (Qlt_le_dec p q) as [Hlt|Hle]; [|exact Hle].
  apply Qlt_le_weak in Hlt. apply Qle_bool_iff in Hlt. congruence.
Qed.

(** Clamping a number other than NaN lands in [0,100]. *)
Lemma clamp_within (n : number) :
  n <> NaN -> within 0 100 (Math_min (num 100) (Math_max (num 0) n)).
Proof.
  intros Hn. destruct n as [|[|]|q]; [congruence| | |].
  - vm_compute. split; discriminate.
  - vm_compute. split; discriminate.
  - unfold num. cbn [Math_max].
    destruct (Qle_bool (inject_Z 0) q) eqn:H0; cbn [Math_min].
    + apply Qle_bool_iff in H0.
      destruct (Qle_bool (inject_Z 100) q) eqn:H1; cbn [within].
      * split; [discriminate|apply Qle_refl].
      * split; [exact H0|now apply Qle_bool_false].
    + destruct (Qle_bool (inject_Z 100) (inject_Z 0)) eqn:H1;
        [discriminate|].
      cbn [within]. split; [apply Qle_refl|discriminate].
Qed.

(** Clamping keeps whole numbers whole, and the infinities go to the
    bounds. *)
Lemma clamp_integer (n : number) :
  n <> NaN -> whole_if_finite (Num n) ->
  integer_valued (Math_min (num 100) (Math_max (num 0) n)).
Proof.
  intros Hn Hw. destruct n as [|[|]|q]; [congruence| | |].
  - exists 0%Z. reflexivity.
  - exists 100%Z. reflexivity.
  - unfold num. cbn [Math_max].
    destruct (Qle_bool (inject_Z 0) q); cbn [Math_min].
    + destruct (Qle_bool (inject_Z 100) q); cbn [integer_valued].
      * exists 100%Z. reflexivity.
      * exact Hw.
    + destruct (Qle_bool (inject_Z 100) (inject_Z 0));
        [exists 100%Z|exists 0%Z]; reflexivity.
Qed.

(** The score of a result whose [matchScore] is a number, a boolean, [null]
    or missing. *)
Lemma matchScore_of_scalar (result : value) :
  result <> Undefined -> result <> Null ->
  scalar_or_absent (field result "matchScore") ->
  exists n,
    matchScore_of rt result = Return (Num n)
    /\ within 0 100 n
    /\ (whole_if_finite (field result "matchScore") -> integer_valued n).
Proof.
  intros Hu Hn Hs. unfold matchScore_of, or_default.
  assert (Hget : get result "matchScore"
                 = Return (field result "matchScore"))
    by (destruct result; congruence || reflexivity).
  rewrite Hget. cbn [cbind].
  destruct (field result "matchScore") as [| |b|n|s|l|f] eqn:Hscore;
    try contradiction.
  - exists (num 0). repeat split; try discriminate. intros _. now exists 0%Z.
  - exists (num 0). repeat split; try discriminate. intros _. now exists 0%Z.
  - destruct b.
    + exists (num 1). repeat split; try discriminate. intros _. now exists 1%Z.
    + exists (num 0). repeat split; try discriminate. intros _. now exists 0%Z.
  - unfold or_else. destruct (truthy (Num n)) eqn:Ht.
    + cbn [ToNumber cbind].
      assert (Hnan : n <> NaN) by (intros ->; discriminate).
      eexists. split; [reflexivity|]. split.
      * now apply clamp_within.
      * intros Hw. now apply clamp_integer.
    + exists (num 0). repeat split; try discriminate. intros _. now exists 0%Z.
Qed.

End NormalizerFacts.

Lemma get_defined (o : value) (k : string) :
  o <> Undefined -> o <> Null -> get o k = Return (field o k).
Proof. intros Hu Hn. destruct o; congruence || reflexivity. Qed.

(** The object [callOpenAI] builds, when the score can be computed. *)
Lemma baseAnalysis_of_defined rt (result : value) (n : number) :
  result <> Undefined -> result <> Null ->
  matchScore_of rt result = Return (Num n) ->
  baseAnalysis_of rt result
  = Return
      (Obj [(js "matchScore", Num n);
            (js "matchedSkills",
              or_else (field result "matchedSkills") empty_array);
            (js "missingSkills",
              or_else (field result "missingSkills") empty_array);
            (js "suggestions",
              or_else (field result "suggestions") empty_array);
            (js "sampleBullets",
              or_else (field result "sampleBullets") empty_array);
            (js "summary", or_else (field result "summary") empty_string)]).
Proof.
  intros Hu Hn Hscore. unfold baseAnalysis_of, object_literal.
  cbn [object_literal_fields]. rewrite Hscore. unfold or_default.
  rewrite !get_defined by assumption. reflexivity.
Qed.

(** C3 (amended): for every [matchScore] of the parsed response that is a
    number, a boolean, [null] or missing, the [matchScore] of the normalized
    result is a number within [0,100], and it is integer-valued whenever the
    model's value is; 150 gives 100, -10 gives 0, a missing score gives 0,
    and a score strictly between 0 and 100 is returned as it is, fractional
    or not. *)
Theorem C3_matchScore_clamped rt (result : value) :
  result <> Undefined -> result <> Null ->
  scalar_or_absent (field result "matchScore") ->
  exists r n,
    baseAnalysis_of rt result = Return r
    /\ field r "matchScore" = Num n
    /\ within 0 100 n
    /\ (whole_if_finite (field result "matchScore") -> integer_valued n)
    /\ (field result "matchScore" = Num (num 150) -> n = num 100)
    /\ (field result "matchScore" = Num (num (-10)) -> n = num 0)
    /\ (absent (field result "matchScore") -> n = num 0)
    /\ (forall q, field result "matchScore" = Num (Finite q) ->
                  0 < q -> q < 100 -> n = Finite q).
Proof.
  intros Hu Hn Hs.
  destruct (matchScore_of_scalar rt Hu Hn Hs) as (n & Hscore & Hin & Hint).
  pose proof (@baseAnalysis_of_defined rt result n Hu Hn Hscore) as Hr.
  eexists. exists n. split; [exact Hr|].
  split; [reflexivity|]. split; [exact Hin|]. split; [exact Hint|].
  unfold matchScore_of, or_default in Hscore.
  rewrite get_defined in Hscore by assumption. cbn [cbind] in Hscore.
  split; [|split; [|split]].
  - intros E. rewrite E in Hscore. vm_compute in Hscore.
    inversion Hscore. reflexivity.
  - intros E. rewrite E in Hscore. vm_compute in Hscore.
    inversion Hscore. reflexivity.
  - intros [E|E]; rewrite E in Hscore; vm_compute in Hscore;
      inversion Hscore; reflexivity.
  - intros q E Hpos Hlt. rewrite E in Hscore. unfold or_else in Hscore.
    cbn [truthy] in Hscore.
    assert (Hnz : Qeq_bool q 0 = false).
    { destruct (Qeq_bool q 0) eqn:Hz; [|reflexivity].
      apply Qeq_bool_iff in Hz. rewrite Hz in Hpos.
      exfalso. now apply (Qlt_irrefl 0). }
    rewrite Hnz in Hscore. cbn [negb ToNumber cbind] in Hscore.
    unfold num in Hscore. cbn [Math_max] in Hscore.
    assert (H0 : Qle_bool (inject_Z 0) q = true)
      by (apply Qle_bool_iff; now apply Qlt_le_weak).
    rewrite H0 in Hscore. cbn [Math_min] in Hscore.
    assert (H1 : Qle_bool (inject_Z 100) q = false).
    { destruct (Qle_bool (inject_Z 100) q) eqn:Hq; [|reflexivity].
      apply Qle_bool_iff in Hq. exfalso.
      apply (Qlt_irrefl q). now apply Qlt_le_trans with (inject_Z 100). }
    rewrite H1 in Hscore. inversion Hscore. reflexivity.
Qed.

Lemma C3_witness :
  exists r n,
    baseAnalysis_of Script.all_succeed
                    (Obj [(js "matchScore", Num (num 150))]) = Return r
    /\ field r "matchScore" = Num n
    /\ within 0 100 n
    /\ n = num 100.
Proof.
  destruct (@C3_matchScore_clamped Script.all_succeed
              (Obj [(js "matchScore", Num (num 150))]))
    as (r & n & Hr & Hf & Hin & _ & H150 & _).
  - discriminate.
  - discriminate.
  - exact I.
  - exists r, n. repeat split; try assumption; try apply Hin.
    apply H150. reflexivity.
Defined.

(** C3 as stated fails on a fractional score inside the range: 55.5 is
    returned as it is, and 55.5 is not an integer. *)
Lemma C3_counterexample :
  baseAnalysis_of Script.all_succeed
                  (Obj [(js "matchScore", Num (Finite (111 # 2)))])
  = Return (Obj [(js "matchScore", Num (Finite (111 # 2)));
                 (js "matchedSkills", empty_array);
                 (js "missingSkills", empty_array);
                 (js "suggestions", empty_array);
                 (js "sampleBullets", empty_array);
                 (js "summary", empty_string)])
  /\ matchScore_of Script.all_succeed
                   (Obj [(js "matchScore", Num (Finite (111 # 2)))])
     = Return (Num (Finite (111 # 2)))
  /\ ~ integer_valued (Finite (111 # 2)).
Proof.
  split; [vm_compute; reflexivity|]. split; [vm_compute; reflexivity|].
  intros [z Hz]. unfold Qeq in Hz. simpl in Hz. lia.
Qed.

Example matchScore_minus_ten :
  matchScore_of Script.all_succeed (Obj [(js "matchScore", Num (num (-10)))])
  = Return (Num (num 0)).
Proof. vm_compute. reflexivity. Qed.

Example matchScore_missing :
  matchScore_of Script.all_succeed (Obj []) = Return (Num (num 0)).
Proof. vm_compute. reflexivity. Qed.

Lemma get_returns (o : value) (k : string) (v : value) :
  get o k = Return v -> o <> Undefined /\ o <> Null.
Proof. destruct o; simpl; intros H; split; congruence. Qed.





Lemma baseAnalysis_of_returns rt (result r : value) :
  baseAnalysis_of rt result = Return r ->
  (result <> Undefined /\ result <> Null)
  /\ exists n, matchScore_of rt result = Return n.
Proof.
  intros H. assert (Hd : result <> Undefined /\ result <> Null)
    by (destruct result; split; try congruence; discriminate H).
  split; [exact Hd|].
  unfold baseAnalysis_of, object_literal in H. cbn [object_literal_fields] in H.
  destruct (matchScore_of rt result) as [n|e]; [now exists n|discriminate H].
Qed.

(** Whatever [parseJobMetadata] builds from a parsed response has an empty
    [benefits] array. *)
Lemma jobMetadata_of_benefits (parsed r : value) :
  jobMetadata_of parsed = Return r -> field r "benefits" = empty_array.
Proof.
  unfold jobMetadata_of, object_literal. cbn [object_literal_fields].
  repeat match goal with
         | |- context [cbind (nested ?p ?a ?b) _] =>
             destruct (nested p a b); cbn [cbind]; [|discriminate]
         end.
  intros H. inversion H. reflexivity.
Qed.

(* ================================================================= *)
(** ** Traces of the service functions *)

Lemma prompts_sent_app (a b : list event) :
  prompts_sent (a ++ b) = (prompts_sent a ++ prompts_sent b)%list.
Proof. unfold prompts_sent. apply flat_map_app. Qed.

Lemma tasks_run_app (a b : list event) :
  tasks_run (a ++ b) = (tasks_run a ++ tasks_run b)%list.
Proof. unfold tasks_run. rewrite prompts_sent_app. apply map_app. Qed.

Lemma tasks_run_console (lines : list (level * string)) :
  tasks_run (map (fun l => Console (fst l) (snd l)) lines) = [].
Proof. induction lines as [|l ls IH]; [reflexivity|exact IH]. Qed.

Section TraceFacts.
Variable rt : runtime.
Variables (messages : list chat_message) (model : string) (temperature : Q)
          (maxTokens : option Z).

(** A run of the loop adds, besides console lines and delays, only calls
    that carry the prompts of its messages, one per turn taken. *)
Lemma loop_trace (apiKey : string) (remaining : nat) :
  forall attempt lastError w,
  exists evs n,
    trace (final (callOpenAIChat_loop rt remaining attempt lastError apiKey
                                      messages model temperature maxTokens w))
    = (trace w ++ evs)%list
    /\ prompts_sent evs = List.concat (repeat (prompts_in messages) n)
    /\ (Nat.min 1 remaining <= n)%nat.
Proof.
  induction remaining as [|r IH]; intros attempt lastError w.
  - exists [], 0%nat. cbn. rewrite app_nil_r. repeat split. lia.
  - rewrite loop_step.
    set (req := requestBody apiKey messages model temperature maxTokens).
    destruct (attempt_outcome (axios_post rt (posts w) req)) as [text|e].
    + exists [Post req], 1%nat. split; [reflexivity|].
      split; [reflexivity|cbn; lia].
    + destruct (isRetryableStatus (response_status_of e)).
      * destruct (IH (attempt + 1)%Z (Some (createRetryableError e))
                     (backoff attempt (sent req w))) as (evs & n & Ht & Hp & _).
        rewrite Ht. unfold backoff, sent.
        destruct (attempt <? MAX_RETRIES - 1)%Z; cbn [trace].
        -- eexists (Post req :: Console _ _ :: Sleep _ :: evs), (S n).
           rewrite <- !app_assoc. split; [reflexivity|].
           split; [|cbn; lia].
           change (prompts_sent evs
                   = List.concat (repeat (prompts_in messages) n)) in Hp.
           cbn [repeat List.concat]. rewrite <- Hp. reflexivity.
        -- exists (Post req :: evs), (S n). rewrite <- app_assoc.
           split; [reflexivity|]. split; [|cbn; lia].
           cbn [repeat List.concat]. rewrite <- Hp. reflexivity.
      * exists [Post req], 1%nat. split; [reflexivity|].
        split; [reflexivity|cbn; lia].
Qed.

(** The same for [callOpenAIChat]; it makes a call whenever a credential is
    configured, and so whenever it returns. *)
Lemma callOpenAIChat_trace (w : world) :
  let run := callOpenAIChat rt messages model temperature maxTokens w in
  exists evs n,
    trace (final run) = (trace w ++ evs)%list
    /\ prompts_sent evs = List.concat (repeat (prompts_in messages) n)
    /\ (configured rt -> 1 <= n)%nat
    /\ (forall text, outcome run = Return text -> configured rt).
Proof.
  cbv zeta. unfold callOpenAIChat.
  destruct (OPENAI_API_KEY rt) as [apiKey|] eqn:Hkey.
  - destruct (String.eqb apiKey "") eqn:Hempty.
    + exists [], 0%nat. cbn. rewrite app_nil_r. repeat split.
      * intros (k & Hk & Hne). apply String.eqb_eq in Hempty. congruence.
      * discriminate.
    + destruct (loop_trace apiKey (Z.to_nat MAX_RETRIES) 0 None w)
        as (evs & n & Ht & Hp & Hn).
      exists evs, n. repeat split; try assumption.
      * intros _. exact Hn.
      * intros _ _. exists apiKey. split; [exact Hkey|].
        now apply String.eqb_neq.
  - exists [], 0%nat. cbn. rewrite app_nil_r. repeat split.
    + intros (k & Hk & _). congruence.
    + discriminate.
Qed.

End TraceFacts.

(* ================================================================= *)
(** ** The service functions *)

Section ServiceFacts.
Variable rt : runtime.

Lemma structured_call_run messages temperature maxTokens normalize label
      prefix (w : world) :
  structured_call rt messages temperature maxTokens normalize label prefix w
  = match callOpenAIChat rt messages "gpt-4o-mini" temperature
                         (Some maxTokens) w with
    | (Return response, w1) =>
        match cbind (JSON_parse rt (trim response)) normalize with
        | Return r => (Return r, w1)
        | Throw e =>
            (Throw (new_Error (prefix ++ message_or_unknown e)),
             logged [(LError, label)] w1)
        end
    | (Throw e, w1) =>
        (Throw (new_Error (prefix ++ message_or_unknown e)),
         logged [(LError, label)] w1)
    end.
Proof.
  unfold structured_call, try_catch, bind.
  destruct (callOpenAIChat rt messages "gpt-4o-mini" temperature
                           (Some maxTokens) w) as [[response|e] w1];
    [|reflexivity].
  unfold lift. destruct (JSON_parse rt (trim response)) as [parsed|e];
    [|reflexivity].
  cbn [cbind]. destruct (normalize parsed); reflexivity.
Qed.

(** A structured call returns only what its normalizer made of a parsed
    answer, in the world the completion left. *)
Lemma structured_call_returns messages temperature maxTokens normalize label
      prefix (w w' : world) (r : value) :
  structured_call rt messages temperature maxTokens normalize label prefix w
  = (Return r, w') ->
  exists response parsed,
    callOpenAIChat rt messages "gpt-4o-mini" temperature (Some maxTokens) w
    = (Return response, w')
    /\ JSON_parse rt (trim response) = Return parsed
    /\ normalize parsed = Return r.
Proof.
  rewrite structured_call_run.
  destruct (callOpenAIChat rt messages "gpt-4o-mini" temperature
                           (Some maxTokens) w) as [[response|e] w1];
    [|discriminate].
  destruct (JSON_parse rt (trim response)) as [parsed|e] eqn:Hparse;
    cbn [cbind]; [|discriminate].
  destruct (normalize parsed) as [r'|e] eqn:Hnorm; [|discriminate].
  intros H. inversion H; subst. now exists response, parsed.
Qed.

(** The calls of a structured call all carry its prompt. *)
Lemma structured_call_tasks greeting (p : prompt) temperature maxTokens
      normalize label prefix (w : world) :
  let run := structured_call rt [system greeting; user p] temperature
                             maxTokens normalize label prefix w in
  exists evs n,
    trace (final run) = (trace w ++ evs)%list
    /\ tasks_run evs = repeat (task_of p) n
    /\ (configured rt -> 1 <= n)%nat
    /\ (forall r, outcome run = Return r -> configured rt).
Proof.
  cbv zeta. rewrite structured_call_run.
  destruct (callOpenAIChat_trace rt [system greeting; user p] "gpt-4o-mini"
                                 temperature (Some maxTokens) w)
    as (evs & n & Ht & Hp & Hn & Hret).
  assert (Htasks : tasks_run evs = repeat (task_of p) n).
  { unfold tasks_run. rewrite Hp. clear. induction n as [|n IH];
      [reflexivity|]. cbn. now f_equal. }
  destruct (callOpenAIChat rt [system greeting; user p] "gpt-4o-mini"
                           temperature (Some maxTokens) w)
    as [[response|e] w1]; cbn [final snd] in Ht.
  - destruct (cbind (JSON_parse rt (trim response)) normalize) as [r|e].
    + exists evs, n. cbn [final outcome fst snd]. repeat split; try assumption.
      intros r' _. now apply (Hret response).
    + exists (evs ++ [Console LError label])%list, n.
      cbn [final outcome fst snd logged trace map]. rewrite Ht, app_assoc.
      split; [reflexivity|]. rewrite tasks_run_app, app_nil_r.
      repeat split; try assumption. discriminate.
  - exists (evs ++ [Console LError label])%list, n.
    cbn [final outcome fst snd logged trace map]. rewrite Ht, app_assoc.
    split; [reflexivity|]. rewrite tasks_run_app, app_nil_r.
    repeat split; try assumption. discriminate.
Qed.

Lemma preProcessJD_structured (jd : jsstring) :
  preProcessJD rt jd
  = structured_call rt (jd_messages (sanitizeText (Str (substring0 6000 jd))))
                    (3 # 10) 1200 structuredJD_of
                    "Error processing Job Description:"
                    "Failed to preprocess job description: ".
Proof. reflexivity. Qed.

Lemma callOpenAI_structured (jd : jsstring) (resumeJson jdJson : serialized) :
  callOpenAI rt jd resumeJson jdJson
  = structured_call rt
                    (match_messages (sanitizeText (Str (substring0 3000 jd)))
                                    jdJson resumeJson)
                    (5 # 10) 1800 (baseAnalysis_of rt)
                    "Error calling OpenAI:"
                    "Failed to analyze job description and resume: ".
Proof. reflexivity. Qed.

Lemma generateTailoredResume_structured (structuredJD structuredResume : value) :
  generateTailoredResume rt structuredJD structuredResume
  = structured_call rt (tailoring_messages structuredJD structuredResume)
                    (7 # 10) 2000 tailoredResume_of
                    "Error generating tailored resume:"
                    "Failed to generate tailored resume: ".
Proof. reflexivity. Qed.

(** [analyze], step by step: the two mandatory steps abort with a wrapped
    error, the tailoring step falls back to the placeholder. *)
Lemma analyze_run (jd : jsstring) (structuredResume metadataHtmlString : value)
      (w : world) :
  let wrapped e :=
    new_Error ("Failed to analyze job description and resume: "
               ++ message_or_unknown e) in
  let aborted e w' :=
    (@Throw value (wrapped e),
     logged [(LError, "Error analyzing JD and resume:")] w') in
  analyze rt jd structuredResume metadataHtmlString w
  = match preProcessJD rt jd w with
    | (Throw e, w1) => aborted e w1
    | (Return structuredJD, w1) =>
        match parse_metadata_if_supplied rt metadataHtmlString w1 with
        | (Throw e, w2) => aborted e w2
        | (Return parsedMetadata, w2) =>
            match callOpenAI rt jd (JSON_stringify structuredResume)
                             (JSON_stringify structuredJD) w2 with
            | (Throw e, w3) => aborted e w3
            | (Return baseAnalysis, w3) =>
                match generateTailoredResume rt structuredJD structuredResume
                                             w3 with
                | (Return tailoredResume, w4) =>
                    (Return (set_tailoredResume
                               (assemble baseAnalysis structuredJD
                                         parsedMetadata) tailoredResume), w4)
                | (Throw e, w4) =>
                    (Return (assemble baseAnalysis structuredJD
                                      parsedMetadata),
                     logged [(LWarn, "Failed to generate tailored resume:")]
                            w4)
                end
            end
        end
    end.
Proof.
  cbv zeta. unfold analyze. unfold try_catch at 1. unfold bind at 1.
  destruct (preProcessJD rt jd w) as [[structuredJD|e] w1]; [|reflexivity].
  unfold bind at 1.
  destruct (parse_metadata_if_supplied rt metadataHtmlString w1)
    as [[parsedMetadata|e] w2]; [|reflexivity].
  unfold bind at 1.
  destruct (callOpenAI rt jd (JSON_stringify structuredResume)
                       (JSON_stringify structuredJD) w2)
    as [[baseAnalysis|e] w3]; [|reflexivity].
  unfold try_catch, bind.
  destruct (generateTailoredResume rt structuredJD structuredResume w3)
    as [[tailoredResume|e] w4]; reflexivity.
Qed.

End ServiceFacts.

(* ================================================================= *)
(** ** List-typed properties of the returned entities *)





(** [parseJobMetadata] never throws, and its [benefits] is always the empty
    array. *)
Lemma parseJobMetadata_total rt (html : jsstring) (w : world) :
  exists r w',
    parseJobMetadata rt html w = (Return r, w')
    /\ field r "benefits" = empty_array.
Proof.
  unfold parseJobMetadata, try_catch, bind.
  destruct (callOpenAIChat rt _ "gpt-4o-mini" (2 # 10) (Some 1000%Z) w)
    as [[response|e] w1].
  - unfold lift. destruct (JSON_parse rt (trim response)) as [parsed|e].
    + destruct (jobMetadata_of parsed) as [r|e] eqn:Hr.
      * exists r, w1. split; [reflexivity|].
        now apply jobMetadata_of_benefits with (parsed := parsed).
      * eexists _, _. split; reflexivity.
    + eexists _, _. split; reflexivity.
  - eexists _, _. split; reflexivity.
Qed.





(* ================================================================= *)
(** ** The resume fallback *)



(** The summary is cut at 1000 units. *)
Example resume_fallback_cuts_summary :
  field (resume_fallback (repeat 65%N 1500)) "summary"
  = Str (repeat 65%N 1000).
Proof. vm_compute. reflexivity. Qed.

(* ================================================================= *)
(** ** The orchestrator *)

Lemma or_else_keeps_non_null (v d : value) :
  non_null d -> non_null (or_else v d).
Proof.
  intros Hd. unfold or_else. destruct (truthy v) eqn:Hv;
    [now apply truthy_non_null|exact Hd].
Qed.

(** What [callOpenAI] returns is an object with the six analysis
    properties, all of them there. *)
Lemma callOpenAI_shape rt jd resumeJson jdJson (w w' : world) (base : value) :
  callOpenAI rt jd resumeJson jdJson w = (Return base, w') ->
  exists n v1 v2 v3 v4 v5,
    base = Obj [(js "matchScore", Num n); (js "matchedSkills", v1);
                (js "missingSkills", v2); (js "suggestions", v3);
                (js "sampleBullets", v4); (js "summary", v5)]
    /\ non_null v1 /\ non_null v2 /\ non_null v3 /\ non_null v4
    /\ non_null v5.
Proof.
  intros H. rewrite callOpenAI_structured in H.
  apply structured_call_returns in H.
  destruct H as (response & result & _ & _ & Hnorm).
  destruct (baseAnalysis_of_returns _ _ Hnorm) as [[Hu Hn] [v Hv]].
  assert (Hnum : exists n, v = Num n).
  { unfold matchScore_of in Hv.
    destruct (or_default (get result "matchScore") (Num (num 0)));
      cbn [cbind] in Hv; [|discriminate].
    destruct (ToNumber rt a); cbn [cbind] in Hv; [|discriminate].
    inversion Hv. eauto. }
  destruct Hnum as [n ->].
  rewrite (@baseAnalysis_of_defined rt result n Hu Hn Hv) in Hnorm.
  inversion Hnorm; subst base. do 6 eexists. split; [reflexivity|].
  assert (Harr : non_null empty_array) by (split; discriminate).
  assert (Hstr : non_null empty_string) by (split; discriminate).
  repeat split; try (apply or_else_keeps_non_null; assumption);
    apply or_else_keeps_non_null; assumption.
Qed.

(** C6: in [analyze], a failure of JD extraction or of the match analysis
    aborts the operation with a wrapped error, while a failure of the
    tailored-resume generation does not: the result returned keeps the six
    match-analysis properties and the structured JD, and its
    [tailoredResume] is the placeholder, whose summary is the empty string
    and whose four lists are empty. *)
Theorem C6_mandatory_steps_abort_tailoring_degrades
        rt (jd : jsstring) (structuredResume metadataHtmlString : value)
        (w : world) :
  let wrapped e :=
    new_Error ("Failed to analyze job description and resume: "
               ++ message_or_unknown e) in
  let aborted w' := logged [(LError, "Error analyzing JD and resume:")] w' in
  (forall e w1,
      preProcessJD rt jd w = (Throw e, w1) ->
      analyze rt jd structuredResume metadataHtmlString w
      = (Throw (wrapped e), aborted w1))
  /\ (forall structuredJD w1 parsedMetadata w2 e w3,
         preProcessJD rt jd w = (Return structuredJD, w1) ->
         parse_metadata_if_supplied rt metadataHtmlString w1
         = (Return parsedMetadata, w2) ->
         callOpenAI rt jd (JSON_stringify structuredResume)
                    (JSON_stringify structuredJD) w2 = (Throw e, w3) ->
         analyze rt jd structuredResume metadataHtmlString w
         = (Throw (wrapped e), aborted w3))
  /\ (forall structuredJD w1 parsedMetadata w2 baseAnalysis w3 e w4,
         preProcessJD rt jd w = (Return structuredJD, w1) ->
         parse_metadata_if_supplied rt metadataHtmlString w1
         = (Return parsedMetadata, w2) ->
         callOpenAI rt jd (JSON_stringify structuredResume)
                    (JSON_stringify structuredJD) w2
         = (Return baseAnalysis, w3) ->
         generateTailoredResume rt structuredJD structuredResume w3
         = (Throw e, w4) ->
         exists r,
           analyze rt jd structuredResume metadataHtmlString w
           = (Return r,
              logged [(LWarn, "Failed to generate tailored resume:")] w4)
           /\ field r "tailoredResume"
              = Obj [(js "tailoredSummary", Str []);
                     (js "tailoredSkills", Arr []);
                     (js "tailoredExperience", Arr []);
                     (js "tailoredProjects", Arr []);
                     (js "coverLetterHighlights", Arr [])]
           /\ field r "structuredJD" = structuredJD
           /\ forall k, In k analysis_properties ->
                        field r k = field baseAnalysis k
                        /\ non_null (field r k)).
Proof.
  cbv zeta. split; [|split].
  - intros e w1 Hjd. rewrite analyze_run. rewrite Hjd. reflexivity.
  - intros sjd w1 pm w2 e w3 Hjd Hmeta Hmatch.
    rewrite analyze_run. rewrite Hjd, Hmeta, Hmatch. reflexivity.
  - intros sjd w1 pm w2 base w3 e w4 Hjd Hmeta Hmatch Htailor.
    rewrite analyze_run. rewrite Hjd, Hmeta, Hmatch, Htailor.
    eexists. split; [reflexivity|].
    destruct (callOpenAI_shape _ _ _ _ _ Hmatch)
      as (n & v1 & v2 & v3 & v4 & v5 & -> & H1 & H2 & H3 & H4 & H5).
    split; [reflexivity|]. split; [reflexivity|].
    intros k Hk.
    repeat (destruct Hk as [<-|Hk];
            [split; [reflexivity|first [assumption|split; discriminate]]|]).
    contradiction.
Qed.

Lemma C6_witness :
  outcome (analyze Script.jd_down Script.sample_jd (Str Script.sample_resume)
                   Undefined initial)
  = Throw (new_Error "Failed to analyze job description and resume: Failed to preprocess job description: Invalid OpenAI API key")
  /\ outcome (analyze Script.match_down Script.sample_jd
                      (Str Script.sample_resume) Undefined initial)
     = Throw (new_Error "Failed to analyze job description and resume: Failed to analyze job description and resume: Unknown error")
  /\ exists r,
       outcome (analyze Script.tailoring_down Script.sample_jd
                        (Str Script.sample_resume) Undefined initial)
       = Return r
       /\ field r "tailoredResume"
          = Obj [(js "tailoredSummary", Str []);
                 (js "tailoredSkills", Arr []);
                 (js "tailoredExperience", Arr []);
                 (js "tailoredProjects", Arr []);
                 (js "coverLetterHighlights", Arr [])]
       /\ field r "matchScore" = Num (num 72).
Proof.
  split; [|split].
  - destruct (@C6_mandatory_steps_abort_tailoring_degrades
                Script.jd_down Script.sample_jd (Str Script.sample_resume)
                Undefined initial) as (H & _ & _).
    destruct (preProcessJD Script.jd_down Script.sample_jd initial)
      as [[r|e] w1] eqn:Hjd; [exfalso; vm_compute in Hjd; discriminate Hjd|].
    rewrite (H e w1 eq_refl). vm_compute in Hjd. inversion Hjd.
    reflexivity.
  - destruct (@C6_mandatory_steps_abort_tailoring_degrades
                Script.match_down Script.sample_jd (Str Script.sample_resume)
                Undefined initial) as (_ & H & _).
    destruct (preProcessJD Script.match_down Script.sample_jd initial)
      as [[sjd|e] w1] eqn:Hjd; [|exfalso; vm_compute in Hjd; discriminate Hjd].
    specialize (H sjd w1 Undefined w1).
    destruct (callOpenAI Script.match_down Script.sample_jd
                         (JSON_stringify (Str Script.sample_resume))
                         (JSON_stringify sjd) w1)
      as [[base|e] w3] eqn:Hmatch.
    + exfalso. vm_compute in Hjd. inversion Hjd; subst.
      vm_compute in Hmatch. discriminate Hmatch.
    + rewrite (H e w3 eq_refl eq_refl eq_refl).
      vm_compute in Hjd. inversion Hjd; subst.
      vm_compute in Hmatch. inversion Hmatch. reflexivity.
  - destruct (@C6_mandatory_steps_abort_tailoring_degrades
                Script.tailoring_down Script.sample_jd
                (Str Script.sample_resume) Undefined initial) as (_ & _ & H).
    destruct (preProcessJD Script.tailoring_down Script.sample_jd initial)
      as [[sjd|e] w1] eqn:Hjd; [|exfalso; vm_compute in Hjd; discriminate Hjd].
    specialize (H sjd w1 Undefined w1).
    destruct (callOpenAI Script.tailoring_down Script.sample_jd
                         (JSON_stringify (Str Script.sample_resume))
                         (JSON_stringify sjd) w1)
      as [[base|e] w3] eqn:Hmatch.
    + specialize (H base w3).
      destruct (generateTailoredResume Script.tailoring_down sjd
                                       (Str Script.sample_resume) w3)
        as [[t|e] w4] eqn:Htailor.
      * exfalso. vm_compute in Hjd. inversion Hjd; subst.
        vm_compute in Hmatch. inversion Hmatch; subst.
        vm_compute in Htailor. discriminate Htailor.
      * destruct (H e w4 eq_refl eq_refl eq_refl eq_refl)
          as (r & Hrun & Htr & _ & Hprops).
        exists r. rewrite Hrun. split; [reflexivity|]. split; [exact Htr|].
        destruct (Hprops "matchScore") as [Hscore _]; [now left|].
        rewrite Hscore. vm_compute in Hjd. inversion Hjd; subst.
        vm_compute in Hmatch. inversion Hmatch. reflexivity.
    + exfalso. vm_compute in Hjd. inversion Hjd; subst.
      vm_compute in Hmatch. discriminate Hmatch.
Defined.

(** The object built from a parsed answer cannot be built when [company]
    or [job] is missing. *)
Lemma jobMetadata_of_throws (parsed : value) :
  absent (field parsed "company") \/ absent (field parsed "job") ->
  exists e, jobMetadata_of parsed = Throw e.
Proof.
  intros H. unfold jobMetadata_of, object_literal, nested, or_default.
  cbn [object_literal_fields].
  destruct parsed as [| |b|n|s|l|fields];
    try (cbn; eauto; fail).
  cbn [get cbind].
  destruct H as [[H|H]|[H|H]]; try (rewrite H; cbn; eauto; fail);
    destruct (field (Obj fields) "company"); cbn in H |- *; eauto;
    rewrite H; cbn; eauto.
Qed.

(** Whatever fails inside [parseJobMetadata] (the completion, [JSON.parse],
    or the reading of [company] and [job]) is swallowed there: the all-empty
    metadata is returned, and [analyze] logs success. *)
Lemma metadata_step_on_failure rt (html : jsstring) (w1 w2 : world) :
  (0 < List.length (trim html))%nat ->
  (let call :=
     callOpenAIChat rt
                    (metadata_messages
                       (sanitizeText (Str (substring0 6000 html))))
                    "gpt-4o-mini" (2 # 10) (Some 1000%Z) w1 in
   (exists e, call = (Throw e, w2))
   \/ (exists response,
          call = (Return response, w2)
          /\ ((exists e, JSON_parse rt (trim response) = Throw e)
              \/ (exists parsed,
                     JSON_parse rt (trim response) = Return parsed
                     /\ (absent (field parsed "company")
                         \/ absent (field parsed "job")))))) ->
  parse_metadata_if_supplied rt (Str html) w1
  = (Return empty_jobMetadata,
     logged [(LError, "Error parsing job metadata:");
             (LInfo, "Successfully parsed job metadata")] w2).
Proof.
  intros Hblank Hfail.
  assert (Hne : is_empty html = false)
    by (destruct html; [cbn in Hblank; lia|reflexivity]).
  unfold parse_metadata_if_supplied, metadata_source. cbn [truthy].
  rewrite Hne. cbn [negb]. apply Nat.ltb_lt in Hblank. rewrite Hblank.
  unfold bind at 1. unfold lift at 1.
  unfold try_catch at 1. unfold bind at 1.
  unfold parseJobMetadata, try_catch, bind.
  cbv zeta in Hfail.
  destruct Hfail as [[e ->]|(response & -> & Hparse)].
  - unfold console, emit, ret, logged. cbn [posts trace map fst snd].
    rewrite <- app_assoc. reflexivity.
  - unfold lift.
    destruct Hparse as [[e ->]|(parsed & -> & Habsent)].
    + unfold console, emit, ret, logged. cbn [posts trace map fst snd].
      rewrite <- app_assoc. reflexivity.
    + destruct (jobMetadata_of_throws parsed Habsent) as [e ->].
      unfold console, emit, ret, logged. cbn [posts trace map fst snd].
      rewrite <- app_assoc. reflexivity.
Qed.

(** C7 (what the code does): when a non-blank metadata source is supplied
    and the metadata step fails, be it that the completion fails, that its
    text does not parse, or that the parsed answer lacks [company] or
    [job], while JD extraction, match analysis and tailoring succeed,
    [analyze] returns a result whose [jobMetadata] is not undefined: it is
    the record of twelve properties, ten empty strings, an empty [benefits]
    array and an empty [additionalInfo] object; the match analysis runs
    after the error and the success line of the metadata step have both
    been logged; [matchScore], [structuredJD] and [tailoredResume] are
    those of the steps that succeeded. *)
Theorem C7_failed_metadata_gives_empty_record
        rt (jd html : jsstring) (structuredResume : value) (w : world)
        structuredJD w1 w2 baseAnalysis w3 tailoredResume w4 :
  (0 < List.length (trim html))%nat ->
  preProcessJD rt jd w = (Return structuredJD, w1) ->
  (let call :=
     callOpenAIChat rt
                    (metadata_messages
                       (sanitizeText (Str (substring0 6000 html))))
                    "gpt-4o-mini" (2 # 10) (Some 1000%Z) w1 in
   (exists e, call = (Throw e, w2))
   \/ (exists response,
          call = (Return response, w2)
          /\ ((exists e, JSON_parse rt (trim response) = Throw e)
              \/ (exists parsed,
                     JSON_parse rt (trim response) = Return parsed
                     /\ (absent (field parsed "company")
                         \/ absent (field parsed "job")))))) ->
  callOpenAI rt jd (JSON_stringify structuredResume)
             (JSON_stringify structuredJD)
             (logged [(LError, "Error parsing job metadata:");
                      (LInfo, "Successfully parsed job metadata")] w2)
  = (Return baseAnalysis, w3) ->
  generateTailoredResume rt structuredJD structuredResume w3
  = (Return tailoredResume, w4) ->
  exists r,
    analyze rt jd structuredResume (Str html) w = (Return r, w4)
    /\ field r "jobMetadata"
       = Obj [(js "companyLinkedInUrl", Str []);
             (js "companyLogoUrl", Str []);
             (js "companyName", Str []);
             (js "jobTitle", Str []);
             (js "location", Str []);
             (js "salary", Str []);
             (js "postedDate", Str []);
             (js "applicationDeadline", Str []);
             (js "jobType", Str []);
             (js "remote", Str []);
             (js "benefits", Arr []);
             (js "additionalInfo", Obj [])]
    /\ field r "jobMetadata" <> Undefined
    /\ field r "structuredJD" = structuredJD
    /\ field r "tailoredResume" = tailoredResume
    /\ field r "matchScore" = field baseAnalysis "matchScore"
    /\ non_null (field r "matchScore").
Proof.
  intros Hblank Hjd Hmeta Hmatch Htailor.
  rewrite analyze_run. rewrite Hjd.
  rewrite (@metadata_step_on_failure rt html w1 w2 Hblank Hmeta).
  rewrite Hmatch, Htailor. eexists. split; [reflexivity|].
  destruct (callOpenAI_shape _ _ _ _ _ Hmatch)
    as (n & v1 & v2 & v3 & v4 & v5 & -> & _).
  repeat split; try reflexivity; discriminate.
Qed.


Lemma C7_witness :
  exists r,
    outcome (analyze Script.metadata_down Script.sample_jd
                     (Str Script.sample_resume) (Str Script.sample_html)
                     initial)
    = Return r
    /\ field r "jobMetadata"
       = Obj [(js "companyLinkedInUrl", Str []);
             (js "companyLogoUrl", Str []);
             (js "companyName", Str []);
             (js "jobTitle", Str []);
             (js "location", Str []);
             (js "salary", Str []);
             (js "postedDate", Str []);
             (js "applicationDeadline", Str []);
             (js "jobType", Str []);
             (js "remote", Str []);
             (js "benefits", Arr []);
             (js "additionalInfo", Obj [])]
    /\ field r "structuredJD" <> Undefined
    /\ field r "tailoredResume"
       = Obj [(js "tailoredSummary", Str (js "Fit"));
              (js "tailoredSkills", Arr []);
              (js "tailoredExperience", Arr []);
              (js "tailoredProjects", Arr []);
              (js "coverLetterHighlights", Arr [])]
    /\ field r "matchScore" = Num (num 72).
Proof.
  pose (rt := Script.metadata_down).
  destruct (preProcessJD rt Script.sample_jd initial)
    as [[sjd|e0] w1] eqn:Hjd; [|exfalso; vm_compute in Hjd; discriminate Hjd].
  destruct (callOpenAIChat rt
              (metadata_messages
                 (sanitizeText (Str (substring0 6000 Script.sample_html))))
              "gpt-4o-mini" (2 # 10) (Some 1000%Z) w1)
    as [[text|e] w2] eqn:Hmeta.
  { exfalso. vm_compute in Hjd. inversion Hjd; subst.
    vm_compute in Hmeta. discriminate Hmeta. }
  destruct (callOpenAI rt Script.sample_jd
              (JSON_stringify (Str Script.sample_resume))
              (JSON_stringify sjd)
              (logged [(LError, "Error parsing job metadata:");
                       (LInfo, "Successfully parsed job metadata")] w2))
    as [[base|e1] w3] eqn:Hmatch.
  2:{ exfalso. vm_compute in Hjd. inversion Hjd; subst.
      vm_compute in Hmeta. inversion Hmeta; subst.
      vm_compute in Hmatch. discriminate Hmatch. }
  destruct (generateTailoredResume rt sjd (Str Script.sample_resume) w3)
    as [[t|e2] w4] eqn:Htailor.
  2:{ exfalso. vm_compute in Hjd. inversion Hjd; subst.
      vm_compute in Hmeta. inversion Hmeta; subst.
      vm_compute in Hmatch. inversion Hmatch; subst.
      vm_compute in Htailor. discriminate Htailor. }
  destruct (@C7_failed_metadata_gives_empty_record
              rt Script.sample_jd Script.sample_html
              (Str Script.sample_resume) initial sjd w1 w2 base w3 t w4)
    as (r & Hrun & Hm & _ & Hsjd & Ht & Hscore & _);
    try assumption.
  - vm_compute. lia.
  - left. exists e. exact Hmeta.
  - exists r. unfold rt in Hrun. rewrite Hrun.
    split; [reflexivity|]. split; [exact Hm|].
    rewrite Hsjd, Ht, Hscore. clear Hrun Hm Hsjd Ht Hscore.
    vm_compute in Hjd. inversion Hjd; subst.
    vm_compute in Hmeta. inversion Hmeta; subst.
    vm_compute in Hmatch. inversion Hmatch; subst.
    vm_compute in Htailor. inversion Htailor; subst.
    repeat split; try discriminate.
Defined.

(** C7 as stated fails: with the metadata call down and every other call
    answering, [jobMetadata] is the all-empty record, not undefined, and
    the run logs the error of the metadata step, then its success, and
    never the warning of the [catch] in [analyze]. *)
Lemma C7_counterexample :
  exists r,
    outcome (analyze Script.metadata_down Script.sample_jd
                     (Str Script.sample_resume) (Str Script.sample_html)
                     initial)
    = Return r
    /\ tasks_run (trace (final (analyze Script.metadata_down Script.sample_jd
                                        (Str Script.sample_resume)
                                        (Str Script.sample_html) initial)))
       = [JDPreprocessing; MetadataParsing; Matching;
          TailoredResumeGeneration]
    /\ (forall req, axios_post Script.metadata_down 1 req
                     = Rejected "Network Error" None)
    /\ field r "jobMetadata"
       = Obj [(js "companyLinkedInUrl", Str []);
             (js "companyLogoUrl", Str []);
             (js "companyName", Str []);
             (js "jobTitle", Str []);
             (js "location", Str []);
             (js "salary", Str []);
             (js "postedDate", Str []);
             (js "applicationDeadline", Str []);
             (js "jobType", Str []);
             (js "remote", Str []);
             (js "benefits", Arr []);
             (js "additionalInfo", Obj [])]
    /\ field r "jobMetadata" <> Undefined
    /\ filter (fun e => match e with Console _ _ => true | _ => false end)
              (trace (final (analyze Script.metadata_down Script.sample_jd
                                     (Str Script.sample_resume)
                                     (Str Script.sample_html) initial)))
       = [Console LError "Error parsing job metadata:";
          Console LInfo "Successfully parsed job metadata"].
Proof.
  eexists. split; [vm_compute; reflexivity|].
  split; [vm_compute; reflexivity|].
  split; [reflexivity|].
  split; [vm_compute; reflexivity|].
  split; [discriminate|]. vm_compute. reflexivity.
Qed.

(* ================================================================= *)
(** ** The raw-text entry point *)

Section RawEntryFacts.
Variable rt : runtime.

(** Without a metadata source, [analyze] calls for JD extraction, then for
    the match analysis, then for the tailored resume, and for nothing else;
    a run that returns has made all three kinds of call. *)
Lemma analyze_tasks (jd : jsstring) (structuredResume : value) (w : world) :
  let run := analyze rt jd structuredResume Undefined w in
  exists evs a b c,
    trace (final run) = (trace w ++ evs)%list
    /\ tasks_run evs
       = (repeat JDPreprocessing a ++ repeat Matching b
          ++ repeat TailoredResumeGeneration c)%list
    /\ (configured rt -> 1 <= a)%nat
    /\ (forall r, outcome run = Return r -> 1 <= a /\ 1 <= b /\ 1 <= c)%nat.
Proof.
  cbv zeta. rewrite analyze_run.
  rewrite preProcessJD_structured. unfold jd_messages.
  destruct (structured_call_tasks
              rt "You are a professional job description parser that outputs structured JSON."
              (JDExtraction (sanitizeText (Str (substring0 6000 jd))))
              (3 # 10) 1200 structuredJD_of
              "Error processing Job Description:"
              "Failed to preprocess job description: " w)
    as (evs1 & a & Ht1 & Hk1 & Hc1 & Hr1).
  cbv zeta in Ht1, Hr1.
  destruct (structured_call rt _ (3 # 10) 1200 structuredJD_of _ _ w)
    as [[sjd|e] w1]; cbn [final outcome fst snd] in Ht1, Hr1.
  2:{ exists (evs1 ++ [Console LError "Error analyzing JD and resume:"])%list,
        a, 0%nat, 0%nat.
      cbn [final outcome fst snd logged trace map]. rewrite Ht1, app_assoc.
      split; [reflexivity|]. rewrite tasks_run_app, Hk1. cbn.
      rewrite !app_nil_r. repeat split; try assumption; discriminate. }
  pose proof (Hr1 sjd eq_refl) as Hconf.
  change (parse_metadata_if_supplied rt Undefined w1)
    with (@Return value Undefined, w1).
  rewrite callOpenAI_structured. unfold match_messages.
  destruct (structured_call_tasks
              rt "You are a job resume matching expert that produces accurate, structured JSON analyses."
              (MatchAnalysis (sanitizeText (Str (substring0 3000 jd)))
                             (JSON_stringify sjd)
                             (JSON_stringify structuredResume))
              (5 # 10) 1800 (baseAnalysis_of rt) "Error calling OpenAI:"
              "Failed to analyze job description and resume: " w1)
    as (evs2 & b & Ht2 & Hk2 & Hc2 & Hr2).
  cbv zeta in Ht2, Hr2.
  destruct (structured_call rt _ (5 # 10) 1800 (baseAnalysis_of rt) _ _ w1)
    as [[base|e] w2]; cbn [final outcome fst snd] in Ht2, Hr2.
  2:{ exists (evs1 ++ evs2
              ++ [Console LError "Error analyzing JD and resume:"])%list,
        a, b, 0%nat.
      cbn [final outcome fst snd logged trace map].
      rewrite Ht2, Ht1, <- !app_assoc.
      split; [reflexivity|]. rewrite !tasks_run_app, Hk1, Hk2. cbn.
      rewrite !app_nil_r. repeat split; try (intros; now apply Hc1);
        discriminate. }
  rewrite generateTailoredResume_structured. unfold tailoring_messages.
  destruct (structured_call_tasks
              rt "You are a professional resume writer that produces tailored, authentic resume content in JSON format."
              (Tailoring (JSON_stringify_pretty sjd)
                         (JSON_stringify_pretty structuredResume))
              (7 # 10) 2000 tailoredResume_of
              "Error generating tailored resume:"
              "Failed to generate tailored resume: " w2)
    as (evs3 & c & Ht3 & Hk3 & Hc3 & Hr3).
  cbv zeta in Ht3, Hr3.
  destruct (structured_call rt _ (7 # 10) 2000 tailoredResume_of _ _ w2)
    as [[t|e] w3]; cbn [final outcome fst snd] in Ht3, Hr3.
  - exists (evs1 ++ evs2 ++ evs3)%list, a, b, c.
    cbn [final outcome fst snd]. rewrite Ht3, Ht2, Ht1, <- !app_assoc.
    split; [reflexivity|]. rewrite !tasks_run_app, Hk1, Hk2, Hk3.
    split; [reflexivity|]. split; [exact Hc1|].
    intros r _. auto.
  - exists (evs1 ++ evs2 ++ evs3
            ++ [Console LWarn "Failed to generate tailored resume:"])%list,
      a, b, c.
    cbn [final outcome fst snd logged trace map].
    rewrite Ht3, Ht2, Ht1, <- !app_assoc.
    split; [reflexivity|]. rewrite !tasks_run_app, Hk1, Hk2, Hk3. cbn.
    rewrite !app_nil_r.
    split; [reflexivity|]. split; [exact Hc1|].
    intros r _. auto.
Qed.

(** The handler on a body with two non-empty strings: it sanitizes both,
    runs [analyze] on them with no metadata source, and answers 200 with
    whatever [analyze] returns. *)
Lemma analyzeHandler_run (req_body : value) (jd resume : jsstring)
      (w : world) :
  field req_body "jd" = Str jd -> jd <> [] ->
  field req_body "resume" = Str resume -> resume <> [] ->
  analyzeHandler rt req_body w
  = match analyze rt (sanitizeText (Str jd))
                  (Str (sanitizeText (Str resume))) Undefined
                  (logged [(LInfo, "Analyzing job description and resume...")]
                          w) with
    | (Return r, w1) =>
        (Return {| status := 200; payload := r |},
         logged [(LInfo, "Successfully analyzed job description and resume")]
                w1)
    | (Throw e, w1) =>
        (Throw e, logged [(LError, "Error analyzing JD and resume:")] w1)
    end.
Proof.
  intros Hjd Hjdne Hres Hresne.
  assert (Hobj : exists fields, req_body = Obj fields)
    by (destruct req_body; try discriminate Hjd; eauto).
  destruct Hobj as [fields ->]. unfold analyzeHandler.
  rewrite Hjd, Hres. cbn [truthy is_string negb].
  destruct jd as [|c jd]; [congruence|].
  destruct resume as [|c' resume]; [congruence|].
  cbn [is_empty negb orb].
  unfold bind at 1. unfold console at 1. unfold emit at 1.
  unfold try_catch, bind.
  change {| posts := posts w;
            trace := trace w
                     ++ [Console LInfo
                                 "Analyzing job description and resume..."] |}
    with (logged [(LInfo, "Analyzing job description and resume...")] w).
  destruct (analyze rt (sanitizeText (Str (c :: jd)))
                    (Str (sanitizeText (Str (c' :: resume)))) Undefined
                    (logged [(LInfo,
                              "Analyzing job description and resume...")] w))
    as [[r|e] w1]; reflexivity.
Qed.

End RawEntryFacts.

Lemma in_repeat (t u : task) (n : nat) : In t (repeat u n) -> t = u.
Proof. intros H. exact (repeat_spec n u t H). Qed.

(** C8 (amended): the raw-text entry point sanitizes the raw JD and the raw
    resume and hands them to the same [analyze] orchestrator, the resume
    text in the place of the structured resume and no metadata source.  Its
    outbound calls are JD extraction, then match analysis, then
    tailored-resume generation; with a credential configured the first call
    is for JD extraction, and a run that answers has made all three kinds
    of call.  It never preprocesses the resume and never parses metadata. *)
Theorem C8_raw_entry_runs_the_orchestrator
        rt (req_body : value) (jd resume : jsstring) (w : world) :
  field req_body "jd" = Str jd -> jd <> [] ->
  field req_body "resume" = Str resume -> resume <> [] ->
  let run := analyzeHandler rt req_body w in
  let inner :=
    analyze rt (sanitizeText (Str jd)) (Str (sanitizeText (Str resume)))
            Undefined
            (logged [(LInfo, "Analyzing job description and resume...")] w) in
  outcome run = match outcome inner with
                | Return r => Return {| status := 200; payload := r |}
                | Throw e => Throw e
                end
  /\ exists evs a b c,
       trace (final run) = (trace w ++ evs)%list
       /\ tasks_run evs
          = (repeat JDPreprocessing a ++ repeat Matching b
             ++ repeat TailoredResumeGeneration c)%list
       /\ (configured rt -> 1 <= a)%nat
       /\ (forall reply, outcome run = Return reply ->
                         status reply = 200%Z
                         /\ (1 <= a /\ 1 <= b /\ 1 <= c)%nat)
       /\ ~ In ResumePreprocessing (tasks_run evs)
       /\ ~ In MetadataParsing (tasks_run evs).
Proof.
  intros Hjd Hjdne Hres Hresne. cbv zeta.
  rewrite (@analyzeHandler_run rt req_body jd resume w Hjd Hjdne Hres Hresne).
  destruct (analyze_tasks rt (sanitizeText (Str jd))
                          (Str (sanitizeText (Str resume)))
                          (logged [(LInfo,
                                    "Analyzing job description and resume...")]
                                  w))
    as (evs & a & b & c & Ht & Hk & Hc & Hr).
  cbv zeta in Ht, Hr.
  assert (Hnot : forall t, t <> JDPreprocessing -> t <> Matching ->
                           t <> TailoredResumeGeneration ->
                           ~ In t (repeat JDPreprocessing a
                                   ++ repeat Matching b
                                   ++ repeat TailoredResumeGeneration c)%list).
  { intros t H1 H2 H3 Hin.
    apply in_app_or in Hin. destruct Hin as [Hin|Hin];
      [apply in_repeat in Hin; congruence|].
    apply in_app_or in Hin. destruct Hin as [Hin|Hin];
      apply in_repeat in Hin; congruence. }
  destruct (analyze rt (sanitizeText (Str jd))
                    (Str (sanitizeText (Str resume))) Undefined
                    (logged [(LInfo,
                              "Analyzing job description and resume...")] w))
    as [[r|e] w1]; cbn [final outcome fst snd] in Ht, Hr |- *.
  - split; [reflexivity|].
    exists ([Console LInfo "Analyzing job description and resume..."]
            ++ evs
            ++ [Console LInfo
                        "Successfully analyzed job description and resume"])%list,
      a, b, c.
    cbn [logged trace map fst snd] in Ht |- *.
    rewrite Ht, <- !app_assoc. split; [reflexivity|].
    rewrite !tasks_run_app, Hk. cbn [tasks_run prompts_sent flat_map map app].
    rewrite app_nil_r.
    split; [reflexivity|]. split; [exact Hc|]. split.
    + intros reply Hreply. inversion Hreply; subst. split; [reflexivity|].
      now apply (Hr r).
    + split; apply Hnot; discriminate.
  - split; [reflexivity|].
    exists ([Console LInfo "Analyzing job description and resume..."]
            ++ evs ++ [Console LError "Error analyzing JD and resume:"])%list,
      a, b, c.
    cbn [logged trace map fst snd] in Ht |- *.
    rewrite Ht, <- !app_assoc. split; [reflexivity|].
    rewrite !tasks_run_app, Hk. cbn [tasks_run prompts_sent flat_map map app].
    rewrite app_nil_r.
    split; [reflexivity|]. split; [exact Hc|]. split.
    + discriminate.
    + split; apply Hnot; discriminate.
Qed.

Lemma C8_witness :
  let run := analyzeHandler Script.all_succeed Script.raw_body initial in
  exists evs a b c,
    trace (final run) = (trace initial ++ evs)%list
    /\ tasks_run evs
       = (repeat JDPreprocessing a ++ repeat Matching b
          ++ repeat TailoredResumeGeneration c)%list
    /\ (1 <= a)%nat.
Proof.
  cbv zeta.
  destruct (@C8_raw_entry_runs_the_orchestrator
              Script.all_succeed Script.raw_body Script.sample_jd
              Script.sample_resume initial)
    as (_ & evs & a & b & c & Ht & Hk & Hc & _).
  - reflexivity.
  - discriminate.
  - reflexivity.
  - discriminate.
  - exists evs, a, b, c. split; [exact Ht|]. split; [exact Hk|].
    apply Hc. exists "sk-test". split; [reflexivity|discriminate].
Defined.

(** C8 as stated fails: with every call answering, the raw-text entry point
    makes three calls, of which the first is the JD extraction and the last
    the tailored-resume generation, and it answers with the structured JD
    and the tailored resume in the result. *)
Lemma C8_counterexample :
  let run := analyzeHandler Script.all_succeed Script.raw_body initial in
  tasks_run (trace (final run))
  = [JDPreprocessing; Matching; TailoredResumeGeneration]
  /\ tasks_run (trace (final run)) <> [Matching]
  /\ exists reply,
       outcome run = Return reply
       /\ status reply = 200%Z
       /\ field (field (payload reply) "structuredJD") "title"
          = Str (js "Engineer")
       /\ field (field (payload reply) "tailoredResume") "tailoredSummary"
          = Str (js "Fit").
Proof.
  cbv zeta. split; [vm_compute; reflexivity|].
  split; [vm_compute; discriminate|].
  eexists. split; [vm_compute; reflexivity|].
  repeat split; vm_compute; reflexivity.
Qed.

(* ================================================================= *)
(** * Further properties *)

(* ================================================================= *)
(** ** The sanitizer on blank text and on plain prose *)

Section SanitizerMore.
Local Open Scope nat_scope.

(** A repetition, and a pattern, fail when the continuation fails on every
    rest of the input. *)
Lemma rep_fails (A : Type) (p : code_unit -> bool) (s : jsstring) :
  forall min max prev (k : cont A),
    (forall prev' pre s', s = (pre ++ s')%list -> k prev' s' = None) ->
    rep p min max prev s k = None.
Proof.
  induction s as [|c s' IH]; intros min max prev k Hk.
  - assert (Hstop : k prev [] = None) by (apply Hk with (pre := []); reflexivity).
    destruct max as [[|m]|], min; simpl; auto.
  - assert (Hstop : k prev (c :: s') = None)
      by (apply Hk with (pre := []); reflexivity).
    assert (Hrec : forall min' max',
               rep p min' max' (Some c) s' k = None).
    { intros min' max'. apply IH. intros prev' pre s'' E.
      apply Hk with (pre := c :: pre). rewrite E. reflexivity. }
    destruct max as [[|m]|]; simpl.
    + destruct min; auto.
    + destruct (p c); [rewrite Hrec|]; destruct min; auto.
    + destruct (p c); [rewrite Hrec|]; destruct min; auto.
Qed.

Lemma run_fails (A : Type) (r : regex) :
  forall prev s (k : cont A),
    (forall prev' pre s', s = (pre ++ s')%list -> k prev' s' = None) ->
    run r prev s k = None.
Proof.
  induction r as [q|r1 IH1 r2 IH2|r1 IH1|q min max|]; intros prev s k Hk;
    cbn [run].
  - destruct s as [|c s']; [reflexivity|]. destruct (q c); [|reflexivity].
    apply Hk with (pre := [c]). reflexivity.
  - apply IH1. intros prev' pre s' E. apply IH2. intros prev'' pre' s'' E'.
    apply Hk with (pre := (pre ++ pre')%list). rewrite E, E'.
    now rewrite app_assoc.
  - rewrite IH1 by exact Hk. apply Hk with (pre := []). reflexivity.
  - now apply rep_fails.
  - destruct (xorb (word_before prev) (word_after s)); [|reflexivity].
    apply Hk with (pre := []). reflexivity.
Qed.

(** A pattern that requires a unit of class [p] does not match text that
    has none. *)
Lemma run_requires (p : code_unit -> bool) (r : regex) :
  requires p r ->
  forall (A : Type) prev s (k : cont A),
    Forall (fun c => p c = false) s -> run r prev s k = None.
Proof.
  induction r as [q|r1 IH1 r2 IH2|r1 IH1|q min max|]; cbn [requires];
    intros Hreq A prev s k Hs; try contradiction.
  - cbn [run]. destruct s as [|c s']; [reflexivity|].
    destruct (q c) eqn:Hq; [|reflexivity].
    apply Hreq in Hq. inversion Hs; subst. congruence.
  - cbn [run]. destruct Hreq as [H1|H2]; [now apply IH1|].
    apply run_fails. intros prev' pre s' E. apply IH2; [exact H2|].
    rewrite E in Hs. apply Forall_app in Hs. tauto.
  - destruct min as [|m]; [contradiction|]. cbn [run].
    destruct s as [|c s']; [destruct max as [[|n]|]; reflexivity|].
    assert (Hq : q c = false).
    { destruct (q c) eqn:Hq; [|reflexivity].
      apply Hreq in Hq. inversion Hs; subst. congruence. }
    destruct max as [[|n]|]; simpl; try rewrite Hq; reflexivity.
Qed.

(** A global replace leaves alone a text in which the pattern matches
    nowhere. *)
Lemma replace_from_unmatched (r : regex) (repl : jsstring) (s : jsstring) :
  forall prev,
    (forall prev' pre s', s = (pre ++ s')%list ->
                          match_here r prev' s' = None) ->
    replace_from r repl prev 0 s = s.
Proof.
  induction s as [|c s' IH]; intros prev Hno; cbn [replace_from].
  - rewrite (Hno prev [] []); reflexivity.
  - rewrite (Hno prev [] (c :: s')) by reflexivity. f_equal.
    apply IH. intros prev' pre s'' E. apply Hno with (pre := c :: pre).
    rewrite E. reflexivity.
Qed.

Lemma replace_all_requires (p : code_unit -> bool) (r : regex)
      (repl s : jsstring) :
  requires p r -> Forall (fun c => p c = false) s ->
  replace_all r repl s = s.
Proof.
  intros Hreq Hs. apply replace_from_unmatched.
  intros prev' pre s' E. unfold match_here. apply run_requires with (p := p);
    [exact Hreq|]. rewrite E in Hs. apply Forall_app in Hs. tauto.
Qed.

(** A pattern that opens with [\b] matches nowhere in a text without word
    units. *)
Lemma replace_from_no_word (r : regex) (repl : jsstring) (s : jsstring) :
  forall prev,
    Forall (fun c => is_word c = false) s -> word_before prev = false ->
    replace_from (Seq WordBoundary r) repl prev 0 s = s.
Proof.
  induction s as [|c s' IH]; intros prev Hs Hprev; cbn [replace_from].
  - unfold match_here. cbn [run word_after]. rewrite Hprev. reflexivity.
  - inversion Hs as [|c' s'' Hc Hs']; subst.
    unfold match_here. cbn [run word_after]. rewrite Hprev, Hc.
    cbn [xorb]. f_equal. apply IH; [exact Hs'|exact Hc].
Qed.

Lemma space_not_word (c : code_unit) : is_space c = true -> is_word c = false.
Proof.
  unfold is_space, is_word, is_alnum, is_upper, is_lower, is_digit, in_range.
  rewrite !orb_true_iff, !orb_false_iff, !andb_true_iff, !andb_false_iff.
  rewrite !N.leb_le, !N.leb_gt, !N.eqb_eq, N.eqb_neq. lia.
Qed.

Lemma trimStart_all_space (s : jsstring) :
  Forall (fun c => is_space c = true) s -> trimStart s = [].
Proof.
  induction 1 as [|c s' Hc _ IH]; [reflexivity|]. cbn. now rewrite Hc.
Qed.

Lemma trimStart_head (s : jsstring) (c : code_unit) (t : jsstring) :
  trimStart s = c :: t -> is_space c = false.
Proof.
  induction s as [|a s' IH]; [discriminate|]. cbn.
  destruct (is_space a) eqn:Ha; [exact IH|]. intros E. inversion E; subst.
  exact Ha.
Qed.

Lemma trimStart_nil (s : jsstring) :
  trimStart s = [] -> Forall (fun c => is_space c = true) s.
Proof.
  induction s as [|a s' IH]; [constructor|]. cbn.
  destruct (is_space a) eqn:Ha; [|discriminate]. intros E.
  constructor; [exact Ha|now apply IH].
Qed.

(** A text that trims to nothing is all white space. *)
Lemma trim_nil (s : jsstring) :
  trim s = [] -> Forall (fun c => is_space c = true) s.
Proof.
  unfold trim, trimEnd. intros H.
  assert (H1 : trimStart (rev (trimStart s)) = []).
  { destruct (trimStart (rev (trimStart s))) as [|a t] eqn:E; [reflexivity|].
    apply (f_equal (@List.length _)) in H. rewrite length_rev in H.
    discriminate H. }
  apply trimStart_nil in H1. apply Forall_rev in H1. rewrite rev_involutive in H1.
  destruct (trimStart s) as [|a t] eqn:E; [now apply trimStart_nil|].
  apply trimStart_head in E. inversion H1; subst. congruence.
Qed.

Lemma sanitize_string_blank (s : jsstring) :
  trim s = [] -> sanitize_string s = [].
Proof.
  intros Hblank. pose proof (trim_nil s Hblank) as Hspace.
  assert (Hword : Forall (fun c => is_word c = false) s).
  { rewrite Forall_forall in *. intros c Hc. apply space_not_word. auto. }
  unfold sanitize_string. cbv zeta.
  assert (He : replace_all email_re (js "[email]") s = s)
    by (apply replace_from_no_word; [exact Hword|reflexivity]).
  rewrite He.
  assert (Hp : replace_all phone_re (js "[phone]") s = s)
    by (apply replace_from_no_word; [exact Hword|reflexivity]).
  rewrite Hp.
  assert (Hc : replace_all card_re (js "[card]") s = s)
    by (apply replace_from_no_word; [exact Hword|reflexivity]).
  rewrite Hc, Hblank. reflexivity.
Qed.

End SanitizerMore.

Lemma sanitizeText_blank (s : jsstring) :
  trim s = [] -> sanitizeText (Str s) = [].
Proof.
  intros Hblank. rewrite sanitizeText_string.
  destruct (is_empty s); [reflexivity|]. now apply sanitize_string_blank.
Qed.

(** X1: a text that is empty after trimming (white space only, in the sense
    of [\s]) is sanitized to the empty string: none of the three patterns
    can match in it; and so [validateTextLength] with a positive minimum
    rejects it, whatever the maximum. *)
Theorem X1_blank_text_sanitizes_to_empty (s : jsstring) (minLength : Z) :
  trim s = [] ->
  sanitizeText (Str s) = []
  /\ ((0 < minLength)%Z ->
      forall maxLength,
        validateTextLength (Str s) minLength maxLength = false).
Proof.
  intros Hblank. pose proof (sanitizeText_blank s Hblank) as Hs.
  split; [exact Hs|]. intros Hmin maxLength. unfold validateTextLength.
  rewrite Hs. cbn [List.length Z.of_nat]. apply andb_false_iff. left.
  rewrite Z.geb_leb. apply Z.leb_gt. exact Hmin.
Qed.

Lemma X1_witness :
  sanitizeText (Str [32; 9; 10; 160; 0x2003; 32]%N) = []
  /\ validateTextLength (Str [32; 9; 10; 160; 0x2003; 32]%N) 10 50000 = false.
Proof.
  destruct (@X1_blank_text_sanitizes_to_empty
              [32; 9; 10; 160; 0x2003; 32]%N 10%Z) as [H1 H2].
  - vm_compute. reflexivity.
  - split; [exact H1|]. apply H2. lia.
Defined.

Section ProseFacts.
Local Open Scope nat_scope.

Lemma prose_unit_spec (c : code_unit) :
  prose_unit c = true ->
  N.eqb 64 c = false /\ is_digit c = false /\ is_non_ascii c = false
  /\ is_control c = false /\ is_space c = N.eqb c 32.
Proof.
  intros H. unfold prose_unit, is_digit, in_range in H.
  rewrite !andb_true_iff, !negb_true_iff, !andb_false_iff in H.
  rewrite !N.leb_le, !N.leb_gt, N.eqb_neq in H.
  destruct H as [[[H1 H2] H3] H4].
  split; [apply N.eqb_neq; congruence|].
  split; [unfold is_digit, in_range; apply andb_false_iff;
          rewrite !N.leb_gt; lia|].
  split; [unfold is_non_ascii, in_range;
          apply negb_false_iff, andb_true_iff; rewrite !N.leb_le; lia|].
  split; [unfold is_control, in_range; apply orb_false_iff;
          rewrite andb_false_iff, !N.leb_gt, N.eqb_neq; lia|].
  unfold is_space, in_range. destruct (N.eqb_spec c 32) as [->|Hne];
    [reflexivity|].
  rewrite !orb_false_iff, !andb_false_iff, !N.leb_gt, !N.eqb_neq. lia.
Qed.

Lemma rep_stops (p : code_unit -> bool) (s : jsstring) max prev :
  match s with [] => True | b :: _ => p b = false end ->
  rep p 0 max prev s (fun _ r => Some r) = Some s.
Proof.
  destruct s as [|b s']; intros H; destruct max as [[|m]|]; simpl;
    try rewrite H; reflexivity.
Qed.

(** Single spaces between words are what [replace(/\s+/g, " ")] leaves. *)
Lemma collapse_single_spaced (s : jsstring) :
  forall prev,
    Forall (fun c => prose_unit c = true) s -> no_double_space s = true ->
    replace_from (Plus is_space) (js " ") prev 0 s = s.
Proof.
  induction s as [|c s' IH]; intros prev Hs Hd; [reflexivity|].
  inversion Hs as [|c' s'' Hc Hs']; subst.
  destruct (prose_unit_spec c Hc) as (_ & _ & _ & _ & Hsp).
  assert (Hd' : no_double_space s' = true).
  { destruct s' as [|b t]; [reflexivity|]. cbn [no_double_space] in Hd.
    apply andb_true_iff in Hd. tauto. }
  cbn [replace_from]. unfold match_here, Plus. cbn [run].
  destruct (is_space c) eqn:Hspace.
  - assert (Hc32 : c = 32%N) by (apply N.eqb_eq; congruence).
    assert (Hnext : match s' with
                    | [] => True
                    | b :: _ => is_space b = false
                    end).
    { destruct s' as [|b t]; [exact I|]. cbn [no_double_space] in Hd.
      apply andb_true_iff in Hd. destruct Hd as [Hd _].
      inversion Hs' as [|b' t' Hb _]; subst.
      destruct (prose_unit_spec b Hb) as (_ & _ & _ & _ & Hbsp).
      rewrite Hbsp. cbn in Hd. now destruct (N.eqb b 32). }
    simpl rep. rewrite Hspace.
    rewrite (rep_stops is_space s' None (Some c) Hnext).
    change (List.length (c :: s')) with (S (List.length s')).
    destruct (S (List.length s') - List.length s') as [|n] eqn:E; [lia|].
    assert (n = 0) by lia. subst n. rewrite Hc32 at 2.
    change (js " ") with [32%N]. cbn [app]. f_equal. now apply IH.
  - simpl rep. rewrite Hspace. f_equal. now apply IH.
Qed.

Lemma trimStart_id (s : jsstring) :
  Forall (fun c => prose_unit c = true) s -> first_is_space s = false ->
  trimStart s = s.
Proof.
  destruct s as [|c t]; [reflexivity|]. intros Hs Hf.
  inversion Hs as [|c' t' Hc _]; subst.
  destruct (prose_unit_spec c Hc) as (_ & _ & _ & _ & Hsp).
  cbn in *. rewrite Hsp, Hf. reflexivity.
Qed.

Lemma sanitize_string_prose (s : jsstring) :
  plain_prose s = true -> sanitize_string s = s.
Proof.
  unfold plain_prose. rewrite !andb_true_iff, !negb_true_iff.
  intros [[[[Hunits Hd] Hfirst] Hlast] Hlen].
  assert (Hs : Forall (fun c => prose_unit c = true) s)
    by (apply Forall_forall; now apply forallb_forall).
  assert (Hall : Forall (fun c => N.eqb 64 c = false /\ is_digit c = false
                                  /\ is_non_ascii c = false
                                  /\ is_control c = false) s).
  { rewrite Forall_forall in *. intros c Hc.
    destruct (prose_unit_spec c (Hs c Hc)) as (H1 & H2 & H3 & H4 & _). auto. }
  unfold sanitize_string. cbv zeta.
  assert (He : replace_all email_re (js "[email]") s = s).
  { apply replace_all_requires with (p := N.eqb 64).
    - cbn. right. right. left. auto.
    - rewrite Forall_forall in *. intros c Hc. now apply Hall. }
  rewrite He.
  assert (Hp : replace_all phone_re (js "[phone]") s = s).
  { apply replace_all_requires with (p := is_digit).
    - cbn. right. right. right. left. auto.
    - rewrite Forall_forall in *. intros c Hc. now apply Hall. }
  rewrite Hp.
  assert (Hc : replace_all card_re (js "[card]") s = s).
  { apply replace_all_requires with (p := is_digit).
    - cbn. right. left. auto.
    - rewrite Forall_forall in *. intros c Hc. now apply Hall. }
  rewrite Hc.
  assert (Ht : trim s = s).
  { unfold trim, trimEnd. rewrite (trimStart_id Hs Hfirst).
    rewrite trimStart_id; [apply rev_involutive| |exact Hlast].
    now apply Forall_rev. }
  rewrite Ht. unfold replace_all at 3. rewrite (collapse_single_spaced None Hs Hd).
  assert (Hn : replace_all (Plus is_non_ascii) (js " ") s = s).
  { apply replace_all_requires with (p := is_non_ascii).
    - cbn. auto.
    - rewrite Forall_forall in *. intros c Hc'. now apply Hall. }
  rewrite Hn. unfold replace_all. rewrite replace_class_filter.
  assert (Hf : filter (fun c => negb (is_control c)) s = s).
  { apply forallb_filter_id. apply forallb_forall. intros c Hc'.
    rewrite Forall_forall in Hall. destruct (Hall c Hc') as (_ & _ & _ & H4).
    now rewrite H4. }
  rewrite Hf. unfold slice0. apply firstn_all2. now apply Nat.leb_le.
Qed.

End ProseFacts.

(** X2: plain prose (printable ASCII without digits and [@], words separated
    by single spaces, no space at either end, at most 6000 units) goes
    through [sanitizeText] unchanged. *)
Theorem X2_plain_prose_is_unchanged (s : jsstring) :
  plain_prose s = true -> sanitizeText (Str s) = s.
Proof.
  intros Hp. rewrite sanitizeText_string.
  destruct s as [|c t]; [reflexivity|]. cbn [is_empty].
  now apply sanitize_string_prose.
Qed.

Lemma X2_witness :
  sanitizeText (Str (js "Senior engineer, proofs and compilers (remote)"))
  = js "Senior engineer, proofs and compilers (remote)".
Proof.
  apply X2_plain_prose_is_unchanged. vm_compute. reflexivity.
Defined.

(* ================================================================= *)
(** ** The request validation *)

(** A rule of a route lets a body through exactly when the field is a
    string whose sanitized text has ten units or more. *)
Lemma check_text_rule_passes (name : string) (req_body : value) :
  check_rule (text_rule name) req_body = None
  <-> exists s, field req_body name = Str s
                /\ (10 <= List.length (sanitizeText (Str s)))%nat.
Proof.
  unfold check_rule. cbn [text_rule required rule_field minLength maxLength].
  cbn [andb negb bound_or Z.eqb].
  split.
  - destruct (field req_body name) as [| |b|n|s|l|f];
      try (cbn [is_string negb]; rewrite orb_true_r; cbn [orb andb];
           discriminate).
    cbn [truthy is_string negb orb].
    destruct (is_empty s); cbn [negb orb andb]; [discriminate|].
    destruct (List.length (trim s) =? 0)%nat; [discriminate|].
    destruct (validateTextLength (Str s) 10 50000) eqn:Hv; cbn [negb];
      [|discriminate].
    intros _. exists s. split; [reflexivity|].
    unfold validateTextLength in Hv. apply andb_true_iff in Hv.
    destruct Hv as [Hv _]. apply Z.geb_le in Hv. lia.
  - intros (s & -> & Hlen). cbn [truthy is_string negb orb].
    assert (Hne : is_empty s = false).
    { destruct s; [cbn in Hlen; lia|reflexivity]. }
    assert (Hnb : (List.length (trim s) =? 0)%nat = false).
    { apply Nat.eqb_neq. intros E.
      assert (Ht : trim s = []) by (destruct (trim s); [reflexivity|discriminate]).
      rewrite (sanitizeText_blank s Ht) in Hlen. cbn in Hlen. lia. }
    rewrite Hne, Hnb. cbn [negb orb andb].
    assert (Hv : validateTextLength (Str s) 10 50000 = true).
    { unfold validateTextLength.
      pose proof (sanitizeText_length (Str s)) as Hmax.
      apply Nat2Z.inj_le in Hmax.
      change (Z.of_nat 6000) with 6000%Z in Hmax.
      rewrite andb_true_iff, Z.geb_le, Z.leb_le. lia. }
    rewrite Hv. reflexivity.
Qed.

(** X3: the validation of [POST /api/analyze] lets a body through (no
    error) exactly when [jd] and [resume] are both strings whose sanitized
    text has at least ten units; there is no upper limit on the raw text. *)
Theorem X3_analyze_route_validation (req_body : value) :
  validation_errors analyze_route_rules req_body = []
  <-> exists jd resume,
      field req_body "jd" = Str jd
      /\ field req_body "resume" = Str resume
      /\ (10 <= List.length (sanitizeText (Str jd)))%nat
      /\ (10 <= List.length (sanitizeText (Str resume)))%nat.
Proof.
  unfold validation_errors, analyze_route_rules. cbn [flat_map].
  rewrite app_nil_r. split.
  - intros H. apply app_eq_nil in H. destruct H as [Hjd Hres].
    assert (H1 : check_rule (text_rule "jd") req_body = None)
      by (destruct (check_rule (text_rule "jd") req_body);
          [discriminate|reflexivity]).
    assert (H2 : check_rule (text_rule "resume") req_body = None)
      by (destruct (check_rule (text_rule "resume") req_body);
          [discriminate|reflexivity]).
    apply check_text_rule_passes in H1, H2.
    destruct H1 as (jd & Ej & Lj). destruct H2 as (resume & Er & Lr).
    now exists jd, resume.
  - intros (jd & resume & Ej & Er & Lj & Lr).
    assert (H1 : check_rule (text_rule "jd") req_body = None)
      by (apply check_text_rule_passes; eauto).
    assert (H2 : check_rule (text_rule "resume") req_body = None)
      by (apply check_text_rule_passes; eauto).
    rewrite H1, H2. reflexivity.
Qed.

(* ================================================================= *)
(** ** simpleHash *)

Section HashFacts.
Import Hash.
Local Open Scope Z_scope.

Lemma to_int32_range (z : Z) : - 2 ^ 31 <= to_int32 z < 2 ^ 31.
Proof.
  unfold to_int32. pose proof (Z.mod_pos_bound (z + 2 ^ 31) (2 ^ 32)). lia.
Qed.

Lemma to_int32_small (z : Z) : - 2 ^ 31 <= z < 2 ^ 31 -> to_int32 z = z.
Proof. intros H. unfold to_int32. rewrite Z.mod_small; lia. Qed.

Lemma to_int32_shift (z k : Z) : to_int32 (z + k * 2 ^ 32) = to_int32 z.
Proof.
  unfold to_int32. replace (z + k * 2 ^ 32 + 2 ^ 31)
    with (z + 2 ^ 31 + k * 2 ^ 32) by lia.
  now rewrite Z_mod_plus_full.
Qed.

Lemma to_int32_eq (z : Z) : exists k, to_int32 z = z + k * 2 ^ 32.
Proof.
  exists (- ((z + 2 ^ 31) / 2 ^ 32)). unfold to_int32.
  rewrite Z.mod_eq by lia. lia.
Qed.

Lemma to_int32_idem (z : Z) : to_int32 (to_int32 z) = to_int32 z.
Proof. apply to_int32_small, to_int32_range. Qed.

(** One turn of the loop multiplies by 31 and adds the code point, in
    32-bit arithmetic. *)
Lemma step_eq (hash char : Z) :
  step hash char = to_int32 (hash * 31 + char).
Proof.
  unfold step. rewrite Z.land_diag, Z.shiftl_mul_pow2 by lia.
  destruct (to_int32_eq hash) as [k Hk].
  destruct (to_int32_eq (to_int32 hash * 2 ^ 5)) as [k' Hk'].
  rewrite Hk', Hk.
  replace ((hash + k * 2 ^ 32) * 2 ^ 5 + k' * 2 ^ 32 - hash + char)
    with (hash * 31 + char + (k * 2 ^ 5 + k') * 2 ^ 32) by lia.
  apply to_int32_shift.
Qed.

Lemma horner_congruent (cs : list Z) :
  forall a b,
    to_int32 a = to_int32 b ->
    to_int32 (fold_left (fun acc c => acc * 31 + c) cs a)
    = to_int32 (fold_left (fun acc c => acc * 31 + c) cs b).
Proof.
  induction cs as [|c cs IH]; intros a b Hab; [exact Hab|].
  cbn [fold_left]. apply IH.
  destruct (to_int32_eq a) as [k Hk]. destruct (to_int32_eq b) as [k' Hk'].
  assert (E : a * 31 + c = b * 31 + c + 31 * (k' - k) * 2 ^ 32) by lia.
  rewrite E. apply to_int32_shift.
Qed.

Lemma loop_horner (s : jsstring) :
  forall hash,
    to_int32 (loop s hash)
    = to_int32 (fold_left (fun acc c => acc * 31 + c) (codePoints_read s)
                          hash).
Proof.
  induction s as [|u rest IH]; intros hash; [reflexivity|].
  cbn [loop codePoints_read fold_left]. rewrite IH.
  apply horner_congruent. rewrite step_eq. apply to_int32_idem.
Qed.

Lemma loop_int32 (s : jsstring) (hash : Z) :
  - 2 ^ 31 <= hash < 2 ^ 31 -> - 2 ^ 31 <= loop s hash < 2 ^ 31.
Proof.
  revert hash. induction s as [|u rest IH]; intros hash H; [exact H|].
  cbn [loop]. apply IH. rewrite step_eq. apply to_int32_range.
Qed.

Lemma codePoints_no_surrogate (s : jsstring) :
  Forall (fun c => in_range 0xD800%N 0xDBFF%N c = false) s ->
  codePoints_read s = map Z.of_N s.
Proof.
  induction 1 as [|c s' Hc _ IH]; [reflexivity|].
  cbn [codePoints_read codePointAt_head map]. now rewrite Hc, IH.
Qed.

Lemma simpleHash_string (c : code_unit) (s : jsstring) :
  simpleHash (Str (c :: s)) = toString36 (Z.abs (loop (c :: s) 0)).
Proof. reflexivity. Qed.

(** X4: for a non-empty string, [simpleHash] renders in base 36 the
    absolute value of the 32-bit wrap of the base-31 polynomial of the code
    points the loop reads, which for a string without high surrogates are
    its units; the accumulator never leaves the 32-bit range. *)
Theorem X4_simpleHash_is_base31_polynomial (c : code_unit) (s : jsstring) :
  let str := c :: s in
  simpleHash (Str str)
  = toString36 (Z.abs (to_int32 (horner31 (codePoints_read str))))
  /\ - 2 ^ 31 <= loop str 0 < 2 ^ 31
  /\ (Forall (fun u => in_range 0xD800%N 0xDBFF%N u = false) str ->
      simpleHash (Str str)
      = toString36 (Z.abs (to_int32 (horner31 (map Z.of_N str))))).
Proof.
  cbv zeta.
  assert (Hr : - 2 ^ 31 <= loop (c :: s) 0 < 2 ^ 31)
    by (apply loop_int32; lia).
  assert (E : loop (c :: s) 0
              = to_int32 (horner31 (codePoints_read (c :: s)))).
  { rewrite <- (to_int32_small Hr). apply loop_horner. }
  rewrite simpleHash_string. split; [now rewrite E|]. split; [exact Hr|].
  intros Hs. rewrite E. now rewrite codePoints_no_surrogate.
Qed.

Lemma toString36_from_acc (fuel : nat) :
  forall n acc,
    toString36_from fuel n acc = (toString36_from fuel n [] ++ acc)%list.
Proof.
  induction fuel as [|f IH]; intros n acc; [reflexivity|].
  cbn [toString36_from]. destruct (n <? 36); [reflexivity|].
  rewrite IH. rewrite (IH (n / 36) [digit36 (n mod 36)]).
  now rewrite <- app_assoc.
Qed.

Lemma parse36_snoc (l : jsstring) (c : code_unit) :
  parse36 (l ++ [c])%list = parse36 l * 36 + digit_value c.
Proof. unfold parse36. now rewrite fold_left_app. Qed.

Lemma digit36_spec (d : Z) :
  0 <= d < 36 ->
  digit_value (digit36 d) = d /\ is_digit36 (digit36 d) = true.
Proof.
  intros Hd. unfold digit36, digit_value, is_digit36, is_digit, is_lower,
               in_range.
  destruct (d <? 10) eqn:Hlt.
  - apply Z.ltb_lt in Hlt.
    assert (E1 : (48 <=? Z.to_N (48 + d))%N = true) by (apply N.leb_le; lia).
    assert (E2 : (Z.to_N (48 + d) <=? 57)%N = true) by (apply N.leb_le; lia).
    rewrite E1, E2. cbn [andb orb]. split; [|reflexivity].
    rewrite Z2N.id; lia.
  - apply Z.ltb_ge in Hlt.
    assert (E1 : (Z.to_N (87 + d) <=? 57)%N = false) by (apply N.leb_gt; lia).
    assert (E3 : (97 <=? Z.to_N (87 + d))%N = true) by (apply N.leb_le; lia).
    assert (E4 : (Z.to_N (87 + d) <=? 122)%N = true)
      by (apply N.leb_le; lia).
    rewrite E1, E3, E4, andb_false_r. cbn [andb orb]. split; [|reflexivity].
    rewrite Z2N.id; lia.
Qed.

(** With fuel enough for the number, the numeral has between one and [k]
    digits of base 36 and reads back as the number. *)
Lemma toString36_from_spec (fuel : nat) :
  forall n (k : nat),
    (1 <= fuel)%nat -> (1 <= k)%nat ->
    0 <= n < 36 ^ Z.of_nat fuel -> 0 <= n < 36 ^ Z.of_nat k ->
    let numeral := toString36_from fuel n [] in
    parse36 numeral = n
    /\ Forall (fun c => is_digit36 c = true) numeral
    /\ (1 <= List.length numeral <= k)%nat.
Proof.
  induction fuel as [|f IH]; intros n k Hfuel Hk1 Hf Hk; cbv zeta.
  - lia.
  - cbn [toString36_from]. destruct (n <? 36) eqn:Hlt.
    + apply Z.ltb_lt in Hlt. rewrite Z.mod_small by lia.
      destruct (digit36_spec (d := n)) as [Hv Hd]; [lia|].
      split; [cbn; lia|]. split; [repeat constructor; exact Hd|cbn; lia].
    + apply Z.ltb_ge in Hlt. rewrite toString36_from_acc.
      assert (Hf' : 0 <= n / 36 < 36 ^ Z.of_nat f).
      { split; [apply Z.div_pos; lia|].
        apply Z.div_lt_upper_bound; [lia|].
        rewrite Nat2Z.inj_succ, Z.pow_succ_r in Hf by lia. lia. }
      destruct k as [|k']; [lia|].
      assert (Hk' : 0 <= n / 36 < 36 ^ Z.of_nat k').
      { split; [apply Z.div_pos; lia|].
        apply Z.div_lt_upper_bound; [lia|].
        rewrite Nat2Z.inj_succ, Z.pow_succ_r in Hk by lia. lia. }
      assert (Hf1 : (1 <= f)%nat).
      { destruct f; [|lia]. cbn in Hf'.
        assert (1 <= n / 36) by (apply Z.div_le_lower_bound; lia). lia. }
      assert (Hk1' : (1 <= k')%nat).
      { destruct k'; [|lia]. cbn in Hk'.
        assert (1 <= n / 36) by (apply Z.div_le_lower_bound; lia). lia. }
      destruct (IH (n / 36) k' Hf1 Hk1' Hf' Hk') as (Hp & Hd & Hl).
      destruct (digit36_spec (d := n mod 36)) as [Hv Hdm];
        [apply Z.mod_pos_bound; lia|].
      split; [|split].
      * rewrite parse36_snoc, Hp, Hv.
        pose proof (Z.div_mod n 36). lia.
      * apply Forall_app. split; [exact Hd|repeat constructor; exact Hdm].
      * rewrite length_app. cbn [List.length]. lia.
Qed.

Lemma toString36_spec (n : Z) (k : nat) :
  (1 <= k)%nat -> 0 <= n < 36 ^ Z.of_nat k ->
  parse36 (toString36 n) = n
  /\ Forall (fun c => is_digit36 c = true) (toString36 n)
  /\ (1 <= List.length (toString36 n) <= k)%nat.
Proof.
  intros Hk1 Hk. unfold toString36. apply toString36_from_spec;
    [lia|exact Hk1| |exact Hk].
  split; [lia|].
  destruct (Z.eq_dec n 0) as [->|Hn]; [cbn; lia|].
  rewrite Nat2Z.inj_succ, Z2Nat.id by apply Z.log2_nonneg.
  assert (Hlog : n < 2 ^ Z.succ (Z.log2 n)) by (apply Z.log2_spec; lia).
  assert (Hpow : 2 ^ Z.succ (Z.log2 n) <= 36 ^ Z.succ (Z.log2 n)).
  { apply Z.pow_le_mono_l. lia. }
  lia.
Qed.

(** X5: [simpleHash] answers the empty string for the empty string and for
    anything that is not a string, and otherwise a numeral of one to six
    digits among [0-9a-z] that reads back, in base 36, as the absolute
    value of the 32-bit hash; so two non-empty strings get the same result
    exactly when their hashes agree up to sign. *)
Theorem X5_simpleHash_output (str : value) :
  Forall (fun c => is_digit36 c = true) (simpleHash str)
  /\ (List.length (simpleHash str) <= 6)%nat
  /\ (is_string str = false \/ str = Str [] -> simpleHash str = [])
  /\ (forall c s,
         str = Str (c :: s) ->
         (1 <= List.length (simpleHash str))%nat
         /\ parse36 (simpleHash str) = Z.abs (loop (c :: s) 0)
         /\ forall c' s',
             simpleHash (Str (c' :: s')) = simpleHash str
             <-> Z.abs (loop (c' :: s') 0) = Z.abs (loop (c :: s) 0)).
Proof.
  assert (Habs : forall u t, 0 <= Z.abs (loop (u :: t) 0) < 36 ^ Z.of_nat 6).
  { intros u t. pose proof (@loop_int32 (u :: t) 0 ltac:(lia)).
    change (36 ^ Z.of_nat 6) with 2176782336. lia. }
  assert (Hempty : is_string str = false \/ str = Str [] ->
                   simpleHash str = []).
  { intros [H| ->]; [|reflexivity]. unfold simpleHash. rewrite H.
    cbn [negb]. now rewrite orb_true_r. }
  destruct str as [| |b|n|[|c s]|l|f];
    try (rewrite Hempty by (left; reflexivity);
         repeat split; try constructor; try (cbn; lia);
         try (intros; discriminate); auto).
  - rewrite Hempty by (right; reflexivity).
    repeat split; try constructor; try (cbn; lia); try (intros; discriminate);
      auto.
  - rewrite simpleHash_string.
    destruct (@toString36_spec _ 6%nat ltac:(lia) (Habs c s))
      as (Hp & Hd & Hl).
    split; [exact Hd|]. split; [lia|]. split; [exact Hempty|].
    intros c0 s0 E. inversion E; subst c0 s0.
    split; [lia|]. split; [exact Hp|].
    intros c' s'. rewrite simpleHash_string.
    destruct (@toString36_spec _ 6%nat ltac:(lia) (Habs c' s'))
      as (Hp' & _ & _). split.
    + intros E'. rewrite <- Hp', <- Hp. now rewrite E'.
    + intros E'. now rewrite E'.
Qed.

End HashFacts.

(* ================================================================= *)
(** ** The completion client: recovery, budget and requests *)

Lemma delays_app (a b : list event) :
  delays (a ++ b) = (delays a ++ delays b)%list.
Proof. unfold delays. apply flat_map_app. Qed.

Lemma total_delay_app (a b : list event) :
  total_delay (a ++ b) = (total_delay a + total_delay b)%Z.
Proof.
  unfold total_delay. rewrite delays_app.
  induction (delays a) as [|d ds IH]; cbn [fold_right app]; lia.
Qed.

Lemma delays_console (lines : list (level * string)) :
  delays (map (fun l => Console (fst l) (snd l)) lines) = [].
Proof. induction lines as [|l ls IH]; [reflexivity|exact IH]. Qed.

Lemma total_delay_logged (lines : list (level * string)) (w : world) :
  total_delay (trace (logged lines w)) = total_delay (trace w).
Proof.
  unfold logged. cbn [trace]. rewrite total_delay_app.
  unfold total_delay at 2. rewrite delays_console. cbn. lia.
Qed.

Lemma total_delay_sent (req : request) (w : world) :
  total_delay (trace (sent req w)) = total_delay (trace w).
Proof. unfold sent. cbn [trace]. rewrite total_delay_app. cbn. lia. Qed.

Lemma backoff_posts (attempt : Z) (w : world) :
  posts (backoff attempt w) = posts w.
Proof. unfold backoff. destruct (attempt <? MAX_RETRIES - 1)%Z; reflexivity. Qed.

Lemma backoff_delays (attempt : Z) (w : world) :
  delays (trace (backoff attempt w))
  = (delays (trace w)
     ++ if (attempt <? 2)%Z then [(1000 * 2 ^ attempt)%Z] else [])%list.
Proof.
  unfold backoff. change (MAX_RETRIES - 1)%Z with 2%Z.
  destruct (attempt <? 2)%Z; cbn [trace].
  - rewrite delays_app. reflexivity.
  - now rewrite app_nil_r.
Qed.

Lemma backoff_total_delay (attempt : Z) (w : world) :
  total_delay (trace (backoff attempt w))
  = (total_delay (trace w)
     + if (attempt <? 2)%Z then 1000 * 2 ^ attempt else 0)%Z.
Proof.
  unfold total_delay. rewrite backoff_delays.
  destruct (attempt <? 2)%Z.
  - induction (delays (trace w)) as [|d ds IH]; cbn [fold_right app]; lia.
  - rewrite app_nil_r. lia.
Qed.

Section BudgetFacts.
Variable rt : runtime.
Variables (apiKey : string) (messages : list chat_message) (model : string)
          (temperature : Q) (maxTokens : option Z).

Local Abbreviation req :=
  (requestBody apiKey messages model temperature maxTokens).

(** A turn that fails with a transient status backs off and goes on. *)
Lemma loop_transient (remaining : nat) (attempt : Z)
      (lastError : option RetryableError) (w : world) :
  transient (axios_post rt (posts w) req) ->
  exists e,
    callOpenAIChat_loop rt (S remaining) attempt lastError apiKey messages
                        model temperature maxTokens w
    = callOpenAIChat_loop rt remaining (attempt + 1) (Some e) apiKey messages
                          model temperature maxTokens
                          (backoff attempt (sent req w)).
Proof.
  intros Htr. apply transient_outcome in Htr. destruct Htr as (e & He & Hr).
  exists (createRetryableError e). rewrite loop_step, He, Hr. reflexivity.
Qed.

(** A turn whose attempt answers ends the loop. *)
Lemma loop_answer (remaining : nat) (attempt : Z)
      (lastError : option RetryableError) (w : world) (text : jsstring) :
  attempt_outcome (axios_post rt (posts w) req) = Return text ->
  callOpenAIChat_loop rt (S remaining) attempt lastError apiKey messages
                      model temperature maxTokens w
  = (Return text, sent req w).
Proof. intros He. rewrite loop_step, He. reflexivity. Qed.

(** One more turn costs one call, and the back-off of its attempt. *)
Lemma loop_budget_step (remaining : nat) (attempt : Z) (n : nat) (ms : Z) :
  (forall lastError,
      within_budget n ms
        (callOpenAIChat_loop rt remaining (attempt + 1) lastError apiKey
                             messages model temperature maxTokens)) ->
  forall lastError,
    within_budget (S n)
      (ms + if (attempt <? 2)%Z then 1000 * 2 ^ attempt else 0)
      (callOpenAIChat_loop rt (S remaining) attempt lastError apiKey
                           messages model temperature maxTokens).
Proof.
  intros IH lastError w.
  assert (Hpow : (0 <= 2 ^ attempt)%Z) by (apply Z.pow_nonneg; lia).
  assert (Hms : (0 <= ms)%Z)
    by (destruct (IH None w) as [_ H]; lia).
  rewrite loop_step.
  destruct (attempt_outcome (axios_post rt (posts w) req)) as [text|e].
  - cbn [final snd]. rewrite total_delay_sent. cbn [sent posts].
    destruct (attempt <? 2)%Z; lia.
  - destruct (isRetryableStatus (response_status_of e)).
    + destruct (IH (Some (createRetryableError e))
                   (backoff attempt (sent req w))) as [Hp Hd].
      rewrite backoff_posts in Hp. rewrite backoff_total_delay in Hd.
      rewrite total_delay_sent in Hd. cbn [sent posts] in Hp.
      destruct (attempt <? 2)%Z; lia.
    + cbn [final snd]. rewrite total_delay_sent. cbn [sent posts].
      destruct (attempt <? 2)%Z; lia.
Qed.

Lemma loop_budget_exhausted (attempt : Z) lastError :
  within_budget 0 0
    (callOpenAIChat_loop rt 0 attempt lastError apiKey messages model
                         temperature maxTokens).
Proof. intros w. cbn. lia. Qed.

Lemma loop_budget lastError :
  within_budget 3 3000
    (callOpenAIChat_loop rt 3 0 lastError apiKey messages model temperature
                         maxTokens).
Proof.
  revert lastError.
  change 3000%Z with (0 + 0 + 2000 + 1000)%Z.
  apply (@loop_budget_step 2 0 2 (0 + 0 + 2000)%Z).
  apply (@loop_budget_step 1 1 1 (0 + 0)%Z).
  apply (@loop_budget_step 0 2 0 0%Z).
  apply loop_budget_exhausted.
Qed.

(** Every call of the loop sends the same request, a delay is that of the
    attempt it follows, and the console gets informational lines only. *)
Lemma loop_events (remaining : nat) :
  forall attempt lastError, (0 <= attempt)%Z ->
    emits (fun e => match e with
                    | Post r => r = req
                    | Sleep ms => ms = 1000%Z \/ ms = 2000%Z
                    | Console l _ => l = LInfo
                    end)
          (callOpenAIChat_loop rt remaining attempt lastError apiKey messages
                               model temperature maxTokens).
Proof.
  induction remaining as [|r IH]; intros attempt lastError Hatt w.
  - exists []. cbn. rewrite app_nil_r. split; [reflexivity|constructor].
  - rewrite loop_step.
    destruct (attempt_outcome (axios_post rt (posts w) req)) as [text|e].
    + exists [Post req]. split; [reflexivity|]. repeat constructor.
    + destruct (isRetryableStatus (response_status_of e)).
      * destruct (IH (attempt + 1)%Z (Some (createRetryableError e))
                     ltac:(lia) (backoff attempt (sent req w)))
          as (evs & Ht & Hall).
        rewrite Ht. unfold backoff, sent.
        change (MAX_RETRIES - 1)%Z with 2%Z.
        destruct (attempt <? 2)%Z eqn:Hlt; cbn [trace].
        -- eexists (Post req :: Console _ _ :: Sleep _ :: evs).
           rewrite <- !app_assoc. split; [reflexivity|].
           constructor; [reflexivity|]. constructor; [reflexivity|].
           constructor; [|exact Hall].
           apply Z.ltb_lt in Hlt.
           assert (Hcases : attempt = 0%Z \/ attempt = 1%Z) by lia.
           destruct Hcases as [-> | ->]; [left|right]; reflexivity.
        -- exists (Post req :: evs). rewrite <- app_assoc.
           split; [reflexivity|]. constructor; [reflexivity|exact Hall].
      * exists [Post req]. split; [reflexivity|]. repeat constructor.
Qed.

End BudgetFacts.

(** X6: when the first [k <= 2] attempts of [callOpenAIChat] fail with a
    transient status and the next one answers with a non-empty text, the
    call returns that text after exactly [k + 1] calls, each of them the
    one request built from the credential, the messages and the options of
    the call, having waited 1000 ms after the first failure and 2000 ms
    after the second. *)
Theorem X6_answer_after_transient_failures
        rt apiKey messages model temperature maxTokens (k : nat)
        (text : jsstring) (w : world) :
  OPENAI_API_KEY rt = Some apiKey -> apiKey <> "" ->
  let req := requestBody apiKey messages model temperature maxTokens in
  (k <= 2)%nat ->
  (forall i, (i < k)%nat -> transient (axios_post rt (posts w + i) req)) ->
  attempt_outcome (axios_post rt (posts w + k) req) = Return text ->
  let run := callOpenAIChat rt messages model temperature maxTokens w in
  outcome run = Return text
  /\ posts (final run) = (posts w + k + 1)%nat
  /\ delays (trace (final run))
     = (delays (trace w) ++ firstn k [1000; 2000]%Z)%list
  /\ requests (trace (final run))
     = (requests (trace w) ++ repeat req (S k))%list
  /\ prompts_sent (trace (final run))
     = (prompts_sent (trace w)
        ++ List.concat (repeat (prompts_in messages) (S k)))%list.
Proof.
  intros Hkey Hne req Hk Htr Hans run. subst run req.
  assert (Hreq : forall r w0,
             requests (trace (sent r w0))
             = (requests (trace w0) ++ [r])%list).
  { intros r w0. unfold sent, requests. cbn [trace].
    rewrite flat_map_app. reflexivity. }
  assert (Hreqb : forall a w0,
             requests (trace (backoff a w0)) = requests (trace w0)).
  { intros a w0. unfold backoff. destruct (a <? MAX_RETRIES - 1)%Z;
      [|reflexivity]. unfold requests. cbn [trace]. rewrite flat_map_app.
    cbn. now rewrite app_nil_r. }
  rewrite callOpenAIChat_configured with (apiKey := apiKey) by assumption.
  assert (Hsent : forall r w0, delays (trace (sent r w0)) = delays (trace w0)).
  { intros r w0. unfold sent. cbn [trace]. rewrite delays_app.
    cbn. now rewrite app_nil_r. }
  assert (Hprompt : forall w0,
             prompts_sent
               (trace (sent (requestBody apiKey messages model temperature
                                         maxTokens) w0))
             = (prompts_sent (trace w0) ++ prompts_in messages)%list).
  { intros w0. unfold sent. cbn [trace]. rewrite prompts_sent_app.
    cbn. unfold prompts_of, requestBody. simpl.
    now rewrite app_nil_r. }
  assert (Hback : forall a w0,
             prompts_sent (trace (backoff a w0)) = prompts_sent (trace w0)).
  { intros a w0. unfold backoff. destruct (a <? MAX_RETRIES - 1)%Z;
      [|reflexivity]. cbn [trace]. rewrite prompts_sent_app. cbn.
    now rewrite app_nil_r. }
  destruct k as [|[|[|k]]]; [| | |lia].
  - rewrite Nat.add_0_r in Hans.
    rewrite (@loop_answer rt apiKey messages model temperature maxTokens
                          2 0 None w text Hans).
    cbn [outcome final fst snd].
    repeat first [ rewrite Hsent | rewrite backoff_delays | rewrite Hprompt
                 | rewrite Hback | rewrite Hreq | rewrite Hreqb ].
    cbn [sent posts firstn repeat List.concat app].
    repeat (rewrite backoff_posts; cbn [sent posts]).
    rewrite ?app_nil_r, <- ?app_assoc.
    repeat split; try reflexivity; lia.
  - destruct (@loop_transient rt apiKey messages model temperature maxTokens
                              2 0 None w) as [e0 ->].
    { specialize (Htr 0%nat ltac:(lia)). now rewrite Nat.add_0_r in Htr. }
    set (w1 := backoff 0 (sent _ w)).
    assert (Hp1 : posts w1 = (posts w + 1)%nat)
      by (unfold w1; rewrite backoff_posts; cbn; lia).
    rewrite <- Hp1 in Hans.
    rewrite (@loop_answer rt apiKey messages model temperature maxTokens
                          1 (0 + 1) (Some e0) w1 text Hans).
    clear Hans Hp1. subst w1. cbn [outcome final fst snd].
    repeat first [ rewrite Hsent | rewrite backoff_delays | rewrite Hprompt
                 | rewrite Hback | rewrite Hreq | rewrite Hreqb ].
    cbn [sent posts firstn repeat List.concat app].
    repeat (rewrite backoff_posts; cbn [sent posts]).
    rewrite ?app_nil_r, <- ?app_assoc.
    repeat split; try reflexivity; lia.
  - destruct (@loop_transient rt apiKey messages model temperature maxTokens
                              2 0 None w) as [e0 ->].
    { specialize (Htr 0%nat ltac:(lia)). now rewrite Nat.add_0_r in Htr. }
    set (w1 := backoff 0 (sent _ w)).
    assert (Hp1 : posts w1 = (posts w + 1)%nat)
      by (unfold w1; rewrite backoff_posts; cbn; lia).
    destruct (@loop_transient rt apiKey messages model temperature maxTokens
                              1 (0 + 1) (Some e0) w1) as [e1 ->].
    { rewrite Hp1. apply Htr. lia. }
    set (w2 := backoff (0 + 1) (sent _ w1)).
    assert (Hp2 : posts w2 = (posts w + 2)%nat)
      by (unfold w2; rewrite backoff_posts; cbn; lia).
    rewrite <- Hp2 in Hans.
    rewrite (@loop_answer rt apiKey messages model temperature maxTokens
                          0 (0 + 1 + 1) (Some e1) w2 text Hans).
    clear Hans Hp1 Hp2. subst w2 w1. cbn [outcome final fst snd].
    repeat first [ rewrite Hsent | rewrite backoff_delays | rewrite Hprompt
                 | rewrite Hback | rewrite Hreq | rewrite Hreqb ].
    cbn [sent posts firstn repeat List.concat app].
    repeat (rewrite backoff_posts; cbn [sent posts]).
    rewrite ?app_nil_r, <- ?app_assoc.
    repeat split; try reflexivity; lia.
Qed.

Lemma X6_witness :
  outcome (callOpenAIChat Cases.busy_once_then_ok
                          (jd_messages Script.sample_jd) "gpt-4o-mini"
                          (3 # 10) (Some 1200%Z) initial)
  = Return Script.jd_text
  /\ posts (final (callOpenAIChat Cases.busy_once_then_ok
                                  (jd_messages Script.sample_jd) "gpt-4o-mini"
                                  (3 # 10) (Some 1200%Z) initial)) = 2%nat
  /\ delays (trace (final (callOpenAIChat Cases.busy_once_then_ok
                                          (jd_messages Script.sample_jd)
                                          "gpt-4o-mini" (3 # 10)
                                          (Some 1200%Z) initial)))
     = [1000%Z].
Proof.
  destruct (@X6_answer_after_transient_failures
              Cases.busy_once_then_ok "sk-test"
              (jd_messages Script.sample_jd) "gpt-4o-mini" (3 # 10)
              (Some 1200%Z) 1 Script.jd_text initial)
    as (Hout & Hposts & Hdelays & _).
  - reflexivity.
  - discriminate.
  - lia.
  - intros i Hi. assert (i = 0%nat) by lia. subst i.
    exists "Request failed with status code 503", 503%Z.
    split; reflexivity.
  - reflexivity.
  - repeat split; assumption.
Defined.

(* ================================================================= *)
(** ** What a run costs and what it sends *)

Lemma logged_logged (l1 l2 : list (level * string)) (w : world) :
  logged l2 (logged l1 w) = logged (l1 ++ l2) w.
Proof.
  unfold logged. cbn [posts trace]. now rewrite map_app, app_assoc.
Qed.

Section CostFacts.
Variable rt : runtime.

Lemma callOpenAIChat_budget messages model temperature maxTokens :
  within_budget 3 3000
                (callOpenAIChat rt messages model temperature maxTokens).
Proof.
  unfold callOpenAIChat. destruct (OPENAI_API_KEY rt) as [apiKey|].
  - destruct (String.eqb apiKey ""); [intros w; cbn; lia|].
    apply loop_budget.
  - intros w. cbn. lia.
Qed.

Lemma structured_call_budget messages temperature maxTokens normalize label
      prefix :
  within_budget 3 3000
                (structured_call rt messages temperature maxTokens normalize
                                 label prefix).
Proof.
  intros w. rewrite structured_call_run.
  pose proof (@callOpenAIChat_budget messages "gpt-4o-mini" temperature
                                     (Some maxTokens) w) as H.
  destruct (callOpenAIChat rt messages "gpt-4o-mini" temperature
                           (Some maxTokens) w) as [[response|e] w1];
    cbn [final snd] in H.
  - destruct (cbind (JSON_parse rt (trim response)) normalize);
      cbn [final snd]; rewrite ?total_delay_logged; exact H.
  - cbn [final snd]. rewrite total_delay_logged. exact H.
Qed.

Lemma preprocessResume_budget (resumeText : jsstring) :
  within_budget 3 3000 (preprocessResume rt resumeText).
Proof.
  intros w. unfold preprocessResume, try_catch, bind.
  pose proof (@callOpenAIChat_budget
                (resume_messages
                   (sanitizeText (Str (substring0 6000 resumeText))))
                "gpt-4o-mini" (2 # 10) (Some 1200%Z) w) as H.
  destruct (callOpenAIChat rt _ "gpt-4o-mini" (2 # 10) (Some 1200%Z) w)
    as [[response|e] w1]; cbn [final snd] in H.
  - unfold lift. destruct (JSON_parse rt (trim response)); exact H.
  - unfold console, emit, throw. cbn [final snd posts trace].
    rewrite total_delay_app. cbn. rewrite Z.add_0_r. exact H.
Qed.

Lemma parseJobMetadata_budget (html : jsstring) :
  within_budget 3 3000 (parseJobMetadata rt html).
Proof.
  intros w. unfold parseJobMetadata, try_catch, bind.
  pose proof (@callOpenAIChat_budget
                (metadata_messages
                   (sanitizeText (Str (substring0 6000 html))))
                "gpt-4o-mini" (2 # 10) (Some 1000%Z) w) as H.
  assert (Hlog : forall w0 : world,
             total_delay (trace w0 ++ [Console LError
                                               "Error parsing job metadata:"])
             = total_delay (trace w0)).
  { intros w0. rewrite total_delay_app. cbn. lia. }
  destruct (callOpenAIChat rt _ "gpt-4o-mini" (2 # 10) (Some 1000%Z) w)
    as [[response|e] w1]; cbn [final snd] in H.
  - unfold lift. destruct (JSON_parse rt (trim response)) as [parsed|e].
    + destruct (jobMetadata_of parsed); [exact H|].
      unfold console, emit, ret. cbn [final snd posts trace].
      rewrite Hlog. exact H.
    + unfold console, emit, ret. cbn [final snd posts trace].
      rewrite Hlog. exact H.
  - unfold console, emit, ret. cbn [final snd posts trace].
    rewrite Hlog. exact H.
Qed.

Lemma metadata_step_returns (metadataHtmlString : value) (w : world) :
  parse_metadata_if_supplied rt metadataHtmlString w
  = match metadata_source metadataHtmlString with
    | Throw e => (Throw e, w)
    | Return None => (Return Undefined, w)
    | Return (Some html) =>
        (outcome (parseJobMetadata rt html w),
         logged [(LInfo, "Successfully parsed job metadata")]
                (final (parseJobMetadata rt html w)))
    end.
Proof.
  unfold parse_metadata_if_supplied. unfold bind at 1. unfold lift at 1.
  destruct (metadata_source metadataHtmlString) as [[html|]|e];
    try reflexivity.
  unfold try_catch, bind.
  destruct (parseJobMetadata_total rt html w) as (r & w' & -> & _).
  reflexivity.
Qed.

Lemma metadata_step_budget (metadataHtmlString : value) :
  within_budget 3 3000 (parse_metadata_if_supplied rt metadataHtmlString).
Proof.
  intros w. rewrite metadata_step_returns.
  destruct (metadata_source metadataHtmlString) as [[html|]|e];
    cbn [final snd]; try lia.
  rewrite total_delay_logged. cbn [logged posts].
  apply parseJobMetadata_budget.
Qed.

Lemma analyze_budget (jd : jsstring) (structuredResume : value)
      (metadataHtmlString : value) (n : nat) (ms : Z) :
  within_budget n ms (parse_metadata_if_supplied rt metadataHtmlString) ->
  within_budget (9 + n) (9000 + ms)
                (analyze rt jd structuredResume metadataHtmlString).
Proof.
  intros Hmeta w. rewrite analyze_run. cbv zeta.
  rewrite preProcessJD_structured.
  pose proof (@structured_call_budget
                (jd_messages (sanitizeText (Str (substring0 6000 jd))))
                (3 # 10) 1200%Z structuredJD_of
                "Error processing Job Description:"
                "Failed to preprocess job description: " w) as H1.
  destruct (structured_call rt (jd_messages _) (3 # 10) 1200 structuredJD_of
                            _ _ w) as [[structuredJD|e] w1];
    cbn [final snd] in H1.
  2:{ cbn [final snd]. rewrite total_delay_logged. cbn [logged posts].
      destruct (Hmeta w). lia. }
  pose proof (Hmeta w1) as H2.
  destruct (parse_metadata_if_supplied rt metadataHtmlString w1)
    as [[parsedMetadata|e] w2]; cbn [final snd] in H2.
  2:{ cbn [final snd]. rewrite total_delay_logged. cbn [logged posts]. lia. }
  rewrite callOpenAI_structured.
  pose proof (@structured_call_budget
                (match_messages (sanitizeText (Str (substring0 3000 jd)))
                                (JSON_stringify structuredJD)
                                (JSON_stringify structuredResume))
                (5 # 10) 1800%Z (baseAnalysis_of rt)
                "Error calling OpenAI:"
                "Failed to analyze job description and resume: " w2) as H3.
  destruct (structured_call rt (match_messages _ _ _) (5 # 10) 1800
                            (baseAnalysis_of rt) _ _ w2)
    as [[baseAnalysis|e] w3]; cbn [final snd] in H3.
  2:{ cbn [final snd]. rewrite total_delay_logged. cbn [logged posts]. lia. }
  rewrite generateTailoredResume_structured.
  pose proof (@structured_call_budget
                (tailoring_messages structuredJD structuredResume)
                (7 # 10) 2000%Z tailoredResume_of
                "Error generating tailored resume:"
                "Failed to generate tailored resume: " w3) as H4.
  destruct (structured_call rt (tailoring_messages _ _) (7 # 10) 2000
                            tailoredResume_of _ _ w3)
    as [[tailoredResume|e] w4]; cbn [final snd] in H4 |- *.
  - lia.
  - rewrite total_delay_logged. cbn [logged posts]. lia.
Qed.

End CostFacts.

(** X7: one completion makes at most three calls and waits at most
    3000 ms between them; so do [preProcessJD], [preprocessResume] and
    [parseJobMetadata]; a whole [analyze] makes at most twelve calls and
    waits at most 12000 ms, nine calls and 9000 ms when no metadata source
    is passed. *)
Theorem X7_call_and_delay_budget rt :
  (forall messages model temperature maxTokens,
      within_budget 3 3000
        (callOpenAIChat rt messages model temperature maxTokens))
  /\ (forall jd, within_budget 3 3000 (preProcessJD rt jd))
  /\ (forall resumeText, within_budget 3 3000 (preprocessResume rt resumeText))
  /\ (forall html, within_budget 3 3000 (parseJobMetadata rt html))
  /\ (forall jd structuredResume metadataHtmlString,
         within_budget 12 12000
           (analyze rt jd structuredResume metadataHtmlString))
  /\ (forall jd structuredResume,
         within_budget 9 9000 (analyze rt jd structuredResume Undefined)).
Proof.
  split; [intros; apply callOpenAIChat_budget|].
  split; [intros; rewrite preProcessJD_structured;
          apply structured_call_budget|].
  split; [intros; apply preprocessResume_budget|].
  split; [intros; apply parseJobMetadata_budget|].
  split.
  - intros jd structuredResume metadataHtmlString.
    apply (@analyze_budget rt jd structuredResume metadataHtmlString
                           3 3000%Z).
    apply metadata_step_budget.
  - intros jd structuredResume.
    apply (@analyze_budget rt jd structuredResume Undefined 0 0%Z).
    intros w. cbn. lia.
Qed.

Section EventFacts.
Variable rt : runtime.
Variable P : event -> Prop.

Lemma emits_ret (A : Type) (a : A) : emits P (ret a).
Proof. intros w. exists []. cbn. now rewrite app_nil_r. Qed.

Lemma emits_throw (A : Type) (e : exn) : emits P (@throw A e).
Proof. intros w. exists []. cbn. now rewrite app_nil_r. Qed.

Lemma emits_lift (A : Type) (c : completion A) : emits P (lift c).
Proof. intros w. exists []. cbn. now rewrite app_nil_r. Qed.

Lemma emits_emit (e : event) : P e -> emits P (emit e).
Proof. intros He w. exists [e]. cbn. split; [reflexivity|]. now constructor. Qed.

Lemma emits_bind (A B : Type) (m : M A) (k : A -> M B) :
  emits P m -> (forall a, emits P (k a)) -> emits P (bind m k).
Proof.
  intros Hm Hk w. unfold bind. destruct (Hm w) as (evs & Ht & Hall).
  destruct (m w) as [[a|e] w1]; cbn [final snd] in Ht.
  - destruct (Hk a w1) as (evs' & Ht' & Hall').
    exists (evs ++ evs')%list. rewrite Ht', Ht, app_assoc.
    split; [reflexivity|]. apply Forall_app. now split.
  - exists evs. now split.
Qed.

Lemma emits_try_catch (A : Type) (m : M A) (handler : exn -> M A) :
  emits P m -> (forall e, emits P (handler e)) -> emits P (try_catch m handler).
Proof.
  intros Hm Hk w. unfold try_catch. destruct (Hm w) as (evs & Ht & Hall).
  destruct (m w) as [[a|e] w1]; cbn [final snd] in Ht.
  - exists evs. now split.
  - destruct (Hk e w1) as (evs' & Ht' & Hall').
    exists (evs ++ evs')%list. rewrite Ht', Ht, app_assoc.
    split; [reflexivity|]. apply Forall_app. now split.
Qed.

End EventFacts.

Lemma emits_impl (A : Type) (P Q : event -> Prop) (m : M A) :
  (forall e, P e -> Q e) -> emits P m -> emits Q m.
Proof.
  intros HPQ Hm w. destruct (Hm w) as (evs & Ht & Hall).
  exists evs. split; [exact Ht|]. revert Hall. apply Forall_impl. exact HPQ.
Qed.

Ltac trace_steps :=
  repeat first
         [ apply emits_ret | apply emits_throw | apply emits_lift
         | apply emits_emit; exact I
         | apply emits_bind; [|intros ?]
         | apply emits_try_catch; [|intros ?] ].

Lemma callOpenAIChat_events rt messages temperature maxTokens :
  In maxTokens [1000; 1200; 1800; 2000]%Z ->
  emits (event_of_service rt)
        (callOpenAIChat rt messages "gpt-4o-mini" temperature
                        (Some maxTokens)).
Proof.
  intros Hin. unfold callOpenAIChat.
  destruct (OPENAI_API_KEY rt) as [apiKey|] eqn:Hkey; [|apply emits_throw].
  destruct (String.eqb apiKey "") eqn:Hne; [apply emits_throw|].
  apply String.eqb_neq in Hne.
  eapply emits_impl;
    [|apply (@loop_events rt apiKey messages "gpt-4o-mini" temperature
                          (Some maxTokens) 3 0%Z None); lia].
  intros [r|ms|l line]; cbn; [|tauto|tauto].
  intros ->. unfold request_of_service.
  repeat (split; [reflexivity|]). split; [now exists apiKey|].
  exists maxTokens. cbn in Hin.
  destruct Hin as [<-|[<-|[<-|[<-|[]]]]]; cbn; split; (reflexivity || lia).
Qed.

Lemma structured_call_events rt messages temperature maxTokens normalize
      label prefix :
  In maxTokens [1000; 1200; 1800; 2000]%Z ->
  emits (event_of_service rt)
        (structured_call rt messages temperature maxTokens normalize label
                         prefix).
Proof.
  intros Hin. unfold structured_call, console.
  apply emits_try_catch; [apply emits_bind; [|intros ?]|intros ?];
    [now apply callOpenAIChat_events| |]; trace_steps.
Qed.

Lemma analyze_events rt jd structuredResume metadataHtmlString :
  emits (event_of_service rt)
        (analyze rt jd structuredResume metadataHtmlString).
Proof.
  unfold analyze, console.
  apply emits_try_catch; [|intros ?; trace_steps].
  apply emits_bind;
    [rewrite preProcessJD_structured; apply structured_call_events;
     cbn; tauto|intros structuredJD].
  apply emits_bind.
  { unfold parse_metadata_if_supplied, console.
    apply emits_bind; [apply emits_lift|intros [html|]; [|apply emits_ret]].
    apply emits_try_catch; [|intros ?; trace_steps].
    apply emits_bind; [|intros ?; trace_steps].
    unfold parseJobMetadata, console.
    apply emits_try_catch; [|intros ?; trace_steps].
    apply emits_bind; [apply callOpenAIChat_events; cbn; tauto|intros ?].
    trace_steps. }
  intros parsedMetadata. cbv zeta.
  apply emits_bind;
    [rewrite callOpenAI_structured; apply structured_call_events;
     cbn; tauto|intros baseAnalysis].
  apply emits_try_catch; [|intros ?; trace_steps].
  apply emits_bind; [|intros ?; trace_steps].
  rewrite generateTailoredResume_structured. apply structured_call_events.
  cbn. tauto.
Qed.

Lemma preprocessResume_events rt resumeText :
  emits (event_of_service rt) (preprocessResume rt resumeText).
Proof.
  unfold preprocessResume, console.
  apply emits_try_catch; [|intros ?; trace_steps].
  apply emits_bind; [apply callOpenAIChat_events; cbn; tauto|intros ?].
  trace_steps.
Qed.

(** X8: whatever [analyze] and [preprocessResume] are given and whatever
    the calls come to, every request they send goes to the completions
    endpoint with the configured credential as bearer token, a 60000 ms
    timeout, model gpt-4o-mini, a JSON-object response format and a token
    limit between 1000 and 2000; every delay is 1000 ms or 2000 ms; and
    besides calls, delays and console lines a run has no effect. *)
Theorem X8_requests_and_delays_of_a_run
        rt jd structuredResume metadataHtmlString resumeText :
  emits (event_of_service rt)
        (analyze rt jd structuredResume metadataHtmlString)
  /\ emits (event_of_service rt) (preprocessResume rt resumeText).
Proof.
  split; [apply analyze_events|apply preprocessResume_events].
Qed.

(* ================================================================= *)
(** ** Failures and what the caller gets to see of them *)

(** X9: without a credential (the variable unset or empty) nothing is
    sent: [analyze] and [preprocessResume] fail with an error naming the
    missing key behind their prefixes, while [parseJobMetadata] returns, as
    if the page held nothing, the record of ten empty strings, an empty
    [benefits] array and an empty [additionalInfo] object. *)
Theorem X9_no_credential_no_call rt (w : world) :
  OPENAI_API_KEY rt = None \/ OPENAI_API_KEY rt = Some "" ->
  (forall jd structuredResume metadataHtmlString,
      analyze rt jd structuredResume metadataHtmlString w
      = (Throw (new_Error "Failed to analyze job description and resume: Failed to preprocess job description: OPENAI_API_KEY is not configured"),
         logged [(LError, "Error processing Job Description:");
                 (LError, "Error analyzing JD and resume:")] w))
  /\ (forall resumeText,
         preprocessResume rt resumeText w
         = (Throw (new_Error "Failed to preprocess resume: OPENAI_API_KEY is not configured"),
            logged [(LError, "Error preprocessing resume:")] w))
  /\ (forall html,
         parseJobMetadata rt html w
         = (Return
              (Obj [(js "companyLinkedInUrl", Str []);
                    (js "companyLogoUrl", Str []);
                    (js "companyName", Str []);
                    (js "jobTitle", Str []);
                    (js "location", Str []);
                    (js "salary", Str []);
                    (js "postedDate", Str []);
                    (js "applicationDeadline", Str []);
                    (js "jobType", Str []);
                    (js "remote", Str []);
                    (js "benefits", Arr []);
                    (js "additionalInfo", Obj [])]),
            logged [(LError, "Error parsing job metadata:")] w)).
Proof.
  intros Hkey. repeat split.
  - intros jd structuredResume metadataHtmlString.
    rewrite analyze_run. cbv zeta.
    rewrite preProcessJD_structured, structured_call_run.
    rewrite callOpenAIChat_unconfigured by exact Hkey.
    rewrite logged_logged. reflexivity.
  - intros resumeText. unfold preprocessResume, try_catch, bind.
    rewrite callOpenAIChat_unconfigured by exact Hkey. reflexivity.
  - intros html. unfold parseJobMetadata, try_catch, bind.
    rewrite callOpenAIChat_unconfigured by exact Hkey. reflexivity.
Qed.

Lemma X9_witness :
  outcome (analyze Cases.no_key Script.sample_jd
                   (Obj [(js "name", Str (js "Ada"))])
                   (Str Script.sample_html) initial)
  = Throw (new_Error "Failed to analyze job description and resume: Failed to preprocess job description: OPENAI_API_KEY is not configured")
  /\ posts (final (analyze Cases.no_key Script.sample_jd
                           (Obj [(js "name", Str (js "Ada"))])
                           (Str Script.sample_html) initial)) = 0%nat.
Proof.
  destruct (@X9_no_credential_no_call Cases.no_key initial
                                      (or_introl eq_refl)) as (H & _ & _).
  rewrite H. split; reflexivity.
Defined.

(** X10: when the first attempt of the JD call fails with anything the
    client does not retry, [preProcessJD] makes that one call and throws
    one of three fixed messages behind its prefix: the invalid-key text for
    status 401, the invalid-request text for status 400, and for every
    other failure (another status, no response at all, an empty completion)
    "Unknown error"; the message of the failure itself is not passed on. *)
Theorem X10_failure_message_of_a_refused_call
        rt apiKey (jd : jsstring) (e : exn) (w : world) :
  OPENAI_API_KEY rt = Some apiKey -> apiKey <> "" ->
  let req :=
    requestBody apiKey
                (jd_messages (sanitizeText (Str (substring0 6000 jd))))
                "gpt-4o-mini" (3 # 10) (Some 1200%Z) in
  attempt_outcome (axios_post rt (posts w) req) = Throw e ->
  isRetryableStatus (response_status_of e) = false ->
  preProcessJD rt jd w
  = (Throw (new_Error
              ("Failed to preprocess job description: "
               ++ match response_status_of e with
                  | Some 401%Z => "Invalid OpenAI API key"
                  | Some 400%Z => "Invalid request to OpenAI API"
                  | _ => "Unknown error"
                  end)),
     logged [(LError, "Error processing Job Description:")] (sent req w)).
Proof.
  intros Hkey Hne req He Hretry. subst req.
  rewrite preProcessJD_structured, structured_call_run.
  rewrite callOpenAIChat_configured with (apiKey := apiKey) by assumption.
  rewrite loop_step, He, Hretry.
  destruct (response_status_of e) as [[|c|c]|]; try reflexivity.
  repeat (destruct c as [c|c|]; try reflexivity).
Qed.

Lemma X10_witness :
  outcome (preProcessJD Cases.offline Script.sample_jd initial)
  = Throw (new_Error "Failed to preprocess job description: Unknown error")
  /\ posts (final (preProcessJD Cases.offline Script.sample_jd initial))
     = 1%nat.
Proof.
  rewrite (@X10_failure_message_of_a_refused_call
             Cases.offline "sk-test" Script.sample_jd
             (Error "Network Error" None) initial);
    [split; reflexivity|reflexivity|discriminate|reflexivity|reflexivity].
Defined.

(* ================================================================= *)
(** ** What the normalizers make of odd answers *)

(** X11: once the completion has returned a text, [preProcessJD] turns
    on what [JSON.parse] makes of it: a parse error is rethrown behind the
    prefix with the parser's message; the value [null] gives the engine's
    complaint about reading [title] of null; a boolean, a number, a string or
    an array gives, without any complaint, the structured JD in which every
    property has its default. *)
Theorem X11_preProcessJD_on_parsed_answers
        rt (jd response : jsstring) (w w1 : world) :
  callOpenAIChat rt (jd_messages (sanitizeText (Str (substring0 6000 jd))))
                 "gpt-4o-mini" (3 # 10) (Some 1200%Z) w
  = (Return response, w1) ->
  let failed msg :=
    (@Throw value
            (new_Error ("Failed to preprocess job description: " ++ msg)),
     logged [(LError, "Error processing Job Description:")] w1) in
  (forall e, JSON_parse rt (trim response) = Throw e ->
             preProcessJD rt jd w = failed (message_or_unknown e))
  /\ (JSON_parse rt (trim response) = Return Null ->
      preProcessJD rt jd w
      = failed "Cannot read properties of null (reading 'title')")
  /\ (forall parsed,
         JSON_parse rt (trim response) = Return parsed ->
         match parsed with
         | Bool _ | Num _ | Str _ | Arr _ => True
         | _ => False
         end ->
         preProcessJD rt jd w = (Return empty_structuredJD, w1)).
Proof.
  intros Hcall failed. subst failed. cbv beta.
  rewrite preProcessJD_structured, structured_call_run, Hcall.
  repeat split.
  - intros e ->. reflexivity.
  - intros ->. reflexivity.
  - intros parsed -> Hshape.
    destruct parsed; try contradiction; reflexivity.
Qed.

Lemma X11_witness :
  outcome (preProcessJD Cases.jd_null Script.sample_jd initial)
  = Throw (new_Error "Failed to preprocess job description: Cannot read properties of null (reading 'title')")
  /\ outcome (preProcessJD Cases.jd_number Script.sample_jd initial)
     = Return empty_structuredJD.
Proof.
  split.
  - destruct (callOpenAIChat Cases.jd_null
                (jd_messages
                   (sanitizeText (Str (substring0 6000 Script.sample_jd))))
                "gpt-4o-mini" (3 # 10) (Some 1200%Z) initial)
      as [c w1] eqn:Hcall.
    vm_compute in Hcall. inversion Hcall as [[Hc Hw]]. rewrite <- Hc in Hcall.
    destruct (@X11_preProcessJD_on_parsed_answers
                Cases.jd_null Script.sample_jd _ initial w1 Hcall)
      as (_ & H & _).
    rewrite H; reflexivity.
  - destruct (callOpenAIChat Cases.jd_number
                (jd_messages
                   (sanitizeText (Str (substring0 6000 Script.sample_jd))))
                "gpt-4o-mini" (3 # 10) (Some 1200%Z) initial)
      as [c w1] eqn:Hcall.
    vm_compute in Hcall. inversion Hcall as [[Hc Hw]]. rewrite <- Hc in Hcall.
    destruct (@X11_preProcessJD_on_parsed_answers
                Cases.jd_number Script.sample_jd _ initial w1 Hcall)
      as (_ & _ & H).
    rewrite (H (Num (num 42))); [reflexivity|reflexivity|exact I].
Defined.

(** X12: once the metadata completion has returned a text that parses,
    [parseJobMetadata] is all or nothing: when the parsed answer lacks
    [company] or lacks [job] (missing or null), it logs an error and returns
    the record of ten empty strings, an empty [benefits] array and an empty
    [additionalInfo] object, dropping what the other part held; when both
    are there it returns their seven properties, the empty string standing
    in for a missing one, and leaves [salary], [applicationDeadline],
    [remote], [benefits] and [additionalInfo] empty whatever the answer
    said. *)
Theorem X12_metadata_needs_company_and_job
        rt (html response : jsstring) (parsed : value) (w w1 : world) :
  callOpenAIChat rt
                 (metadata_messages
                    (sanitizeText (Str (substring0 6000 html))))
                 "gpt-4o-mini" (2 # 10) (Some 1000%Z) w
  = (Return response, w1) ->
  JSON_parse rt (trim response) = Return parsed ->
  let company := field parsed "company" in
  let job := field parsed "job" in
  (absent company \/ absent job ->
   parseJobMetadata rt html w
   = (Return
        (Obj [(js "companyLinkedInUrl", Str []);
              (js "companyLogoUrl", Str []);
              (js "companyName", Str []);
              (js "jobTitle", Str []);
              (js "location", Str []);
              (js "salary", Str []);
              (js "postedDate", Str []);
              (js "applicationDeadline", Str []);
              (js "jobType", Str []);
              (js "remote", Str []);
              (js "benefits", Arr []);
              (js "additionalInfo", Obj [])]),
      logged [(LError, "Error parsing job metadata:")] w1))
  /\ (non_null company -> non_null job ->
      parseJobMetadata rt html w
      = (Return
           (Obj [(js "companyLinkedInUrl",
                   or_else (field company "linkedinUrl") (Str []));
                 (js "companyLogoUrl",
                   or_else (field company "logo") (Str []));
                 (js "companyName",
                   or_else (field company "name") (Str []));
                 (js "jobTitle", or_else (field job "title") (Str []));
                 (js "location", or_else (field job "location") (Str []));
                 (js "salary", (Str []));
                 (js "postedDate", or_else (field job "posted") (Str []));
                 (js "applicationDeadline", (Str []));
                 (js "jobType",
                   or_else (field job "employmentType") (Str []));
                 (js "remote", (Str []));
                 (js "benefits", (Arr []));
                 (js "additionalInfo", (Obj []))]),
         w1)).
Proof.
  intros Hcall Hparse company job.
  unfold parseJobMetadata, try_catch, bind. rewrite Hcall.
  unfold lift. rewrite Hparse. split.
  - intros Habsent. destruct (jobMetadata_of_throws parsed Habsent) as [e ->].
    reflexivity.
  - intros [Hc1 Hc2] [Hj1 Hj2].
    assert (Hp : exists fields, parsed = Obj fields).
    { subst company. destruct parsed; try (cbn in Hc1; congruence). eauto. }
    destruct Hp as [fields ->].
    unfold jobMetadata_of, object_literal, nested, or_default.
    cbn [object_literal_fields get cbind].
    fold company job.
    rewrite !(@get_defined company) by assumption.
    rewrite !(@get_defined job) by assumption.
    reflexivity.
Qed.

Lemma X12_witness :
  outcome (parseJobMetadata Cases.metadata_without_company
                            Script.sample_html initial)
  = Return
      (Obj [(js "companyLinkedInUrl", Str []);
            (js "companyLogoUrl", Str []);
            (js "companyName", Str []);
            (js "jobTitle", Str []);
            (js "location", Str []);
            (js "salary", Str []);
            (js "postedDate", Str []);
            (js "applicationDeadline", Str []);
            (js "jobType", Str []);
            (js "remote", Str []);
            (js "benefits", Arr []);
            (js "additionalInfo", Obj [])]).
Proof.
  destruct (callOpenAIChat Cases.metadata_without_company
              (metadata_messages
                 (sanitizeText (Str (substring0 6000 Script.sample_html))))
              "gpt-4o-mini" (2 # 10) (Some 1000%Z) initial)
    as [c w1] eqn:Hcall.
  vm_compute in Hcall. inversion Hcall as [[Hc Hw]]. rewrite <- Hc in Hcall.
  destruct (@X12_metadata_needs_company_and_job
              Cases.metadata_without_company Script.sample_html _
              Cases.job_only_json initial w1 Hcall eq_refl) as [H _].
  rewrite H; [reflexivity|]. left. left. reflexivity.
Defined.

Lemma trim_nonempty (s : jsstring) :
  (0 < List.length (trim s))%nat -> is_empty s = false.
Proof. destruct s; [cbn; lia|reflexivity]. Qed.

Lemma parseJobMetadata_events rt (html : jsstring) :
  emits (fun e => match e with
                  | Console LWarn _ => False
                  | _ => True
                  end)
        (parseJobMetadata rt html).
Proof.
  unfold parseJobMetadata, console.
  apply emits_try_catch; [|intros ?; trace_steps].
  apply emits_bind; [|intros ?; trace_steps].
  unfold callOpenAIChat.
  destruct (OPENAI_API_KEY rt) as [apiKey|]; [|apply emits_throw].
  destruct (String.eqb apiKey ""); [apply emits_throw|].
  eapply emits_impl; [|apply loop_events; lia].
  intros [r|ms|l line]; cbn; try tauto. now intros ->.
Qed.

(** X13: given a metadata source that is not blank, the metadata step of
    [analyze] returns an object with an empty [benefits] list and logs
    success, whatever became of the call and of its answer; it never
    returns undefined, never throws, and the warning of its own [catch] is
    never logged. *)
Theorem X13_metadata_step_always_reports_success
        rt (html : jsstring) (w : world) :
  (0 < List.length (trim html))%nat ->
  let run := parse_metadata_if_supplied rt (Str html) w in
  (exists fields,
      outcome run = Return (Obj fields)
      /\ lookup (js "benefits") fields = empty_array)
  /\ (exists evs,
         trace (final run)
         = (trace w ++ evs
            ++ [Console LInfo "Successfully parsed job metadata"])%list
         /\ forall line, ~ In (Console LWarn line) evs).
Proof.
  intros Hblank run. subst run. rewrite metadata_step_returns.
  unfold metadata_source. cbn [truthy].
  rewrite (trim_nonempty _ Hblank). cbn [negb].
  apply Nat.ltb_lt in Hblank. rewrite Hblank.
  cbn [outcome final fst snd]. split.
  - destruct (parseJobMetadata_total rt html w) as (r & w' & -> & Hb).
    cbn [fst]. destruct r as [| | | | | |fields]; try discriminate Hb.
    exists fields. split; [reflexivity|exact Hb].
  - destruct (parseJobMetadata_events rt html w) as (evs & Ht & Hall).
    exists evs. cbn [logged trace map fst snd].
    rewrite Ht, app_assoc. split; [reflexivity|].
    intros line Hin. rewrite Forall_forall in Hall.
    exact (Hall _ Hin).
Qed.

Lemma X13_witness :
  (0 < List.length (trim Script.sample_html))%nat
  /\ exists fields,
      outcome (parse_metadata_if_supplied Cases.offline
                                          (Str Script.sample_html) initial)
      = Return (Obj fields)
      /\ lookup (js "benefits") fields = empty_array.
Proof.
  assert (H : (0 < List.length (trim Script.sample_html))%nat)
    by (vm_compute; lia).
  split; [exact H|].
  exact (proj1 (@X13_metadata_step_always_reports_success
                  Cases.offline Script.sample_html initial H)).
Defined.

(* ================================================================= *)
(** ** The assembled result *)



(** X14: when all four steps of [analyze] return, the result holds the six
    properties of the match analysis as [callOpenAI] returned them, then
    [structuredJD], [tailoredResume] and [jobMetadata], in this order: the
    generated tailored resume has taken the place of the placeholder, and
    [jobMetadata] is whatever the metadata step came to, undefined
    included. *)
Theorem X14_analyze_when_every_step_returns
        rt (jd : jsstring) (structuredResume metadataHtmlString : value)
        (structuredJD parsedMetadata baseAnalysis tailoredResume : value)
        (w w1 w2 w3 w4 : world) :
  preProcessJD rt jd w = (Return structuredJD, w1) ->
  parse_metadata_if_supplied rt metadataHtmlString w1
  = (Return parsedMetadata, w2) ->
  callOpenAI rt jd (JSON_stringify structuredResume)
             (JSON_stringify structuredJD) w2
  = (Return baseAnalysis, w3) ->
  generateTailoredResume rt structuredJD structuredResume w3
  = (Return tailoredResume, w4) ->
  exists r,
    analyze rt jd structuredResume metadataHtmlString w = (Return r, w4)
    /\ keys r
       = map js (analysis_properties
                 ++ ["structuredJD"; "tailoredResume"; "jobMetadata"])
    /\ (forall k, In k analysis_properties ->
                  field r k = field baseAnalysis k)
    /\ field r "structuredJD" = structuredJD
    /\ field r "tailoredResume" = tailoredResume
    /\ field r "jobMetadata" = parsedMetadata.
Proof.
  intros Hjd Hmeta Hcall Hgen. rewrite analyze_run. cbv zeta.
  rewrite Hjd, Hmeta, Hcall, Hgen.
  apply callOpenAI_shape in Hcall.
  destruct Hcall as (n & v1 & v2 & v3 & v4 & v5 & -> & _).
  eexists. split; [reflexivity|]. split; [reflexivity|].
  split; [|repeat split; reflexivity].
  intros k Hin. cbn in Hin.
  destruct Hin as [<-|[<-|[<-|[<-|[<-|[<-|[]]]]]]]; reflexivity.
Qed.

Lemma X14_witness :
  exists r w',
    analyze Script.all_succeed Script.sample_jd (Str Script.sample_resume)
            Undefined initial = (Return r, w')
    /\ field r "tailoredResume"
       = Obj [(js "tailoredSummary", Str (js "Fit"));
              (js "tailoredSkills", empty_array);
              (js "tailoredExperience", empty_array);
              (js "tailoredProjects", empty_array);
              (js "coverLetterHighlights", empty_array)]
    /\ field r "jobMetadata" = Undefined.
Proof.
  destruct (preProcessJD Script.all_succeed Script.sample_jd initial)
    as [c1 w1] eqn:H1.
  vm_compute in H1. inversion H1 as [[Hc1 Hw1]]. rewrite <- Hc1, <- Hw1 in H1.
  match type of H1 with _ = (Return ?sjd, ?w1') =>
    destruct (callOpenAI Script.all_succeed Script.sample_jd
                         (JSON_stringify (Str Script.sample_resume))
                         (JSON_stringify sjd) w1') as [c3 w3] eqn:H3;
    vm_compute in H3; inversion H3 as [[Hc3 Hw3]];
    rewrite <- Hc3, <- Hw3 in H3;
    match type of H3 with _ = (_, ?w3') =>
      destruct (generateTailoredResume Script.all_succeed sjd
                                       (Str Script.sample_resume) w3')
        as [c4 w4] eqn:H4;
      vm_compute in H4; inversion H4 as [[Hc4 Hw4]];
      rewrite <- Hc4, <- Hw4 in H4
    end
  end.
  destruct (@X14_analyze_when_every_step_returns
              Script.all_succeed Script.sample_jd (Str Script.sample_resume)
              Undefined _ Undefined _ _ initial _ _ _ _
              H1 eq_refl H3 H4)
    as (r & Hrun & _ & _ & _ & Ht & Hm).
  exists r. eexists. split; [exact Hrun|]. split; [exact Ht|exact Hm].
Defined.

(* ================================================================= *)
(** ** The controllers *)

Lemma sanitized_fits (text : value) :
  substring0 6000 (sanitizeText text) = sanitizeText text.
Proof. apply firstn_all2. apply sanitizeText_length. Qed.

(** The body shared by the handlers: announce, run the service, report. *)
Lemma handler_body_run (A : Type) (start done failed : string)
      (service : M A) (answer : A -> reply) (w : world) :
  (console LInfo start ;;
   try_catch (r <- service ;; console LInfo done ;; ret (answer r))
             (fun error => console LError failed ;; throw error)) w
  = match service (logged [(LInfo, start)] w) with
    | (Return r, w1) => (Return (answer r), logged [(LInfo, done)] w1)
    | (Throw e, w1) => (Throw e, logged [(LError, failed)] w1)
    end.
Proof.
  unfold bind at 1. unfold console at 1. unfold emit at 1.
  unfold try_catch, bind.
  change {| posts := posts w; trace := trace w ++ [Console LInfo start] |}
    with (logged [(LInfo, start)] w).
  destruct (service (logged [(LInfo, start)] w)) as [[r|e] w1]; reflexivity.
Qed.

Lemma truthy_string (v : value) :
  truthy v = true -> is_string v = true -> exists s, v = Str s /\ s <> [].
Proof.
  destruct v; try discriminate. cbn. intros H _. exists s.
  split; [reflexivity|]. now destruct s.
Qed.

Section ControllerFacts.
Variable rt : runtime.

Lemma structured_analyzeHandler_run (req_body : value) (jd : jsstring)
      (fields : list (jsstring * value)) (w : world) :
  field req_body "jd" = Str jd -> jd <> [] ->
  field req_body "structuredResume" = Obj fields ->
  Controllers.analyzeHandler rt req_body w
  = match analyze rt (sanitizeText (Str jd)) (Obj fields)
                  (field (field req_body "jobMetadata") "metadataHtmlString")
                  (logged [(LInfo, "Analyzing job description and structured resume...")]
                          w) with
    | (Return r, w1) =>
        (Return {| status := 200; payload := r |},
         logged [(LInfo, "Successfully analyzed job description and resume")]
                w1)
    | (Throw e, w1) =>
        (Throw e, logged [(LError, "Error analyzing JD and resume:")] w1)
    end.
Proof.
  intros Hjd Hne Hres.
  assert (Hobj : exists f, req_body = Obj f)
    by (destruct req_body; try discriminate Hjd; eauto).
  destruct Hobj as [f ->]. unfold Controllers.analyzeHandler.
  rewrite Hjd, Hres. cbn [truthy is_string Controllers.is_plain_object negb].
  destruct jd as [|c jd]; [congruence|]. cbn [is_empty negb orb].
  assert (Hopt : Controllers.optional_metadataHtmlString
                   (field (Obj f) "jobMetadata")
                 = field (field (Obj f) "jobMetadata") "metadataHtmlString")
    by (unfold Controllers.optional_metadataHtmlString;
        destruct (field (Obj f) "jobMetadata"); reflexivity).
  rewrite Hopt.
  apply (@handler_body_run
           value
           "Analyzing job description and structured resume..."
           "Successfully analyzed job description and resume"
           "Error analyzing JD and resume:"
           (analyze rt (sanitizeText (Str (c :: jd))) (Obj fields)
                    (field (field (Obj f) "jobMetadata")
                           "metadataHtmlString"))
           (fun r => {| status := 200; payload := r |}) w).
Qed.

Lemma preprocessResumeHandler_run (req_body : value) (s : jsstring)
      (w : world) :
  field req_body "resumeText" = Str s -> s <> [] ->
  Controllers.preprocessResumeHandler rt req_body w
  = match preprocessResume rt (sanitizeText (Str s))
                           (logged [(LInfo, "Preprocessing resume...")] w) with
    | (Return r, w1) =>
        (Return {| status := 200;
                   payload := Obj [(js "structuredResume", r)] |},
         logged [(LInfo, "Successfully preprocessed resume")] w1)
    | (Throw e, w1) =>
        (Throw e, logged [(LError, "Error preprocessing resume:")] w1)
    end.
Proof.
  intros Hs Hne.
  assert (Hobj : exists f, req_body = Obj f)
    by (destruct req_body; try discriminate Hs; eauto).
  destruct Hobj as [f ->]. unfold Controllers.preprocessResumeHandler.
  rewrite Hs. cbn [truthy is_string negb].
  destruct s as [|c s]; [congruence|]. cbn [is_empty negb orb].
  apply (@handler_body_run
           value "Preprocessing resume..." "Successfully preprocessed resume"
           "Error preprocessing resume:"
           (preprocessResume rt (sanitizeText (Str (c :: s))))
           (fun r => {| status := 200;
                        payload := Obj [(js "structuredResume", r)] |}) w).
Qed.


End ControllerFacts.

(** X15: the analyze controller for a structured resume passes
    [jobMetadata.metadataHtmlString] on unchecked; when it is truthy but not
    a string (a number, [true], an array, an object), the JD extraction is
    carried out and paid for, and then the request fails on the missing
    [trim] method, before any match analysis: the handler throws the wrapped
    type error, having logged the failure twice. *)
Theorem X15_metadata_source_that_is_not_a_string
        rt (req_body : value) (jd : jsstring)
        (fields : list (jsstring * value)) (metadataHtmlString : value)
        (structuredJD : value) (w w1 : world) :
  field req_body "jd" = Str jd -> jd <> [] ->
  field req_body "structuredResume" = Obj fields ->
  field (field req_body "jobMetadata") "metadataHtmlString"
  = metadataHtmlString ->
  truthy metadataHtmlString = true ->
  is_string metadataHtmlString = false ->
  preProcessJD rt (sanitizeText (Str jd))
               (logged [(LInfo, "Analyzing job description and structured resume...")]
                       w)
  = (Return structuredJD, w1) ->
  Controllers.analyzeHandler rt req_body w
  = (Throw (new_Error "Failed to analyze job description and resume: metadataHtmlString.trim is not a function"),
     logged [(LError, "Error analyzing JD and resume:");
             (LError, "Error analyzing JD and resume:")] w1).
Proof.
  intros Hjd Hne Hres Hmeta Htruthy Hstring Hrun.
  rewrite (@structured_analyzeHandler_run rt req_body jd fields w Hjd Hne Hres).
  rewrite Hmeta, analyze_run. cbv zeta. rewrite Hrun.
  assert (Hsource : parse_metadata_if_supplied rt metadataHtmlString w1
                    = (Throw (TypeError "metadataHtmlString.trim is not a function"),
                       w1)).
  { unfold parse_metadata_if_supplied, metadata_source. rewrite Htruthy.
    destruct metadataHtmlString; try discriminate Hstring; reflexivity. }
  rewrite Hsource, logged_logged. reflexivity.
Qed.

Lemma X15_witness :
  outcome (Controllers.analyzeHandler Script.all_succeed
                                      (Cases.structured_body (Num (num 7)))
                                      initial)
  = Throw (new_Error "Failed to analyze job description and resume: metadataHtmlString.trim is not a function")
  /\ posts (final (Controllers.analyzeHandler
                     Script.all_succeed
                     (Cases.structured_body (Num (num 7))) initial))
     = 1%nat.
Proof.
  destruct (preProcessJD Script.all_succeed
                         (sanitizeText (Str Script.sample_jd))
                         (logged [(LInfo, "Analyzing job description and structured resume...")]
                                 initial))
    as [c w1] eqn:Hrun.
  vm_compute in Hrun. inversion Hrun as [[Hc Hw]].
  rewrite <- Hc, <- Hw in Hrun.
  rewrite (@X15_metadata_source_that_is_not_a_string
             Script.all_succeed (Cases.structured_body (Num (num 7)))
             Script.sample_jd [(js "name", Str (js "Ada"))] (Num (num 7))
             _ initial _ eq_refl ltac:(discriminate) eq_refl eq_refl
             eq_refl eq_refl Hrun).
  split; reflexivity.
Defined.

(** X16: the resume controller sanitizes the text and the service
    sanitizes it again (its truncation to 6000 units then has nothing to
    cut); once the completion returns a text the handler answers 200: with
    whatever [JSON.parse] makes of the text, be it null or a number, and
    with the fallback structure when the text does not parse. *)
Theorem X16_resume_handler_answers_once_text_arrives
        rt (req_body : value) (s response : jsstring) (w w1 : world) :
  field req_body "resumeText" = Str s -> s <> [] ->
  let sanitizedResume := sanitizeText (Str (sanitizeText (Str s))) in
  callOpenAIChat rt (resume_messages sanitizedResume) "gpt-4o-mini"
                 (2 # 10) (Some 1200%Z)
                 (logged [(LInfo, "Preprocessing resume...")] w)
  = (Return response, w1) ->
  Controllers.preprocessResumeHandler rt req_body w
  = (Return {| status := 200;
               payload :=
                 Obj [(js "structuredResume",
                        match JSON_parse rt (trim response) with
                        | Return parsed => parsed
                        | Throw _ => resume_fallback sanitizedResume
                        end)] |},
     logged [(LInfo, "Successfully preprocessed resume")] w1).
Proof.
  intros Hs Hne sanitizedResume Hcall.
  rewrite (@preprocessResumeHandler_run rt req_body s w Hs Hne).
  unfold preprocessResume. rewrite sanitized_fits. fold sanitizedResume.
  unfold try_catch, bind. rewrite Hcall. unfold lift.
  destruct (JSON_parse rt (trim response)); reflexivity.
Qed.

Lemma X16_witness :
  outcome (Controllers.preprocessResumeHandler
             Script.resume_garbled
             (Obj [(js "resumeText", Str Script.sample_resume)]) initial)
  = Return {| status := 200;
              payload :=
                Obj [(js "structuredResume",
                       resume_fallback Script.sample_resume)] |}.
Proof.
  destruct (callOpenAIChat Script.resume_garbled
              (resume_messages
                 (sanitizeText (Str (sanitizeText (Str Script.sample_resume)))))
              "gpt-4o-mini" (2 # 10) (Some 1200%Z)
              (logged [(LInfo, "Preprocessing resume...")] initial))
    as [c w1] eqn:Hcall.
  vm_compute in Hcall. inversion Hcall as [[Hc Hw]].
  rewrite <- Hc, <- Hw in Hcall.
  rewrite (@X16_resume_handler_answers_once_text_arrives
             Script.resume_garbled
             (Obj [(js "resumeText", Str Script.sample_resume)])
             Script.sample_resume _ initial _ eq_refl ltac:(discriminate)
             Hcall).
  vm_compute. reflexivity.
Defined.

(* ================================================================= *)
(** ** The routes *)





















(* ================================================================= *)
(** ** The CORS origin check *)

Section CorsFacts.
Import Cors.

Lemma split_comma_piece (s : string) :
  has_comma s = false -> split_comma s = [s].
Proof.
  induction s as [|c s IH]; [reflexivity|].
  cbn [has_comma split_comma]. intros H. apply orb_false_iff in H.
  destruct H as [-> H]. now rewrite (IH H).
Qed.

Lemma split_comma_append (s rest : string) :
  has_comma s = false ->
  split_comma (s ++ "," ++ rest) = s :: split_comma rest.
Proof.
  induction s as [|c s IH]; [reflexivity|].
  cbn [has_comma]. intros H. apply orb_false_iff in H. destruct H as [Hc H].
  change (String c s ++ "," ++ rest) with (String c (s ++ "," ++ rest)).
  cbn [split_comma]. rewrite Hc. now rewrite (IH H).
Qed.

Lemma split_join (l : list string) :
  l <> [] -> Forall (fun s => has_comma s = false) l ->
  split_comma (join_comma l) = l.
Proof.
  induction l as [|s l IH]; [congruence|]. intros _ Hall.
  inversion Hall as [|s' l' Hs Hl]; subst.
  destruct l as [|s2 l]; [now apply split_comma_piece|].
  change (join_comma (s :: s2 :: l)) with (s ++ "," ++ join_comma (s2 :: l)).
  rewrite split_comma_append by exact Hs.
  rewrite IH; [reflexivity|discriminate|exact Hl].
Qed.

Lemma includes_In (l : list string) (s : string) :
  includes l s = true <-> In s l.
Proof.
  unfold includes. rewrite existsb_exists. split.
  - intros (x & Hin & Heq). apply String.eqb_eq in Heq. now subst.
  - intros Hin. exists s. split; [exact Hin|apply String.eqb_refl].
Qed.

End CorsFacts.

(** X19: the origin callback.  A request without an origin, or with an
    empty one, is let through, and so is every origin when [CORS_ORIGINS]
    is not set.  When it is set to the comma-joined list [l] of entries
    (none holding a comma), the entries are taken verbatim, and an origin is
    let through exactly when the list holds the wildcard, the list holds the
    origin itself, or the origin starts with [chrome-extension://]; every
    other origin is refused with the CORS error. *)
Theorem X19_cors_origin_check (l : list string) (o : string) :
  l <> [] -> Forall (fun s => Cors.has_comma s = false) l ->
  let CORS_ORIGINS := Some (Cors.join_comma l) in
  Cors.allowedOrigins CORS_ORIGINS = l
  /\ (Cors.origin_check CORS_ORIGINS (Some o) = inl true
      <-> o = "" \/ In "*" l \/ In o l
          \/ String.prefix "chrome-extension://" o = true)
  /\ (Cors.origin_check CORS_ORIGINS (Some o) = inl true
      \/ Cors.origin_check CORS_ORIGINS (Some o) = inr "Not allowed by CORS")
  /\ Cors.origin_check CORS_ORIGINS None = inl true
  /\ Cors.origin_check None (Some o) = inl true.
Proof.
  intros Hne Hall CORS_ORIGINS. subst CORS_ORIGINS.
  assert (Hsplit : Cors.allowedOrigins (Some (Cors.join_comma l)) = l)
    by (now apply split_join).
  split; [exact Hsplit|].
  unfold Cors.origin_check. rewrite Hsplit.
  split; [|split; [|split]].
  - destruct (String.eqb o "") eqn:Ho.
    { apply String.eqb_eq in Ho. tauto. }
    apply String.eqb_neq in Ho.
    destruct (Cors.includes l "*") eqn:Hstar.
    { apply includes_In in Hstar. tauto. }
    destruct (Cors.includes l o) eqn:Hin.
    { apply includes_In in Hin. tauto. }
    assert (Hnstar : ~ In "*" l)
      by (intros H; apply includes_In in H; congruence).
    assert (Hnin : ~ In o l)
      by (intros H; apply includes_In in H; congruence).
    destruct (String.prefix "chrome-extension://" o); [tauto|].
    split; [discriminate|]. intros [H|[H|[H|H]]]; try contradiction.
    discriminate.
  - destruct (String.eqb o ""); [now left|].
    destruct (Cors.includes l "*"); [now left|].
    destruct (Cors.includes l o); [now left|].
    destruct (String.prefix "chrome-extension://" o); [now left|now right].
  - reflexivity.
  - cbn. destruct (String.eqb o ""); reflexivity.
Qed.

Lemma X19_witness :
  Cors.origin_check (Some "https://app.example.com,http://localhost:3000")
                    (Some "http://localhost:3000") = inl true
  /\ Cors.origin_check (Some "https://app.example.com,http://localhost:3000")
                       (Some "https://evil.example.com")
     = inr "Not allowed by CORS".
Proof.
  assert (Hl : ["https://app.example.com"; "http://localhost:3000"]
               <> @nil string) by discriminate.
  assert (Hall : Forall (fun s => Cors.has_comma s = false)
                        ["https://app.example.com"; "http://localhost:3000"])
    by (repeat constructor).
  split.
  - apply (proj1 (proj2 (@X19_cors_origin_check
                           ["https://app.example.com";
                            "http://localhost:3000"]
                           "http://localhost:3000" Hl Hall))).
    right. right. left. right. left. reflexivity.
  - destruct (proj1 (proj2 (proj2 (@X19_cors_origin_check
                                     ["https://app.example.com";
                                      "http://localhost:3000"]
                                     "https://evil.example.com" Hl Hall))))
      as [H|H]; [discriminate H|exact H].
Defined.
